(** * Sales-forecasting platform: the ML service, embedded and verified

    A shallow embedding of [ml-service]: the data loader and its cache,
    the three forecasters, the metrics engine and the orchestrator.

    Conventions of the embedding.
    - A Python float is a real number ([R]): the arithmetic is the exact
      one, without rounding, overflow or NaN.
    - A timestamp is a calendar day, counted in days since 1970-01-01.
    - Calls into statsmodels, xgboost, scikit-learn and the pandas parsers
      are oracles, gathered in records; [None] stands for a raised
      exception.  The general theorems hold for every oracle; the
      evaluations use the oracles of [Sample].
    - [groupby], [resample] and [date_range] are functions of the
      embedding, written after their pandas semantics on whole days.
    - A Python exception is a value of [exn]; a function that may raise
      returns a [result]. *)

From Stdlib Require Import Reals Lra Lia ZArith List String Ascii Bool Sorted.
From stdpp Require Import gmap strings list fin_maps.

Open Scope R_scope.

(* ================================================================== *)
(** * Part I. The program                                              *)
(* ================================================================== *)

(** ** Exceptions *)

Inductive exn : Type :=
| ValueError (msg : string)
| KeyError (key : string)
| IndexError
| TypeError
| ZeroDivisionError
| UnboundLocalError
| LibraryError.

Inductive result (A : Type) : Type :=
| Ok (a : A)
| Raise (e : exn).
Arguments Ok {A} a.
Arguments Raise {A} e.

(** Sequencing: the first exception raised ends the computation.  The
    notation [x ← r; k] is stdpp's. *)
#[global] Instance result_bind : MBind result := fun A B k r =>
  match r with
  | Ok a => k a
  | Raise e => Raise e
  end.
#[global] Instance result_ret : MRet result := fun A a => Ok a.

(** Whether a computation returned. *)
Definition is_Ok {A : Type} (r : result A) : bool :=
  match r with
  | Ok _ => true
  | Raise _ => false
  end.

(** [try: ... except Exception: handler] *)
Definition try_except {A} (body : result A) (handler : exn -> result A) : result A :=
  match body with
  | Ok a => Ok a
  | Raise e => handler e
  end.

(** An oracle answers [None] when the library call raises. *)
Definition lib_call {A} (o : option A) : result A :=
  match o with
  | Some a => Ok a
  | None => Raise LibraryError
  end.

(** ** Arrays of floats *)

Definition gtb (x y : R) : bool := if Rgt_dec x y then true else false.
Definition ltb (x y : R) : bool := if Rlt_dec x y then true else false.
Definition neqb (x y : R) : bool := if Req_dec_T x y then false else true.

Fixpoint rsum (l : list R) : R :=
  match l with
  | [] => 0
  | x :: l' => x + rsum l'
  end.

(** [np.mean]: the sum over the length (NaN on an empty array, which the
    embedding leaves as the quotient by zero). *)
Definition mean (l : list R) : R := rsum l / INR (length l).

(** [Series.max()] of a non-empty series. *)
Fixpoint rmaximum (l : list R) : R :=
  match l with
  | [] => 0
  | [x] => x
  | x :: l' => Rmax x (rmaximum l')
  end.

(** [data.iloc[-1]]: raises [IndexError] on an empty series. *)
Definition iloc_last (l : list R) : result R :=
  match l with
  | [] => Raise IndexError
  | _ => Ok (List.last l 0)
  end.

(** [np.full(n, v)] *)
Definition np_full (n : nat) (v : R) : list R := repeat v n.

(** ** Series *)

Definition Timestamp := Z.

(** The index of a [pd.Series]: the default integer index, or a
    [DatetimeIndex] with its timestamps and its [freqstr]. *)
Inductive Index : Type :=
| RangeIndex
| DatetimeIndex (stamps : list Timestamp) (freqstr : option string).

Record Series : Type := mkSeries {
  index : Index;
  values : list R
}.

Definition len (s : Series) : nat := length (values s).
Definition empty (s : Series) : bool :=
  match values s with [] => true | _ => false end.

(* ------------------------------------------------------------------ *)
(** ** The calendar behind pandas' frequencies                         *)
(* ------------------------------------------------------------------ *)

Module Calendar.
Open Scope Z_scope.

(** The day number of a civil date of the proleptic Gregorian calendar
  (years counted from March, eras of 400 years). *)
Definition days_from_civil (y m d : Z) : Z :=
let y' := if m <=? 2 then y - 1 else y in
let era := y' / 400 in
let yoe := y' - era * 400 in
let mp := if 2 <? m then m - 3 else m + 9 in
let doy := (153 * mp + 2) / 5 + d - 1 in
let doe := yoe * 365 + yoe / 4 - yoe / 100 + doy in
era * 146097 + doe - 719468.

(** Year of the era of a day of the era. *)
Definition yoe_of (doe : Z) : Z :=
(doe - doe / 1460 + doe / 36524 - doe / 146096) / 365.

(** Days of the era before a year of the era. *)
Definition days_before (yoe : Z) : Z := 365 * yoe + yoe / 4 - yoe / 100.

(** The month of a day, counted from March of year 0. *)
Definition march_month (t : Timestamp) : Z :=
let z := t + 719468 in
let era := z / 146097 in
let doe := z - era * 146097 in
let yoe := yoe_of doe in
let doy := doe - days_before yoe in
let mp := (5 * doy + 2) / 153 in
(yoe + era * 400) * 12 + mp.

(** The month of a day, as [year * 12 + (month - 1)]. *)
Definition month_of (t : Timestamp) : Z := march_month t + 2.

(** The day of the month of a day, from 1. *)
Definition day_of_month (t : Timestamp) : Z :=
let z := t + 719468 in
let doe := z - (z / 146097) * 146097 in
let doy := doe - days_before (yoe_of doe) in
let mp := (5 * doy + 2) / 153 in
doy - (153 * mp + 2) / 5 + 1.

Definition civil_from_days (t : Timestamp) : Z * Z * Z :=
let b := month_of t in (b / 12, b mod 12 + 1, day_of_month t).

(** First and last day of a month. *)
Definition month_start (b : Z) : Timestamp :=
days_from_civil (b / 12) (b mod 12 + 1) 1.
Definition month_end (b : Z) : Timestamp := month_start (b + 1) - 1.

(** The offsets that the service names. *)
Inductive offset : Type := Day | WeekSun | MonthBegin | MonthEnd.

(** [pd.tseries.frequencies.to_offset] on the frequency strings that the
  service uses; ["M"] is the month end. *)
Definition to_offset (freq : string) : option offset :=
if String.eqb freq "D" then Some Day
else if String.eqb freq "W" then Some WeekSun
else if String.eqb freq "W-SUN" then Some WeekSun
else if String.eqb freq "MS" then Some MonthBegin
else if String.eqb freq "M" then Some MonthEnd
else if String.eqb freq "ME" then Some MonthEnd
else None.

(** The period that holds a day: the day itself, the week that ends on
  a Sunday (1970-01-04, day 3, is a Sunday), the month. *)
Definition period_of (o : offset) (t : Timestamp) : Z :=
match o with
| Day => t
| WeekSun => (t + 3) / 7
| MonthBegin | MonthEnd => month_of t
end.

(** The timestamp that labels a period: the day, the Sunday that ends
  the week, the first or the last day of the month. *)
Definition label (o : offset) (b : Z) : Timestamp :=
match o with
| Day => b
| WeekSun => 7 * b + 3
| MonthBegin => month_start b
| MonthEnd => month_end b
end.

(** [offset.rollforward(t)]: the first date on the offset at or after t *)
Definition rollforward (o : offset) (t : Timestamp) : Timestamp :=
match o with
| Day => t
| WeekSun | MonthEnd => label o (period_of o t)
| MonthBegin =>
    if t =? month_start (month_of t) then t else month_start (month_of t + 1)
end.

(** [t + offset]: the first date on the offset after t *)
Definition offset_add (o : offset) (t : Timestamp) : Timestamp :=
match o with
| Day => t + 1
| WeekSun | MonthEnd => label o (period_of o (t + 1))
| MonthBegin => month_start (month_of t + 1)
end.

(** [x, f x, f (f x), ...], [n] terms *)
Fixpoint iterate {A : Type} (f : A -> A) (x : A) (n : nat) : list A :=
match n with
| O => []
| S n' => x :: iterate f (f x) n'
end.

Definition date_range_from (o : offset) (t : Timestamp) (periods : nat)
  : list Timestamp :=
iterate (offset_add o) t periods.

(** [pd.date_range(start, periods=periods, freq=o)] *)
Definition date_range (start : Timestamp) (periods : nat) (o : offset)
  : list Timestamp :=
date_range_from o (rollforward o start) periods.

(** [n] consecutive periods from [b], by their labels *)
Definition grid (o : offset) (b : Z) (n : nat) : list Timestamp :=
map (fun i => label o (b + Z.of_nat i)) (seq 0 n).

End Calendar.

(** [c in s] for a character of a frequency string *)
Fixpoint char_in (c : ascii) (s : string) : bool :=
  match s with
  | EmptyString => false
  | String a s' => if Ascii.eqb a c then true else char_in c s'
  end.

(* ------------------------------------------------------------------ *)
(** ** models/arima.py                                                 *)
(* ------------------------------------------------------------------ *)

Module Arima.

(** The statsmodels and pandas entry points that [ARIMAForecaster] calls. *)
Record Statsmodels : Type := {
sm_model : Type;
sm_fitted : Type;
(** [adfuller(data)[1]], the p-value *)
adfuller : list R -> option R;
(** [acf(data, nlags, fft=True)] *)
acf : list R -> nat -> option (list R);
(** [pd.infer_freq(index)] *)
infer_freq : list Timestamp -> option (option string);
(** [seasonal_decompose(data, period).seasonal.std() / data.std()] *)
seasonal_strength : list R -> nat -> option R;
(** [SARIMAX(data, order, seasonal_order, enforce_...)] *)
SARIMAX : Series -> nat * nat * nat -> nat * nat * nat * nat -> bool -> option sm_model;
(** [model.fit(disp=False, maxiter)] *)
fit : sm_model -> nat -> option sm_fitted;
(** [fitted.forecast(steps).values] *)
forecast : sm_fitted -> nat -> option (list R)
}.

(** The forecaster object: [self.order] and [self.seasonal_order]. *)
Record ARIMAForecaster : Type := {
order : nat * nat * nat;
seasonal_order : nat * nat * nat * nat
}.

(** [ARIMAForecaster()] *)
Definition init : ARIMAForecaster :=
{| order := (1, 1, 1)%nat; seasonal_order := (0, 0, 0, 0)%nat |}.

Section WithLibrary.
Variable sm : Statsmodels.

(** The candidate periods by the frequency of the index. *)
Definition candidates_of_freq (freq : option string) : list nat :=
match freq with
| Some f =>
  if char_in "D" f then [7; 14; 30]%nat
  else if char_in "W" f then [4; 13; 52]%nat
  else if char_in "M" f then [3; 6; 12]%nat
  else [7; 12; 30]%nat
| None => [7; 12; 30]%nat
end.

Definition candidates (data : Series) : result (list nat) :=
match index data with
| DatetimeIndex stamps freqstr =>
  match freqstr with
  | Some f => Ok (candidates_of_freq (Some f))
  | None =>
      freq ← lib_call (infer_freq sm stamps);
      Ok (candidates_of_freq freq)
  end
| RangeIndex => Ok [7; 12; 30]%nat
end.

(** The loop over the candidates: the strongest autocorrelation above
the running threshold. *)
Fixpoint best_candidate (acf_values : list R) (cands : list nat)
(best_period : nat) (best_acf : R) : nat * R :=
match cands with
| [] => (best_period, best_acf)
| period :: rest =>
  if gtb (nth period acf_values 0) best_acf
  then best_candidate acf_values rest period (nth period acf_values 0)
  else best_candidate acf_values rest best_period best_acf
end.

Definition detect_seasonality (data : Series) : nat * bool :=
let body : result (nat * bool) :=
if (len data <? 20)%nat then Ok (0%nat, false)
else
  let nlags := Nat.min (len data / 2) 50 in
  acf_values ← lib_call (acf sm (values data) nlags);
  cands ← candidates data;
  let cands := List.filter (fun c => (c <? length acf_values)%nat) cands in
  let '(best_period, best_acf) := best_candidate acf_values cands 0%nat 0.3 in
  let has_seasonality := (0 <? best_period)%nat in
  if has_seasonality && (2 * best_period <=? len data)%nat then
    match seasonal_strength sm (values data) best_period with
    | Some strength =>
        if ltb strength 0.1 then Ok (0%nat, false)
        else Ok (best_period, has_seasonality)
    | None => Ok (best_period, has_seasonality)
    end
  else Ok (best_period, has_seasonality)
in
match body with
| Ok r => r
| Raise _ => (0%nat, false)
end.

(** Returns the order and the new [self.seasonal_order]. *)
Definition auto_select_order (data : Series)
: result ((nat * nat * nat) * (nat * nat * nat * nat)) :=
p_value ← lib_call (adfuller sm (values data));
let is_stationary := ltb p_value 0.05 in
let d := if is_stationary then 0%nat else 1%nat in
let '(seasonal_period, has_seasonality) := detect_seasonality data in
let seasonal :=
if has_seasonality && (0 <? seasonal_period)%nat then
  if (2 * seasonal_period <=? len data)%nat
  then (1, 1, 1, seasonal_period)%nat
  else (0, 0, 0, 0)%nat
else (0, 0, 0, 0)%nat in
Ok ((1%nat, d, 1%nat), seasonal).

Definition maxiter_of (seasonal : nat * nat * nat * nat) (data_size : nat) : nat :=
let is_seasonal := (0 <? snd seasonal)%nat in
if is_seasonal && (100 <? data_size)%nat then 100%nat
else if is_seasonal then 75%nat
else if (200 <? data_size)%nat then 75%nat
else 50%nat.

(** The body of the [try] up to [predictions = forecast.values]. *)
Definition raw_forecast (self : ARIMAForecaster) (data : Series)
(horizon : nat) (auto_order : bool) : result (list R) :=
orders ← (if auto_order then auto_select_order data
         else Ok (order self, seasonal_order self));
let '(ord, seasonal) := orders in
model ← lib_call (SARIMAX sm data ord seasonal false);
let maxiter := maxiter_of seasonal (len data) in
fitted_model ←
try_except (lib_call (fit sm model maxiter))
  (fun _ =>
     model' ← lib_call (SARIMAX sm data ord (0, 0, 0, 0)%nat true);
     lib_call (fit sm model' 50));
lib_call (forecast sm fitted_model horizon).

(** The safety rails: non-negative, divergence check, soft cap. *)
Definition safety_rails (data : Series) (horizon : nat) (predictions : list R)
: list R :=
let predictions := map (fun p => Rmax p 0) predictions in
if empty data then predictions
else
let historical_max := rmaximum (values data) in
let threshold := Rmax (historical_max * 100) 1e9 in
if existsb (fun p => gtb p threshold) predictions
then np_full horizon (List.last (values data) 0)
else map (fun p => Rmin p (historical_max * 10)) predictions.

Definition fit_predict (self : ARIMAForecaster) (data : Series)
(horizon : nat) (auto_order : bool) : list R :=
match raw_forecast self data horizon auto_order with
| Ok predictions => safety_rails data horizon predictions
| Raise _ =>
  let last_value := if empty data then 0 else List.last (values data) 0 in
  np_full horizon last_value
end.

End WithLibrary.

(** statsmodels refuses an empty sample: the unit-root test raises on it,
  and so does the model, when it is built or when it is fitted. *)
Definition rejects_empty (sm : Statsmodels) : Prop :=
adfuller sm [] = None /\
forall idx ord seasonal enforce,
  match SARIMAX sm (mkSeries idx []) ord seasonal enforce with
  | Some model => forall maxiter, fit sm model maxiter = None
  | None => True
  end.

(** The bounds that the safety rails aim at. *)
Definition within_rails (data : Series) (p : R) : Prop :=
0 <= p <= rmaximum (values data) * 10.

Definition divergence_threshold (data : Series) : R :=
Rmax (rmaximum (values data) * 100) 1e9.

(** A library in which every call raises. *)
Definition raising : Statsmodels :=
{| sm_model := unit; sm_fitted := unit;
   adfuller := fun _ => None;
   acf := fun _ _ => None;
   infer_freq := fun _ => None;
   seasonal_strength := fun _ _ => None;
   SARIMAX := fun _ _ _ _ => None;
   fit := fun _ _ => None;
   forecast := fun _ _ => None |}.

(** A library whose tests and fits succeed and whose forecast is the
  given one, whatever the data. *)
Definition forecasting (raw : list R) : Statsmodels :=
{| sm_model := unit; sm_fitted := unit;
   adfuller := fun _ => Some 0.01;
   acf := fun _ _ => None;
   infer_freq := fun _ => None;
   seasonal_strength := fun _ _ => None;
   SARIMAX := fun _ _ _ _ => Some tt;
   fit := fun _ _ => Some tt;
   forecast := fun _ _ => Some raw |}.

End Arima.

(* ------------------------------------------------------------------ *)
(** ** services/metrics.py                                             *)
(* ------------------------------------------------------------------ *)

Module Metrics.

(** The nearest integer, ties to the even one. *)
Definition round_half_even (x : R) : Z :=
let n := Zfloor x in
let f := x - IZR n in
if Rlt_dec f (1 / 2) then n
else if Rgt_dec f (1 / 2) then (n + 1)%Z
else if Z.even n then n else (n + 1)%Z.

(** [round(float(x), ndigits)] *)
Definition round (x : R) (ndigits : nat) : R :=
IZR (round_half_even (x * 10 ^ ndigits)) / 10 ^ ndigits.

(** [a[mask]] *)
Fixpoint masked (mask : list bool) (a : list R) : list R :=
match mask, a with
| m :: mask', x :: a' => if m then x :: masked mask' a' else masked mask' a'
| _, _ => []
end.

(** [mask.sum()] *)
Definition mask_sum (mask : list bool) : nat :=
length (List.filter (fun b => b) mask).

Definition square (x : R) : R := x ^ 2.

(** The scores before rounding. *)
Record scores : Type := {
mae : R; rmse : R; mape : R; smape : R; r2 : R; rmsse : R; accuracy : R
}.

Definition raw_scores (actual predicted : list R) : scores :=
let min_len := Nat.min (length actual) (length predicted) in
let actual := take min_len actual in
let predicted := take min_len predicted in
let errors := zip_with Rminus actual predicted in
let mae := mean (map Rabs errors) in
let rmse := sqrt (mean (map square errors)) in
let mask := map (fun a => neqb a 0) actual in
let mape :=
  if (0 <? mask_sum mask)%nat then
    mean (map Rabs (zip_with Rdiv
                      (zip_with Rminus (masked mask actual) (masked mask predicted))
                      (masked mask actual))) * 100
  else 0 in
let denominator := zip_with (fun a p => (Rabs a + Rabs p) / 2) actual predicted in
let smape_mask := map (fun d => neqb d 0) denominator in
let smape :=
  if (0 <? mask_sum smape_mask)%nat then
    mean (zip_with Rdiv
            (map Rabs (zip_with Rminus (masked smape_mask actual)
                                       (masked smape_mask predicted)))
            (masked smape_mask denominator)) * 100
  else 0 in
let ss_res := rsum (map square errors) in
let ss_tot := rsum (map (fun a => square (a - mean actual)) actual) in
let r2 := if gtb ss_tot 0 then 1 - ss_res / ss_tot else 0 in
let rmsse :=
  if (1 <? length actual)%nat then
    let naive_forecast := take (length actual - 1) actual in
    let naive_actual := drop 1 actual in
    let naive_mse := mean (map square (zip_with Rminus naive_actual naive_forecast)) in
    if gtb naive_mse 0 then sqrt (mean (map square errors) / naive_mse) else 0
  else 0 in
let mean_actual := mean actual in
let accuracy :=
  if gtb mean_actual 0 then
    let wape := mae / mean_actual in
    Rmax 0 ((1 - wape) * 100)
  else 0 in
{| mae := mae; rmse := rmse; mape := mape; smape := smape;
   r2 := r2; rmsse := rmsse; accuracy := accuracy |}.

(** The dictionary that [calculate_metrics] returns. *)
Definition calculate_metrics (actual predicted : list R) : gmap string R :=
let s := raw_scores actual predicted in
list_to_map
  [("mae", round (mae s) 2);
   ("rmse", round (rmse s) 2);
   ("mape", round (mape s) 2);
   ("smape", round (smape s) 2);
   ("r2", round (r2 s) 4);
   ("rmsse", round (rmsse s) 4);
   ("accuracy", round (accuracy s) 2)].

(** The fixed set of scores of a Metrics Bundle. *)
Definition bundle_keys : list string :=
["mae"; "rmse"; "mape"; "smape"; "r2"; "rmsse"; "accuracy"].

(** Two entries of the series differ. *)
Definition non_constant (x : list R) : Prop :=
exists a b, In a x /\ In b x /\ a <> b.

End Metrics.

(** [d[key]] on a dictionary *)
Definition getitem (d : gmap string R) (key : string) : result R :=
  match d !! key with
  | Some v => Ok v
  | None => Raise (KeyError key)
  end.

(* ------------------------------------------------------------------ *)
(** ** models/baseline.py                                              *)
(* ------------------------------------------------------------------ *)

Module Baseline.

(** [data.iloc[-k]] for [1 <= k <= len(data)] *)
Definition iloc_from_end (data : list R) (k : nat) : R :=
nth (length data - k) data 0.

(** One step of the seasonal-naive loop. *)
Definition seasonal_naive_step (data : list R) (seasonal_period i : nat) : result R :=
if (seasonal_period =? 0)%nat then Raise ZeroDivisionError
else
  let k := (seasonal_period - i mod seasonal_period)%nat in
  if (k <=? length data)%nat then Ok (iloc_from_end data k)
  else iloc_last data.

Fixpoint seasonal_naive_loop (data : list R) (seasonal_period : nat)
  (steps : list nat) : result (list R) :=
match steps with
| [] => Ok []
| i :: rest =>
    v ← seasonal_naive_step data seasonal_period i;
    vs ← seasonal_naive_loop data seasonal_period rest;
    Ok (v :: vs)
end.

Definition fit_predict (method : string) (data : Series) (horizon : nat)
  (seasonal_period : nat) : result (list R) :=
if String.eqb method "naive" then
  last_value ← iloc_last (values data);
  Ok (np_full horizon last_value)
else if String.eqb method "seasonal_naive" then
  seasonal_naive_loop (values data) seasonal_period (seq 0 horizon)
else if String.eqb method "moving_average" then
  let window := Nat.min 7 (len data) in
  let ma_value := mean (drop (len data - window) (values data)) in
  Ok (np_full horizon ma_value)
else Raise (ValueError "Unknown method").

(** The default of the [seasonal_period] argument. *)
Definition default_period : nat := 7.

End Baseline.

(* ------------------------------------------------------------------ *)
(** ** models/xgboost_model.py                                         *)
(* ------------------------------------------------------------------ *)

Module XGBoost.

(** The forecaster object: [self.n_lags], [self.n_estimators]. *)
Record XGBoostForecaster : Type := {
n_lags : nat;
n_estimators : nat
}.

(** [XGBoostForecaster(n_lags=7)] *)
Definition init : XGBoostForecaster := {| n_lags := 7; n_estimators := 100 |}.

(** scikit-learn and xgboost.  The features are a function of the series
  and of the granularity, so the oracles take these. *)
Record Learner : Type := {
xgb_model : Type;
(** [scaler.fit_transform(X)] and [XGBRegressor(...).fit(X_scaled, y)]
    on the complete rows of the features *)
train : XGBoostForecaster -> Series -> string -> option xgb_model;
(** the features of the last row of the series so far,
    [scaler.transform] and [model.predict(...)[0]] *)
predict : XGBoostForecaster -> xgb_model -> Series -> string -> option R;
(** [t + to_offset(freq)] for a frequency that the calendar of the
    embedding does not know *)
other_offset : string -> Timestamp -> option Timestamp
}.

Definition lag_periods (self : XGBoostForecaster) (granularity : string) : list nat :=
if String.eqb granularity "daily" then [1; 7; 14; 30]%nat
else if String.eqb granularity "weekly" then [1; 4; 12; 52]%nat
else if String.eqb granularity "monthly" then [1; 3; 6; 12]%nat
else seq 1 (Nat.min (n_lags self + 1) 8 - 1).

Definition rolling_windows (granularity : string) : list nat :=
if String.eqb granularity "daily" then [3; 7; 14; 30]%nat
else if String.eqb granularity "weekly" then [4; 12; 26]%nat
else if String.eqb granularity "monthly" then [3; 6; 12]%nat
else [3; 7; 14]%nat.

(** Whether row [i] of [create_features(...)] holds no NaN.  A lag of
  [k] and a rolling window of [k] over the shifted series are NaN on
  the first [k] rows; the rate of change over 7 periods is NaN on the
  first 7 rows and where it is 0/0; the exponential averages, NaN on
  the first row only, and the calendar features add no other row. *)
Definition row_complete (self : XGBoostForecaster) (granularity : string)
  (sales : list R) (i : nat) : bool :=
let n := length sales in
forallb (fun lag => negb (lag <=? n)%nat || (lag <=? i)%nat)
        (lag_periods self granularity)
&& forallb (fun window => negb (window <=? n)%nat || (window <=? i)%nat)
           (rolling_windows granularity)
&& (negb (7 <=? n)%nat
    || ((7 <=? i)%nat
        && negb (negb (neqb (nth i sales 0) 0)
                 && negb (neqb (nth (i - 7) sales 0) 0)))).

(** [len(df.dropna())] *)
Definition complete_rows (self : XGBoostForecaster) (granularity : string)
  (sales : list R) : nat :=
length (List.filter (row_complete self granularity sales) (seq 0 (length sales))).

Section WithLibrary.
Variable lib : Learner.

(** [current_series[index[-1] + to_offset(freq)] = pred]: a date cannot
be added to the label of an integer index. *)
Definition extend (current : Series) (freq : string) (pred : R) : result Series :=
match index current with
| RangeIndex => Raise TypeError
| DatetimeIndex stamps freqstr =>
  match stamps with
  | [] => Raise IndexError
  | _ =>
      let last := List.last stamps 0%Z in
      new_date ←
        match Calendar.to_offset freq with
        | Some o => Ok (Calendar.offset_add o last)
        | None => lib_call (other_offset lib freq last)
        end;
      Ok (mkSeries (DatetimeIndex (stamps ++ [new_date]) freqstr)
                   (values current ++ [pred]))
  end
end.

(** The recursive forecast, one step per period. *)
Fixpoint recursive_forecast (self : XGBoostForecaster) (model : xgb_model lib)
(freq granularity : string) (current_series : Series) (steps : nat)
: result (list R) :=
match steps with
| O => Ok []
| S steps' =>
  raw ← lib_call (predict lib self model current_series granularity);
  let pred := Rmax 0 raw in
  current_series' ← extend current_series freq pred;
  rest ← recursive_forecast self model freq granularity current_series' steps';
  Ok (pred :: rest)
end.

Definition naive_fallback (data : Series) (horizon : nat) : result (list R) :=
last_value ← iloc_last (values data);
Ok (np_full horizon last_value).

Definition fit_predict (self : XGBoostForecaster) (data : Series)
(horizon : nat) (granularity : string) : result (list R) :=
try_except
(if (complete_rows self granularity (values data) <? 10)%nat
 then naive_fallback data horizon
 else
   model ← lib_call (train lib self data granularity);
   let freq :=
     match index data with
     | DatetimeIndex _ (Some f) => f
     | _ => "D"%string
     end in
   recursive_forecast self model freq granularity data horizon)
(fun _ => naive_fallback data horizon).

End WithLibrary.

(** A learner whose training succeeds and that predicts a constant. *)
Definition constant_learner (c : R) : Learner :=
{| xgb_model := unit;
   train := fun _ _ _ => Some tt;
   predict := fun _ _ _ _ => Some c;
   other_offset := fun _ _ => None |}.

End XGBoost.

(* ------------------------------------------------------------------ *)
(** ** Strings, as Python's [str] methods                              *)
(* ------------------------------------------------------------------ *)

Module Str.

Definition lower_char (c : ascii) : ascii :=
let n := nat_of_ascii c in
if (65 <=? n)%nat && (n <=? 90)%nat then ascii_of_nat (n + 32) else c.

(** [s.lower()] *)
Fixpoint lower (s : string) : string :=
match s with
| EmptyString => EmptyString
| String c s' => String (lower_char c) (lower s')
end.

(** [pat in s] *)
Fixpoint contains (pat s : string) : bool :=
String.prefix pat s ||
match s with
| EmptyString => false
| String _ s' => contains pat s'
end.

Definition is_space (c : ascii) : bool :=
let n := nat_of_ascii c in
((9 <=? n)%nat && (n <=? 13)%nat) || ((28 <=? n)%nat && (n <=? 32)%nat).

Fixpoint lstrip (s : string) : string :=
match s with
| EmptyString => EmptyString
| String c s' => if is_space c then lstrip s' else s
end.

Definition reverse (s : string) : string :=
string_of_list_ascii (rev (list_ascii_of_string s)).

(** [s.strip()] *)
Definition strip (s : string) : string :=
reverse (lstrip (reverse (lstrip s))).

(** [s.replace(c, '')] for a character *)
Fixpoint remove_char (c : ascii) (s : string) : string :=
match s with
| EmptyString => EmptyString
| String a s' => if Ascii.eqb a c then remove_char c s' else String a (remove_char c s')
end.

(** [s.replace(BOM, '')]: the byte order mark is the three bytes
  EF BB BF of a UTF-8 string. *)
Fixpoint remove_bom (s : string) : string :=
match s with
| String a (String b (String c rest as tail2) as tail1) =>
    if (nat_of_ascii a =? 239)%nat && (nat_of_ascii b =? 187)%nat
       && (nat_of_ascii c =? 191)%nat
    then remove_bom rest
    else String a (remove_bom tail1)
| String a tail => String a (remove_bom tail)
| EmptyString => EmptyString
end.

(** [any(c in s for c in chars)] *)
Definition contains_any_char (chars s : string) : bool :=
existsb (fun c => char_in c s) (list_ascii_of_string chars).

End Str.

(* ------------------------------------------------------------------ *)
(** ** Tables                                                          *)
(* ------------------------------------------------------------------ *)

(** A cell of a [pd.DataFrame]: text, a number, a timestamp, or a missing
    value of a float column (NaN) or of a datetime column (NaT). *)
Inductive cell : Type :=
| CStr (s : string)
| CNum (r : R)
| CDate (t : Timestamp)
| CNaN
| CNaT.

Inductive dtype : Type := Float | Datetime | Object.

(** A table: its columns, in order, each with its label.  The tables that
    the service shares live in a store and are passed by reference. *)
Definition DataFrame : Type := list (string * list cell).
Definition loc : Type := nat.

Module Frame.

Definition columns (df : DataFrame) : list string := map fst df.

(** [col in df.columns] *)
Definition has_column (df : DataFrame) (col : string) : bool :=
existsb (String.eqb col) (columns df).

(** [df[col]] *)
Fixpoint get_column (df : DataFrame) (col : string) : result (list cell) :=
match df with
| [] => Raise (KeyError col)
| (label, cells) :: rest =>
    if String.eqb label col then Ok cells else get_column rest col
end.

(** [df[col] = cells] *)
Fixpoint set_column (df : DataFrame) (col : string) (cells : list cell) : DataFrame :=
match df with
| [] => [(col, cells)]
| (label, old) :: rest =>
    if String.eqb label col then (label, cells) :: rest
    else (label, old) :: set_column rest col cells
end.

(** [len(df)] *)
Definition nrows (df : DataFrame) : nat :=
match df with
| [] => 0
| (_, cells) :: _ => length cells
end.

(** [df.empty] *)
Definition is_empty (df : DataFrame) : bool :=
match df with
| [] => true
| _ => (nrows df =? 0)%nat
end.

Definition is_float_cell (c : cell) : bool :=
match c with CNum _ | CNaN => true | _ => false end.
Definition is_datetime_cell (c : cell) : bool :=
match c with CDate _ | CNaT => true | _ => false end.

(** The dtype of a column, as pandas infers it from the cells. *)
Definition dtype_of (cells : list cell) : dtype :=
match cells with
| [] => Object
| _ =>
    if forallb is_float_cell cells then Float
    else if forallb is_datetime_cell cells then Datetime
    else Object
end.

Definition is_numeric_dtype (cells : list cell) : bool :=
match dtype_of cells with Float => true | _ => false end.
Definition is_object (cells : list cell) : bool :=
match dtype_of cells with Object => true | _ => false end.

End Frame.

(* ------------------------------------------------------------------ *)
(** ** services/cache.py                                               *)
(* ------------------------------------------------------------------ *)

Module Cache.

(** [self.ttl_seconds] and [self._cache]: a key maps to the reference of
  the cached object and the time it was stored, in seconds. *)
Record DatasetCache : Type := {
ttl_seconds : Z;
_cache : gmap string (loc * Z)
}.

(** [DatasetCache(ttl_seconds)] *)
Definition init (ttl : Z) : DatasetCache := {| ttl_seconds := ttl; _cache := ∅ |}.

Definition _is_expired (self : DatasetCache) (now timestamp : Z) : bool :=
(ttl_seconds self <? now - timestamp)%Z.

(** The key is the MD5 digest of this string; the embedding takes the
  string itself, a hash without collisions. *)
Definition _generate_key (url granularity : string) : string :=
(url ++ ":" ++ granularity)%string.

Definition get (self : DatasetCache) (now : Z) (url granularity : string)
  : option loc * DatasetCache :=
let key := _generate_key url granularity in
match _cache self !! key with
| Some (data, timestamp) =>
    if negb (_is_expired self now timestamp) then (Some data, self)
    else (None, {| ttl_seconds := ttl_seconds self;
                   _cache := delete key (_cache self) |})
| None => (None, self)
end.

Definition set (self : DatasetCache) (now : Z) (url : string) (data : loc)
  (granularity : string) : DatasetCache :=
let key := _generate_key url granularity in
{| ttl_seconds := ttl_seconds self;
   _cache := <[key := (data, now)]> (_cache self) |}.

Definition clear (self : DatasetCache) : DatasetCache :=
{| ttl_seconds := ttl_seconds self; _cache := ∅ |}.

Definition cleanup_expired (self : DatasetCache) (now : Z) : DatasetCache :=
{| ttl_seconds := ttl_seconds self;
   _cache := filter (fun kv : string * (loc * Z) =>
                       _is_expired self now (snd (snd kv)) = false)
                    (_cache self) |}.

End Cache.

(** The process: the store of the tables, the next free reference, and the
    global [dataset_cache]. *)
Record World : Type := {
  heap : gmap loc DataFrame;
  next_loc : loc;
  dataset_cache : Cache.DatasetCache
}.

(** A fresh process: [dataset_cache = DatasetCache(ttl_seconds=300)]. *)
Definition boot : World :=
  {| heap := ∅; next_loc := 0%nat; dataset_cache := Cache.init 300 |}.

(* ------------------------------------------------------------------ *)
(** ** services/data_loader.py                                         *)
(* ------------------------------------------------------------------ *)

Module DataLoader.

(** requests and the pandas parsers. *)
Record Pandas : Type := {
(** [requests.get(url, timeout=60)], [raise_for_status()], [.text] *)
requests_get : string -> option string;
(** [pd.read_csv(StringIO(text))] *)
read_csv : string -> option DataFrame;
(** [pd.to_datetime(column, errors='coerce')]: a timestamp or NaT for
    each cell *)
to_datetime : list cell -> option (list (option Timestamp));
(** [pd.to_datetime(column, format='mixed', errors='coerce')] *)
to_datetime_mixed : list cell -> option (list (option Timestamp));
(** [pd.to_numeric(text, errors='coerce')] on one cell; [None] is NaN *)
to_numeric : string -> option R
}.

Definition clean_label (label : string) : string :=
Str.remove_bom (Str.strip label).

Section WithLibrary.
Variable pd : Pandas.

(** Returns the reference of the table, the cached one on a hit. *)
Definition load_data_from_url (now : Z) (w : World) (url : string)
: World * result loc :=
let '(cached_df, cache') := Cache.get (dataset_cache w) now url "raw" in
let w := {| heap := heap w; next_loc := next_loc w; dataset_cache := cache' |} in
match cached_df with
| Some l => (w, Ok l)
| None =>
  match text ← lib_call (requests_get pd url); lib_call (read_csv pd text) with
  | Raise e => (w, Raise e)
  | Ok df =>
      let df := map (fun '(label, cells) => (clean_label label, cells)) df in
      let l := next_loc w in
      ({| heap := <[l := df]> (heap w);
          next_loc := S l;
          dataset_cache := Cache.set (dataset_cache w) now url l "raw" |},
       Ok l)
  end
end.

Definition date_tokens : list string := ["date"; "time"; "day"; "month"; "year"].
Definition value_tokens : list string :=
["sales"; "revenue"; "amount"; "value"; "price"; "quantity"].

Definition matches (tokens : list string) (col : string) : bool :=
existsb (fun x => Str.contains x (Str.lower col)) tokens.

Definition no_date_column (df : DataFrame) : exn :=
ValueError ("Time-series forecasting requires a date/time column. Found columns: "
          ++ String.concat ", " (Frame.columns df)).

Definition detect_date_col (df : DataFrame) (date_col : string) : result string :=
if Frame.has_column df date_col then Ok date_col
else
match List.filter (matches date_tokens) (Frame.columns df) with
| col :: _ => Ok col
| [] => Raise (no_date_column df)
end.

(** [str(cell)] holds a dollar sign or a digit. *)
Definition looks_like_currency (c : cell) : bool :=
match c with
| CStr s => Str.contains_any_char "$0123456789" s
| CNum _ | CDate _ => true
| CNaN | CNaT => false
end.

Definition numeric_candidate (df : DataFrame) (col : string) : bool :=
match Frame.get_column df col with
| Ok cells =>
  Frame.is_numeric_dtype cells
  || (Frame.is_object cells && existsb looks_like_currency cells)
| Raise _ => false
end.

Definition detect_value_col (df : DataFrame) (value_col : string) : string :=
if Frame.has_column df value_col then value_col
else
let potential_cols := List.filter (matches value_tokens) (Frame.columns df) in
match List.filter (numeric_candidate df) potential_cols with
| numeric_match :: _ => numeric_match
| [] =>
    match potential_cols with
    | col :: _ => col
    | [] => "sales"%string
    end
end.

(** One cell through [astype(str)], the two [replace], [strip],
[to_numeric(errors='coerce')] and [fillna(0)]. *)
Definition clean_currency (c : cell) : cell :=
match c with
| CStr s =>
  match to_numeric pd (Str.strip (Str.remove_char "," (Str.remove_char "$" s))) with
  | Some r => CNum r
  | None => CNum 0
  end
| CNum r => CNum r
| CDate _ | CNaN | CNaT => CNum 0
end.

Definition timestamp_cell (o : option Timestamp) : cell :=
match o with
| Some t => CDate t
| None => CNaT
end.

(** The parsed column; a result of another length cannot be assigned. *)
Definition parsed_column (parser : list cell -> option (list (option Timestamp)))
(cells : list cell) : result (list cell) :=
parsed ← lib_call (parser cells);
if (length parsed =? length cells)%nat then Ok (map timestamp_cell parsed)
else Raise LibraryError.

Definition parse_dates (cells : list cell) : result (list cell) :=
try_except (parsed_column (to_datetime pd) cells)
         (fun _ => parsed_column (to_datetime_mixed pd) cells).

(** The rows that [dropna(subset=[date_col])] keeps, as pairs of a
timestamp and the cell of the value column. *)
Fixpoint dropna (dates values : list cell) : list (Timestamp * cell) :=
match dates, values with
| CDate t :: dates', v :: values' => (t, v) :: dropna dates' values'
| _ :: dates', _ :: values' => dropna dates' values'
| _, _ => []
end.

(** The number that a cell adds to a sum: NaN is skipped. *)
Definition summand (c : cell) : R :=
match c with
| CNum r => r
| _ => 0
end.

(** The rows that survive cleaning, with the number of their value. *)
Definition cleaned_rows (dates values : list cell) : list (Timestamp * R) :=
map (fun '(t, c) => (t, summand c)) (dropna dates values).

(** [groupby(date_col)[value_col].sum()]: one row per timestamp, in
increasing order, with the sum of its values. *)
Fixpoint add_to_group (t : Timestamp) (r : R) (groups : list (Timestamp * R))
: list (Timestamp * R) :=
match groups with
| [] => [(t, r)]
| (t', r') :: rest =>
  if (t <? t')%Z then (t, r) :: groups
  else if (t =? t')%Z then (t', r' + r) :: rest
  else (t', r') :: add_to_group t r rest
end.

Fixpoint groupby_sum (rows : list (Timestamp * R)) : list (Timestamp * R) :=
match rows with
| [] => []
| (t, r) :: rest => add_to_group t r (groupby_sum rest)
end.

(** [sort_values(date_col)] *)
Fixpoint insert_row (row : Timestamp * R) (sorted : list (Timestamp * R))
: list (Timestamp * R) :=
match sorted with
| [] => [row]
| row' :: rest =>
  if (fst row <=? fst row')%Z then row :: sorted
  else row' :: insert_row row rest
end.

Definition sort_values (rows : list (Timestamp * R)) : list (Timestamp * R) :=
fold_right insert_row [] rows.

(** The sum of the rows of a period. *)
Definition period_sum (o : Calendar.offset) (rows : list (Timestamp * R)) (b : Z) : R :=
rsum (map snd (List.filter (fun row => (Calendar.period_of o (fst row) =? b)%Z) rows)).

(** [resample(freq).sum()] of rows in increasing order of time: every
period from the one of the first row to the one of the last, with
the sum of its rows, zero when it has none. *)
Definition resample_sum (o : Calendar.offset) (rows : list (Timestamp * R))
: list (Timestamp * R) :=
match rows with
| [] => []
| first :: _ =>
  let lo := Calendar.period_of o (fst first) in
  let hi := Calendar.period_of o (fst (List.last rows first)) in
  map (fun b => (Calendar.label o b, period_sum o rows b))
      (seqZ lo (hi - lo + 1))
end.

(** The frequency of the resampling and the [freqstr] of its index. *)
Definition resample_rule (granularity : string) : option (Calendar.offset * string) :=
if String.eqb granularity "daily" then Some (Calendar.Day, "D"%string)
else if String.eqb granularity "weekly" then Some (Calendar.WeekSun, "W-SUN"%string)
else if String.eqb granularity "monthly" then Some (Calendar.MonthBegin, "MS"%string)
else None.

(** [int(n * 0.8)] *)
Definition split_index (n : nat) : nat := (n * 8 / 10)%nat.

(** From the cleaned table to the two series: aggregate, sort,
resample, fill and split. *)
Definition to_series (df : DataFrame) (date_col value_col granularity : string)
: result (Series * Series) :=
dates ← Frame.get_column df date_col;
values_ ← Frame.get_column df value_col;
match Frame.dtype_of values_ with
| Float | Object =>
  let cleaned := cleaned_rows dates values_ in
  let grouped := sort_values (groupby_sum cleaned) in
  let '(rows, freqstr) :=
    match resample_rule granularity with
    | Some (o, f) => (resample_sum o grouped, Some f)
    | None => (grouped, None)
    end in
  let stamps := map fst rows in
  let series := map snd rows in
  let split_idx := split_index (length series) in
  Ok (mkSeries (DatetimeIndex (take split_idx stamps) freqstr) (take split_idx series),
      mkSeries (DatetimeIndex (drop split_idx stamps) freqstr) (drop split_idx series))
| Datetime => Raise TypeError
end.

(** [preprocess_data(df, date_col, value_col, granularity)] on the
table at reference [df]: the two assignments to columns are made in
the store, on the table that the caller passed. *)
Definition preprocess_data (h : gmap loc DataFrame) (df : loc)
(date_col value_col granularity : string)
: gmap loc DataFrame * result (Series * Series) :=
match h !! df with
| None => (h, Raise (KeyError "df"))
| Some table =>
  match detect_date_col table date_col with
  | Raise e => (h, Raise e)
  | Ok date_col =>
      let value_col := detect_value_col table value_col in
      let table1 :=
        match Frame.get_column table value_col with
        | Ok cells =>
            if Frame.is_object cells
            then Frame.set_column table value_col (map clean_currency cells)
            else table
        | Raise _ => table
        end in
      let h1 := <[df := table1]> h in
      match cells ← Frame.get_column table1 date_col; parse_dates cells with
      | Raise e => (h1, Raise e)
      | Ok parsed =>
          let table2 := Frame.set_column table1 date_col parsed in
          let h2 := <[df := table2]> h1 in
          (h2, to_series table2 date_col value_col granularity)
      end
  end
end.

Definition dataset_is_empty : exn := ValueError "Dataset is empty".
Definition dataset_too_small : exn :=
ValueError "Dataset too small (minimum 10 rows required)".

Definition validate_data (df : DataFrame) : result bool :=
if Frame.is_empty df then Raise dataset_is_empty
else if (Frame.nrows df <? 10)%nat then Raise dataset_too_small
else Ok true.

(** The rows of a table that survive cleaning: those whose date
parses. *)
Definition surviving_rows (df : DataFrame) (date_col : string) : result nat :=
date_col ← detect_date_col df date_col;
cells ← Frame.get_column df date_col;
parsed ← parse_dates cells;
Ok (length (List.filter (fun c => match c with CDate _ => true | _ => false end) parsed)).

End WithLibrary.

(** A series on the grid of a frequency, built from rows: the timestamps
  are the labels of consecutive periods, each the previous one plus the
  offset, in strictly increasing order and without repetition; the
  period of every row is among them; the value at a timestamp is the sum
  of the rows of its period, zero when the period has no row. *)
Definition regular_grid (o : Calendar.offset) (rows : list (Timestamp * R))
  (stamps : list Timestamp) (series : list R) : Prop :=
length series = length stamps /\
(exists lo, stamps = Calendar.grid o lo (length stamps)) /\
StronglySorted Z.lt stamps /\
NoDup stamps /\
(forall i t t', stamps !! i = Some t -> stamps !! S i = Some t' ->
                t' = Calendar.offset_add o t) /\
(forall row, In row rows ->
             In (Calendar.label o (Calendar.period_of o (fst row))) stamps) /\
(forall i t, stamps !! i = Some t ->
             series !! i = Some (period_sum o rows (Calendar.period_of o t))) /\
(forall i t, stamps !! i = Some t ->
             (forall row, In row rows ->
                          Calendar.period_of o (fst row) <> Calendar.period_of o t) ->
             series !! i = Some 0).

(** The error that the service reports as [InsufficientDataError]. *)
Definition InsufficientDataError (e : exn) : Prop :=
e = dataset_is_empty \/ e = dataset_too_small.

End DataLoader.

(* ------------------------------------------------------------------ *)
(** ** services/forecast_service.py                                    *)
(* ------------------------------------------------------------------ *)

Module ForecastService.

Record Libraries : Type := {
pandas : DataLoader.Pandas;
statsmodels : Arima.Statsmodels;
learner : XGBoost.Learner
}.

(** A float or [float('inf')]. *)
Inductive number : Type := Fin (r : R) | Inf.

(** An entry of [model_scores]: a dictionary with these four keys. *)
Record Score : Type := {
accuracy : R;
mae : number;
rmse : number;
r2 : R
}.

(** The score of a model that raised during its trial. *)
Definition failed_score : Score :=
{| accuracy := 0; mae := Inf; rmse := Inf; r2 := -1 |}.

(** The result of [run_forecast]. *)
Record ForecastResult : Type := {
predictions : list (Timestamp * R);
metrics : gmap string R
}.

(** The models that the selection tries, in this order. *)
Definition concrete_models : list string := ["baseline"; "arima"; "xgboost"].

(** [(x['accuracy'], x['r2']) > (y['accuracy'], y['r2'])] on tuples *)
Definition key_gt (x y : Score) : bool :=
gtb (accuracy x) (accuracy y)
|| (negb (neqb (accuracy x) (accuracy y)) && gtb (r2 x) (r2 y)).

(** The order of the ranking: by accuracy, then by R². *)
Definition key_le (x y : Score) : Prop :=
accuracy x < accuracy y \/ (accuracy x = accuracy y /\ r2 x <= r2 y).

(** What a trial is scored as: the metrics of its predictions against the
  first [val_horizon] points of the validation partition, or the score
  of a failure when it raised. *)
Definition scored_as (test_series : Series) (val_horizon : nat)
  (trial : result (list R)) (s : Score) : Prop :=
match trial with
| Ok predictions =>
    let actual := take val_horizon (values test_series) in
    let m := Metrics.calculate_metrics actual (take (length actual) predictions) in
    m !! "accuracy" = Some (accuracy s) /\ m !! "r2" = Some (r2 s) /\
    (exists v, m !! "mae" = Some v /\ mae s = Fin v) /\
    (exists v, m !! "rmse" = Some v /\ rmse s = Fin v)
| Raise _ => s = failed_score
end.

(** [max(items, key=...)]: the first of the greatest items. *)
Fixpoint max_from (best : string * Score) (items : list (string * Score))
  : string * Score :=
match items with
| [] => best
| item :: rest =>
    max_from (if key_gt (snd item) (snd best) then item else best) rest
end.

Definition py_max (items : list (string * Score)) : result (string * Score) :=
match items with
| [] => Raise (ValueError "max() arg is an empty sequence")
| first :: rest => Ok (max_from first rest)
end.

(** [{'mae': 0, 'rmse': 0, 'mape': 0, 'accuracy': 0}] *)
Definition default_metrics : gmap string R :=
list_to_map [("mae", 0); ("rmse", 0); ("mape", 0); ("accuracy", 0)].

(** The keys of [default_metrics]. *)
Definition default_keys : list string := ["mae"; "rmse"; "mape"; "accuracy"].

(** The scoring step of [run_forecast]. *)
Definition score (train_series test_series : Series) (predictions : list R)
  (horizon : nat) : gmap string R :=
if (0 <? len test_series)%nat then
  let test_predictions := take (len test_series) predictions in
  Metrics.calculate_metrics (values test_series) test_predictions
else
  let n := Nat.min horizon (len train_series / 5) in
  if (0 <? n)%nat then
    let val_actual := drop (len train_series - n) (values train_series) in
    let val_pred := take n predictions in
    Metrics.calculate_metrics val_actual val_pred
  else default_metrics.

(** [train_series.index[-1]], as [pd.date_range] reads it: a timestamp of
  a [DatetimeIndex] is its day; the integer label [len - 1] of a
  [RangeIndex] goes through [Timestamp(start)], which takes an integer
  as nanoseconds since the epoch, a time within the day
  [(len - 1) // 86_400_000_000_000] that the offsets keep and
  [strftime('%Y-%m-%d')] drops. *)
Definition last_date (train_series : Series) : result Timestamp :=
match index train_series with
| DatetimeIndex stamps _ =>
    match stamps with
    | [] => Raise IndexError
    | _ => Ok (List.last stamps 0%Z)
    end
| RangeIndex =>
    if empty train_series then Raise IndexError
    else Ok (Z.of_nat (len train_series - 1) / 86400000000000)%Z
end.

(** The dates of the forecast: [pd.date_range(last_date,
  periods=horizon + 1, freq=...)[1:]] with the frequencies ['D'],
  ['W'] and ['M'] of the source. *)
Definition future_dates (granularity : string) (last : Timestamp) (horizon : nat)
  : result (list Timestamp) :=
if String.eqb granularity "daily" then
  Ok (drop 1 (Calendar.date_range last (horizon + 1) Calendar.Day))
else if String.eqb granularity "weekly" then
  Ok (drop 1 (Calendar.date_range last (horizon + 1) Calendar.WeekSun))
else if String.eqb granularity "monthly" then
  Ok (drop 1 (Calendar.date_range last (horizon + 1) Calendar.MonthEnd))
else Raise UnboundLocalError.

(** The formatting step of [run_forecast]. *)
Definition format (train_series : Series) (granularity : string) (horizon : nat)
  (predictions : list R) : result (list (Timestamp * R)) :=
last ← last_date train_series;
dates ← future_dates granularity last horizon;
Ok (zip dates predictions).

Section WithLibraries.
Variable libs : Libraries.

(** The dispatch on the model type, as in both methods. *)
Definition run_model (model_type : string) (train_series : Series)
(horizon : nat) (granularity : string) : result (list R) :=
if String.eqb model_type "baseline" then
Baseline.fit_predict "seasonal_naive" train_series horizon Baseline.default_period
else if String.eqb model_type "arima" then
Ok (Arima.fit_predict (statsmodels libs) Arima.init train_series horizon true)
else if String.eqb model_type "xgboost" then
XGBoost.fit_predict (learner libs) XGBoost.init train_series horizon granularity
else Raise (ValueError ("Unknown model type: " ++ model_type)).

(** The metrics of a trial, as an entry of [model_scores]. *)
Definition score_trial (test_series : Series) (val_horizon : nat)
(predictions : list R) : result Score :=
let actual_vals := take val_horizon (values test_series) in
let pred_vals := take (length actual_vals) predictions in
let metrics := Metrics.calculate_metrics actual_vals pred_vals in
acc ← getitem metrics "accuracy";
mae_ ← getitem metrics "mae";
rmse_ ← getitem metrics "rmse";
r2_ ← getitem metrics "r2";
Ok {| accuracy := acc; mae := Fin mae_; rmse := Fin rmse_; r2 := r2_ |}.

(** One turn of the loop over the models. *)
Definition evaluate (train_series test_series : Series) (granularity : string)
(val_horizon : nat) (model_type : string) : Score :=
match predictions ← run_model model_type train_series val_horizon granularity;
    score_trial test_series val_horizon predictions with
| Ok s => s
| Raise _ => failed_score
end.

Definition auto_select_model (train_series test_series : Series)
(granularity : string) : result (string * list (string * Score)) :=
let val_horizon := Nat.min (len test_series) 30 in
let model_scores :=
map (fun model_type =>
       (model_type,
        evaluate train_series test_series granularity val_horizon model_type))
    concrete_models in
best ← py_max model_scores;
Ok (fst best, model_scores).

(** [run_forecast] from the two series on. *)
Definition forecast (train_series test_series : Series) (model_type : string)
(horizon : nat) (granularity : string) : result ForecastResult :=
model_type ←
(if String.eqb model_type "auto" then
   selected ← auto_select_model train_series test_series granularity;
   Ok (fst selected)
 else Ok model_type);
predictions ← run_model model_type train_series horizon granularity;
let metrics := score train_series test_series predictions horizon in
prediction_list ← format train_series granularity horizon predictions;
Ok {| predictions := prediction_list; metrics := metrics |}.

Definition run_forecast (now : Z) (w : World) (dataset_url model_type : string)
(horizon : nat) (granularity : string) : World * result ForecastResult :=
let '(w1, loaded) := DataLoader.load_data_from_url (pandas libs) now w dataset_url in
match loaded with
| Raise e => (w1, Raise e)
| Ok df =>
  match table ← lib_call (heap w1 !! df); DataLoader.validate_data table with
  | Raise e => (w1, Raise e)
  | Ok _ =>
      let '(h2, series) :=
        DataLoader.preprocess_data (pandas libs) (heap w1) df
          "date" "sales" granularity in
      let w2 := {| heap := h2; next_loc := next_loc w1;
                   dataset_cache := dataset_cache w1 |} in
      (w2,
       '(train_series, test_series) ← series;
       forecast train_series test_series model_type horizon granularity)
  end
end.

End WithLibraries.

End ForecastService.

(* ------------------------------------------------------------------ *)
(** ** Vocabulary of the properties and sample inputs                  *)
(* ------------------------------------------------------------------ *)

(** A computation that does not end in an [InsufficientDataError]. *)
Definition never_insufficient {A : Type} (r : result A) : Prop :=
  match r with
  | Raise e => ~ DataLoader.InsufficientDataError e
  | Ok _ => True
  end.

(** The records of a table, in the words of the specification: one for
    each row whose date is a timestamp, with the number in its value
    cell, a missing value counting as zero. *)
Definition observed_records (dates values : list cell) : list (Timestamp * R) :=
  omap (fun row : cell * cell =>
          match fst row with
          | CDate t => Some (t, match snd row with CNum r => r | _ => 0 end)
          | _ => None
          end)
       (zip dates values).

(** The labels of a table and the number of cells under each. *)
Definition shape (df : DataFrame) : list (string * nat) :=
  map (fun column => (fst column, length (snd column))) df.

(** Every element of the first list is below every element of the second. *)
Definition all_before (earlier later : list Timestamp) : Prop :=
  Forall (fun t => Forall (fun t' => (t < t')%Z) later) earlier.

(** A list of zeros only. *)
Definition all_zero : list R -> Prop := Forall (fun a : R => a = 0).

Module Sample.

(** A parser of dates that knows the first days of January 2024. *)
Definition known_dates : list (string * Timestamp) :=
[("2024-01-01", 19723); ("2024-01-02", 19724); ("2024-01-03", 19725);
 ("2024-01-04", 19726); ("2024-01-05", 19727); ("2024-01-06", 19728);
 ("2024-01-07", 19729); ("2024-01-08", 19730); ("2024-01-09", 19731)]%Z.

Fixpoint assoc (table : list (string * Timestamp)) (s : string) : option Timestamp :=
match table with
| [] => None
| (k, t) :: rest => if String.eqb k s then Some t else assoc rest s
end.

Definition parse_date (c : cell) : option Timestamp :=
match c with
| CStr s => assoc known_dates s
| CDate t => Some t
| _ => None
end.

(** Ten raw rows, the date of the last of which does not parse. *)
Definition table : DataFrame :=
[("date"%string,
  [CStr "2024-01-01"; CStr "2024-01-02"; CStr "2024-01-03"; CStr "2024-01-04";
   CStr "2024-01-05"; CStr "2024-01-06"; CStr "2024-01-07"; CStr "2024-01-08";
   CStr "2024-01-09"; CStr "n/a"]);
 ("sales"%string,
  [CNum 10; CNum 20; CNum 30; CNum 40; CNum 50;
   CNum 60; CNum 70; CNum 80; CNum 90; CNum 100])].

(** The same table once its dates are parsed. *)
Definition parsed_table : DataFrame :=
[("date"%string,
  [CDate 19723%Z; CDate 19724%Z; CDate 19725%Z; CDate 19726%Z; CDate 19727%Z;
   CDate 19728%Z; CDate 19729%Z; CDate 19730%Z; CDate 19731%Z; CNaT]);
 ("sales"%string,
  [CNum 10; CNum 20; CNum 30; CNum 40; CNum 50;
   CNum 60; CNum 70; CNum 80; CNum 90; CNum 100])].

(** A source that serves [table] at every URL. *)
Definition pandas : DataLoader.Pandas :=
{| DataLoader.requests_get := fun _ => Some "csv"%string;
   DataLoader.read_csv := fun _ => Some table;
   DataLoader.to_datetime := fun cells => Some (map parse_date cells);
   DataLoader.to_datetime_mixed := fun cells => Some (map parse_date cells);
   DataLoader.to_numeric := fun _ => None |}.

Definition libraries : ForecastService.Libraries :=
{| ForecastService.pandas := pandas;
   ForecastService.statsmodels := Arima.raising;
   ForecastService.learner := XGBoost.constant_learner 1 |}.

(** A store that holds [table] at reference 0. *)
Definition store : gmap loc DataFrame := {[ 0%nat := table ]}.

Definition ten_ones : Series := mkSeries RangeIndex (repeat 1 10).

Definition ten_points_ending_below_zero : Series :=
mkSeries RangeIndex [1; 1; 1; 1; 1; 1; 1; 1; 1; -5].

Definition no_history : Series := mkSeries (DatetimeIndex [] (Some "D"%string)) [].

(** A library whose tests and fits succeed and whose forecast is 5 at
  every step. *)
Definition steady : Arima.Statsmodels :=
{| Arima.sm_model := unit; Arima.sm_fitted := unit;
   Arima.adfuller := fun _ => Some 0.01;
   Arima.acf := fun _ _ => None;
   Arima.infer_freq := fun _ => None;
   Arima.seasonal_strength := fun _ _ => None;
   Arima.SARIMAX := fun _ _ _ _ => Some tt;
   Arima.fit := fun _ _ => Some tt;
   Arima.forecast := fun _ steps => Some (repeat 5 steps) |}.

(** A source that cannot be reached and parsers that raise. *)
Definition offline : DataLoader.Pandas :=
{| DataLoader.requests_get := fun _ => None;
   DataLoader.read_csv := fun _ => None;
   DataLoader.to_datetime := fun _ => None;
   DataLoader.to_datetime_mixed := fun _ => None;
   DataLoader.to_numeric := fun _ => None |}.

End Sample.

(* ================================================================== *)
(** * Part II. Properties                                              *)
(* ================================================================== *)

(** ** Results and arrays *)

Lemma bind_Ok {A B} (r : result A) (k : A -> result B) b :
  r ≫= k = Ok b -> exists a, r = Ok a /\ k a = Ok b.
Proof. destruct r as [a|e]; [|discriminate]. intros H. exists a. auto. Qed.

Lemma gtb_true x y : gtb x y = true <-> x > y.
Proof. unfold gtb. destruct (Rgt_dec x y); split; intros; try discriminate; tauto. Qed.

Lemma gtb_false x y : gtb x y = false <-> x <= y.
Proof.
  unfold gtb. destruct (Rgt_dec x y); split; intros H;
    try discriminate; try reflexivity; lra.
Qed.

Lemma ltb_true x y : ltb x y = true <-> x < y.
Proof. unfold ltb. destruct (Rlt_dec x y); split; intros; try discriminate; tauto. Qed.

Lemma rmaximum_cons x y l : rmaximum (x :: y :: l) = Rmax x (rmaximum (y :: l)).
Proof. reflexivity. Qed.

Lemma rmaximum_ge (l : list R) x : In x l -> x <= rmaximum l.
Proof.
  induction l as [|a l IH]; [intros []|].
  destruct l as [|b l].
  - intros [->|[]]. simpl. lra.
  - intros [->|Hx]; rewrite rmaximum_cons.
    + apply Rmax_l.
    + etransitivity; [apply IH, Hx | apply Rmax_r].
Qed.

Lemma last_In (l : list R) d : l <> [] -> In (List.last l d) l.
Proof.
  induction l as [|a l IH]; [congruence|].
  intros _. destruct l as [|b l]; [left; reflexivity|].
  right. apply IH. discriminate.
Qed.

Lemma last_le_rmaximum (l : list R) : l <> [] -> List.last l 0 <= rmaximum l.
Proof. intros H. apply rmaximum_ge, last_In, H. Qed.

Lemma Forall_np_full (P : R -> Prop) n v : P v -> Forall P (np_full n v).
Proof. intros H. unfold np_full. induction n; simpl; constructor; assumption. Qed.

Lemma length_np_full n v : length (np_full n v) = n.
Proof. apply repeat_length. Qed.

(** ** The calendar *)

Section CalendarProperties.
Import Calendar.
Open Scope Z_scope.

Ltac divlia := Z.div_mod_to_equations; lia.

(** A month has at least 28 days. *)
Lemma month_length b : month_start b + 28 <= month_start (b + 1).
Proof.
unfold month_start, days_from_civil.
repeat match goal with |- context [if ?c then _ else _] => destruct c eqn:? end;
  divlia.
Qed.

Lemma month_start_step b : month_start b < month_start (b + 1).
Proof. pose proof (month_length b). lia. Qed.

Lemma month_start_lt b b' : b < b' -> month_start b < month_start b'.
Proof.
intros H. replace b' with (b + 1 + Z.of_nat (Z.to_nat (b' - b - 1))) by lia.
generalize (Z.to_nat (b' - b - 1)). intros n. induction n as [|n IH].
- rewrite Z.add_0_r. apply month_start_step.
- etransitivity; [exact IH|].
  replace (b + 1 + Z.of_nat (S n)) with (b + 1 + Z.of_nat n + 1) by lia.
  apply month_start_step.
Qed.

Lemma yoe_of_days_before k j :
0 <= k <= 399 -> 0 <= j <= 364 -> yoe_of (days_before k + j) = k.
Proof. unfold yoe_of, days_before. intros. divlia. Qed.

Lemma yoe_of_mono a b : 0 <= a <= b -> b < 146097 -> yoe_of a <= yoe_of b.
Proof. unfold yoe_of. intros. divlia. Qed.

Lemma yoe_of_range doe : 0 <= doe < 146097 -> 0 <= yoe_of doe <= 399.
Proof. unfold yoe_of. intros. divlia. Qed.

Lemma day_of_year_range doe :
0 <= doe < 146097 -> 0 <= doe - days_before (yoe_of doe) <= 365.
Proof. unfold yoe_of, days_before. intros. divlia. Qed.

(** The month start in the form that [march_month] inverts. *)
Lemma month_start_march b :
let m := b - 2 in
month_start b
= (m / 12 / 400) * 146097
  + (days_before (m / 12 mod 400) + (153 * (m mod 12) + 2) / 5)
  - 719468.
Proof.
intros m. subst m. unfold month_start, days_from_civil, days_before.
assert (Hb : b = 12 * (b / 12) + b mod 12 /\ 0 <= b mod 12 < 12) by divlia.
set (q := b / 12) in *. set (r := b mod 12) in *. clearbody q r.
destruct Hb as [-> Hr].
destruct (Z_lt_dec r 2) as [Hlt|Hge].
- replace ((12 * q + r - 2) / 12) with (q - 1) by divlia.
  replace ((12 * q + r - 2) mod 12) with (r + 10) by divlia.
  replace (r + 1 <=? 2) with true by (symmetry; apply Z.leb_le; lia).
  replace (2 <? r + 1) with false by (symmetry; apply Z.ltb_ge; lia).
  rewrite (Z.mod_eq (q - 1) 400) by lia.
  set (e := (q - 1) / 400). clearbody e.
  replace (q - 1 - e * 400) with (q - 1 - 400 * e) by lia.
  replace (r + 1 + 9) with (r + 10) by lia. lia.
- replace ((12 * q + r - 2) / 12) with q by divlia.
  replace ((12 * q + r - 2) mod 12) with (r - 2) by divlia.
  replace (r + 1 <=? 2) with false by (symmetry; apply Z.leb_gt; lia).
  replace (2 <? r + 1) with true by (symmetry; apply Z.ltb_lt; lia).
  rewrite (Z.mod_eq q 400) by lia.
  set (e := q / 400). clearbody e.
  replace (q - e * 400) with (q - 400 * e) by lia.
  replace (r + 1 - 3) with (r - 2) by lia. lia.
Qed.

Lemma month_of_month_start b : month_of (month_start b) = b.
Proof.
rewrite month_start_march. cbv zeta.
set (m := b - 2). set (era := m / 12 / 400). set (yoe := m / 12 mod 400).
set (mp := m mod 12). set (doy := (153 * mp + 2) / 5).
assert (Hyoe : 0 <= yoe <= 399) by (subst yoe; divlia).
assert (Hmp : 0 <= mp <= 11) by (subst mp; divlia).
assert (Hdoy : 0 <= doy <= 337) by (subst doy; divlia).
assert (Hdoe : 0 <= days_before yoe + doy < 146097)
  by (unfold days_before; divlia).
unfold month_of, march_month.
replace (era * 146097 + (days_before yoe + doy) - 719468 + 719468)
  with (days_before yoe + doy + era * 146097) by lia.
rewrite Z.div_add by lia. rewrite (Z.div_small _ _ Hdoe). rewrite Z.add_0_l.
replace (days_before yoe + doy + era * 146097 - era * 146097)
  with (days_before yoe + doy) by lia.
rewrite (yoe_of_days_before yoe doy) by lia.
replace (days_before yoe + doy - days_before yoe) with doy by lia.
replace ((5 * doy + 2) / 153) with mp by (subst doy; divlia).
subst era yoe mp m. divlia.
Qed.

Lemma march_month_mono t t' : t <= t' -> march_month t <= march_month t'.
Proof.
intros Htt. unfold march_month.
set (z := t + 719468). set (z' := t' + 719468).
assert (Hz : z <= z') by (subst z z'; lia).
set (era := z / 146097). set (era' := z' / 146097).
set (doe := z - era * 146097). set (doe' := z' - era' * 146097).
assert (Hdoe : 0 <= doe < 146097) by (subst doe era; divlia).
assert (Hdoe' : 0 <= doe' < 146097) by (subst doe' era'; divlia).
assert (Hera : era <= era') by (subst era era'; apply Z.div_le_mono; lia).
pose proof (yoe_of_range doe Hdoe) as Hy.
pose proof (yoe_of_range doe' Hdoe') as Hy'.
pose proof (day_of_year_range doe Hdoe) as Hd.
pose proof (day_of_year_range doe' Hdoe') as Hd'.
set (yoe := yoe_of doe) in *. set (yoe' := yoe_of doe') in *.
set (doy := doe - days_before yoe) in *. set (doy' := doe' - days_before yoe') in *.
assert (Hmp : 0 <= (5 * doy + 2) / 153 <= 11) by divlia.
assert (Hmp' : 0 <= (5 * doy' + 2) / 153 <= 11) by divlia.
destruct (Z.eq_dec era era') as [Heq|Hne];
  [|clearbody doy doy' yoe yoe' doe doe' era era' z z'; lia].
assert (Hdd : doe <= doe') by (subst doe doe'; lia).
assert (Hyy : yoe <= yoe') by (subst yoe yoe'; apply yoe_of_mono; lia).
destruct (Z.eq_dec yoe yoe') as [Heqy|Hney];
  [|clearbody doy doy' yoe yoe' doe doe' era era' z z'; lia].
assert (Hdoy : doy <= doy') by (unfold doy, doy'; rewrite Heqy; lia).
assert ((5 * doy + 2) / 153 <= (5 * doy' + 2) / 153)
  by (apply Z.div_le_mono; lia).
clearbody doy doy' yoe yoe' doe doe' era era' z z'. lia.
Qed.

Lemma period_of_mono o t t' : t <= t' -> period_of o t <= period_of o t'.
Proof.
intros H. destruct o; simpl; try lia.
- apply Z.div_le_mono; lia.
- unfold month_of. pose proof (march_month_mono t t' H). lia.
- unfold month_of. pose proof (march_month_mono t t' H). lia.
Qed.


Lemma label_lt o b b' : b < b' -> label o b < label o b'.
Proof.
intros H. destruct o; simpl; try lia.
- apply month_start_lt, H.
- unfold month_end. pose proof (month_start_lt (b + 1) (b' + 1)). lia.
Qed.

(** A day is not before the start of its month. *)
Lemma month_start_le t : month_start (month_of t) <= t.
Proof.
rewrite month_start_march. cbv zeta. unfold month_of, march_month.
set (z := t + 719468). set (era := z / 146097). set (doe := z - era * 146097).
assert (Hdoe : 0 <= doe < 146097) by (subst doe era; divlia).
pose proof (yoe_of_range doe Hdoe) as Hy.
pose proof (day_of_year_range doe Hdoe) as Hd.
set (yoe := yoe_of doe) in *. set (doy := doe - days_before yoe) in *.
set (mp := (5 * doy + 2) / 153).
assert (Hmp : 0 <= mp <= 11) by (subst mp; divlia).
replace ((yoe + era * 400) * 12 + mp + 2 - 2) with (mp + (yoe + era * 400) * 12) by lia.
rewrite Z.div_add, Z.mod_add by lia.
rewrite (Z.div_small mp 12), (Z.mod_small mp 12), Z.add_0_l by lia.
rewrite Z.div_add, Z.mod_add by lia.
rewrite (Z.div_small yoe 400), (Z.mod_small yoe 400), Z.add_0_l by lia.
assert (Hm : (153 * mp + 2) / 5 <= doy) by (subst mp; divlia).
unfold doy in Hm. subst z. unfold doe in Hm |- *.
clearbody era. lia.
Qed.

Lemma month_of_mono t t' : t <= t' -> month_of t <= month_of t'.
Proof. intros H. unfold month_of. pose proof (march_month_mono t t' H). lia. Qed.

Lemma month_of_month_end b : month_of (month_end b) = b.
Proof.
unfold month_end.
pose proof (month_start_step b) as Hs.
assert (Hlo : month_of (month_start b) <= month_of (month_start (b + 1) - 1))
  by (apply month_of_mono; lia).
assert (Hhi : month_of (month_start (b + 1) - 1) <= month_of (month_start (b + 1)))
  by (apply month_of_mono; lia).
rewrite month_of_month_start in Hlo, Hhi.
pose proof (month_start_le (month_start (b + 1) - 1)) as Hle.
generalize dependent (month_of (month_start (b + 1) - 1)). intros k Hlo Hhi Hle.
destruct (Z.eq_dec k b) as [|Hne]; [assumption|].
assert (k = b + 1) by lia. subst k. lia.
Qed.

Lemma period_of_label o b : period_of o (label o b) = b.
Proof.
destruct o; cbn [period_of label].
- reflexivity.
- divlia.
- apply month_of_month_start.
- apply month_of_month_end.
Qed.

(** Adding the offset to the label of a period gives the label of the
  next period. *)
Lemma offset_add_label o b : offset_add o (label o b) = label o (b + 1).
Proof.
destruct o; cbn [offset_add label period_of].
- reflexivity.
- divlia.
- rewrite month_of_month_start. reflexivity.
- unfold month_end at 2. replace (month_start (b + 1) - 1 + 1) with (month_start (b + 1)) by lia.
  rewrite month_of_month_start. reflexivity.
Qed.

(** On the grid, the step is one day, seven days, or the days of the
  month. *)
Lemma offset_add_days o b :
match o with
| Day => offset_add o (label o b) = label o b + 1
| WeekSun => offset_add o (label o b) = label o b + 7
| MonthBegin | MonthEnd => label o b + 28 <= offset_add o (label o b)
end.
Proof.
rewrite offset_add_label. destruct o; cbn [label]; try lia.
- apply month_length.
- unfold month_end. pose proof (month_length (b + 1)). lia.
Qed.

Lemma iterate_label o n : forall b,
iterate (offset_add o) (label o b) n = grid o b n.
Proof.
unfold grid. induction n as [|n IH]; intros b; [reflexivity|].
cbn [iterate seq map]. rewrite Z.add_0_r. f_equal.
rewrite offset_add_label, IH, <- seq_shift, map_map.
apply map_ext. intros i. f_equal. lia.
Qed.

Lemma length_grid o b n : length (grid o b n) = n.
Proof. unfold grid. rewrite length_map, length_seq. reflexivity. Qed.

Lemma grid_S o b n : grid o b (S n) = label o b :: grid o (b + 1) n.
Proof.
unfold grid. cbn [seq map]. rewrite Z.add_0_r. f_equal.
rewrite <- seq_shift, map_map. apply map_ext. intros i. f_equal. lia.
Qed.

End CalendarProperties.

(** The calendar on known dates: 1970-01-01 is day 0, a Thursday;
    2024-02-29 exists; the week of Monday 2024-01-01 ends on Sunday
    2024-01-07; March 2024 starts on day 19783 and ends on 2024-03-31. *)
Example calendar_known_dates :
  (Calendar.civil_from_days 0 = (1970, 1, 1) /\
   Calendar.civil_from_days 19782 = (2024, 2, 29) /\
   Calendar.days_from_civil 2024 1 1 = 19723 /\
   Calendar.label Calendar.WeekSun (Calendar.period_of Calendar.WeekSun 19723) = 19729 /\
   Calendar.label Calendar.MonthBegin (Calendar.period_of Calendar.MonthBegin 19800)
   = Calendar.days_from_civil 2024 3 1 /\
   Calendar.civil_from_days (Calendar.label Calendar.MonthEnd
                               (Calendar.period_of Calendar.MonthEnd 19800))
   = (2024, 3, 31))%Z.
Proof. vm_compute. repeat split; reflexivity. Qed.

(** ** The statistical forecaster *)

Section ArimaProperties.
Import Arima.
Variable sm : Statsmodels.

Lemma empty_false (data : Series) : values data <> [] -> empty data = false.
Proof. unfold empty. destruct (values data); congruence. Qed.

(** The threshold of the divergence check is positive, so a raw
  prediction is above it exactly when the clamped one is. *)
Lemma existsb_clamped (t : R) (raw : list R) :
0 < t ->
existsb (fun p => gtb p t) (map (fun p => Rmax p 0) raw) = true <->
Exists (fun p => p > t) raw.
Proof.
intros Ht. induction raw as [|a raw IH]; simpl.
- split; [discriminate | intros H; inversion H].
- rewrite orb_true_iff, IH, gtb_true, Exists_cons.
  assert (Rmax a 0 > t <-> a > t); [|tauto].
  unfold Rmax. destruct (Rle_dec a 0); lra.
Qed.

Lemma threshold_pos data : 0 < divergence_threshold data.
Proof.
unfold divergence_threshold.
eapply Rlt_le_trans; [|apply Rmax_r]. lra.
Qed.

Lemma safety_rails_within data horizon raw :
values data <> [] ->
0 <= List.last (values data) 0 ->
Forall (within_rails data) (safety_rails data horizon raw).
Proof.
intros Hne Hlast. pose proof (last_le_rmaximum _ Hne) as Hmax.
unfold safety_rails. rewrite (empty_false _ Hne).
destruct (existsb _ _).
- apply Forall_np_full. unfold within_rails. lra.
- rewrite Forall_map, Forall_map. apply Forall_forall. intros p _.
  unfold within_rails, Rmin, Rmax.
  destruct (Rle_dec p 0); destruct (Rle_dec _ _); lra.
Qed.

Lemma safety_rails_divergence data horizon raw :
values data <> [] ->
Exists (fun p => p > divergence_threshold data) raw ->
safety_rails data horizon raw = np_full horizon (List.last (values data) 0).
Proof.
intros Hne Hex. unfold safety_rails. rewrite (empty_false _ Hne).
apply (existsb_clamped _ _ (threshold_pos data)) in Hex.
unfold divergence_threshold in Hex. rewrite Hex. reflexivity.
Qed.

End ArimaProperties.

(** C1, as amended.  For every non-empty input series whose last observed
    value is non-negative (so in particular for every non-empty series of
    non-negative values, all-zero and exploding ones included), whatever
    the library answers and whatever the horizon, every prediction of the
    statistical forecaster lies between 0 and [historical_max * 10]; and
    when a raw prediction exceeds [max(historical_max * 100, 1e9)], the
    whole forecast is the naive one, the last observed value repeated. *)
Theorem arima_fit_predict_within_rails
    (sm : Arima.Statsmodels) (self : Arima.ARIMAForecaster)
    (data : Series) (horizon : nat) (auto_order : bool) :
  values data <> [] ->
  0 <= List.last (values data) 0 ->
  Forall (Arima.within_rails data) (Arima.fit_predict sm self data horizon auto_order)
  /\ (forall raw,
        Arima.raw_forecast sm self data horizon auto_order = Ok raw ->
        Exists (fun p => p > Arima.divergence_threshold data) raw ->
        Arima.fit_predict sm self data horizon auto_order
        = np_full horizon (List.last (values data) 0)).
Proof.
  intros Hne Hlast. unfold Arima.fit_predict. split.
  - destruct (Arima.raw_forecast _ _ _ _ _).
    + apply safety_rails_within; assumption.
    + rewrite (empty_false _ Hne). apply Forall_np_full.
      pose proof (last_le_rmaximum _ Hne). unfold Arima.within_rails. lra.
  - intros raw -> Hex. apply safety_rails_divergence; assumption.
Qed.

(** With the library [forecasting raw], the raw forecast is [raw]. *)
Lemma raw_forecast_forecasting raw data horizon :
  Arima.raw_forecast (Arima.forecasting raw) Arima.init data horizon true = Ok raw.
Proof.
  unfold Arima.raw_forecast, Arima.auto_select_order.
  cbn [Arima.adfuller Arima.forecasting lib_call mbind result_bind].
  destruct (ltb 0.01 0.05);
    destruct (Arima.detect_seasonality _ data) as [period has];
    destruct (has && _); try destruct (_ <=? _)%nat; reflexivity.
Qed.

(** On the history [1; 2], a raw forecast of 2e9 is above the threshold
    1e9: the forecast is the naive one, [2], within the rails. *)
Lemma arima_fit_predict_within_rails_witness :
  let data := mkSeries RangeIndex [1; 2] in
  let forecast := Arima.fit_predict (Arima.forecasting [2e9]) Arima.init data 1 true in
  Forall (Arima.within_rails data) forecast /\ forecast = [2].
Proof.
  intros data forecast. subst forecast.
  destruct (arima_fit_predict_within_rails
              (Arima.forecasting [2e9]) Arima.init data 1 true) as [Hrails Hnaive].
  - discriminate.
  - simpl. lra.
  - split; [exact Hrails|].
    apply (Hnaive [2e9]); [apply raw_forecast_forecasting|].
    constructor. unfold Arima.divergence_threshold. simpl.
    unfold Rmax. repeat destruct (Rle_dec _ _); lra.
Defined.

(** C1 as stated fails on a history with negative values: on the one-point
    series [-1], with a library that raises, the forecast is the naive one,
    [-1], which is negative. *)
Lemma arima_negative_history_counterexample :
  let data := mkSeries RangeIndex [-1] in
  Arima.fit_predict Arima.raising Arima.init data 1 true = [-1] /\
  ~ Forall (Arima.within_rails data)
      (Arima.fit_predict Arima.raising Arima.init data 1 true).
Proof.
  simpl. split; [reflexivity|].
  intros H. inversion H as [|? ? [H0 _] _]. lra.
Qed.

(** The soft cap on a history whose maximum is negative: a raw forecast of
    2 after the series [-5; -3] is capped to -30. *)
Lemma arima_soft_cap_negative_max :
  Arima.fit_predict (Arima.forecasting [2]) Arima.init
    (mkSeries RangeIndex [-5; -3]) 1 true = [-30].
Proof.
  unfold Arima.fit_predict. rewrite raw_forecast_forecasting.
  unfold Arima.safety_rails. simpl.
  assert (Hm : Rmax (-5) (-3) = -3) by (unfold Rmax; destruct (Rle_dec _ _); lra).
  assert (Hc : Rmax 2 0 = 2) by (unfold Rmax; destruct (Rle_dec _ _); lra).
  rewrite Hm, Hc.
  assert (Hg : gtb 2 (Rmax (-3 * 100) 1e9) = false).
  { apply gtb_false. etransitivity; [|apply Rmax_r]. lra. }
  rewrite Hg. simpl. f_equal.
  unfold Rmin. destruct (Rle_dec _ _); lra.
Qed.

(** C10.  On an empty series, which statsmodels refuses, the statistical
    forecaster does not raise: for every horizon it returns exactly
    [horizon] values, each of them 0. *)
Theorem arima_fit_predict_empty_series
    (sm : Arima.Statsmodels) (self : Arima.ARIMAForecaster)
    (idx : Index) (horizon : nat) (auto_order : bool) :
  Arima.rejects_empty sm ->
  Arima.fit_predict sm self (mkSeries idx []) horizon auto_order = repeat 0 horizon
  /\ length (Arima.fit_predict sm self (mkSeries idx []) horizon auto_order) = horizon.
Proof.
  intros [Hadf Hctor].
  assert (H : Arima.fit_predict sm self (mkSeries idx []) horizon auto_order
              = repeat 0 horizon).
  { unfold Arima.fit_predict, Arima.raw_forecast.
    destruct auto_order.
    - unfold Arima.auto_select_order. simpl. rewrite Hadf. reflexivity.
    - simpl.
      pose proof (Hctor idx (Arima.order self) (Arima.seasonal_order self) false) as H1.
      pose proof (Hctor idx (Arima.order self) (0, 0, 0, 0)%nat true) as H2.
      destruct (Arima.SARIMAX sm _ _ _ false) as [model|]; [|reflexivity].
      simpl. rewrite H1. simpl.
      destruct (Arima.SARIMAX sm _ _ _ true) as [model'|]; [|reflexivity].
      simpl. rewrite H2. reflexivity. }
  split; [exact H|]. rewrite H. apply repeat_length.
Qed.

(** With a library that raises on every call, three zeros for a horizon
    of three. *)
Lemma arima_fit_predict_empty_series_witness :
  Arima.fit_predict Arima.raising Arima.init (mkSeries RangeIndex []) 3 true
  = repeat 0 3
  /\ length (Arima.fit_predict Arima.raising Arima.init (mkSeries RangeIndex []) 3 true)
     = 3%nat.
Proof.
  apply (arima_fit_predict_empty_series Arima.raising Arima.init RangeIndex 3 true).
  split; [reflexivity|]. intros idx ord seasonal enforce. exact I.
Defined.

(** ** The metrics engine *)

Section MetricsProperties.
Import Metrics.

Lemma lookup_calculate_metrics actual predicted :
let s := raw_scores actual predicted in
let m := calculate_metrics actual predicted in
m !! "mae" = Some (round (mae s) 2) /\
m !! "rmse" = Some (round (rmse s) 2) /\
m !! "mape" = Some (round (mape s) 2) /\
m !! "smape" = Some (round (smape s) 2) /\
m !! "r2" = Some (round (r2 s) 4) /\
m !! "rmsse" = Some (round (rmsse s) 4) /\
m !! "accuracy" = Some (round (accuracy s) 2).
Proof.
intros s m. subst m. unfold calculate_metrics. fold s.
generalize (round (mae s) 2), (round (rmse s) 2), (round (mape s) 2),
  (round (smape s) 2), (round (r2 s) 4), (round (rmsse s) 4),
  (round (accuracy s) 2).
intros. repeat split; reflexivity.
Qed.

(** Rounding leaves an integer where it is. *)
Lemma round_half_even_IZR z : round_half_even (IZR z) = z.
Proof.
unfold round_half_even. rewrite ZfloorZ.
destruct (Rlt_dec _ _) as [|Hn]; [reflexivity|]. exfalso. apply Hn. lra.
Qed.

Lemma pow10_pos n : 0 < 10 ^ n.
Proof. apply pow_lt. lra. Qed.

Lemma round_IZR z n : round (IZR z) n = IZR z.
Proof.
unfold round. pose proof (pow10_pos n) as Hp.
replace (IZR z * 10 ^ n) with (IZR (z * 10 ^ Z.of_nat n)).
- rewrite round_half_even_IZR, mult_IZR, <- pow_IZR. field. lra.
- rewrite mult_IZR, <- pow_IZR. reflexivity.
Qed.

Lemma rsum_repeat_0 n : rsum (repeat 0 n) = 0.
Proof. induction n; simpl; [reflexivity|]. rewrite IHn. ring. Qed.

Lemma mean_repeat_0 n : mean (repeat 0 n) = 0.
Proof. unfold mean. rewrite rsum_repeat_0. apply Rdiv_0_l. Qed.

Lemma errors_self (x : list R) : zip_with Rminus x x = repeat 0 (length x).
Proof.
induction x as [|a x IH]; simpl; [reflexivity|].
rewrite IH. f_equal. ring.
Qed.

Lemma map_Rabs_repeat_0 n : map Rabs (repeat 0 n) = repeat 0 n.
Proof. induction n; simpl; [reflexivity|]. rewrite IHn, Rabs_R0. reflexivity. Qed.

Lemma map_square_repeat_0 n : map square (repeat 0 n) = repeat 0 n.
Proof.
induction n; simpl; [reflexivity|]. rewrite IHn. f_equal. unfold square. ring.
Qed.

Lemma zip_div_repeat_0 (x : list R) :
zip_with Rdiv (repeat 0 (length x)) x = repeat 0 (length x).
Proof.
induction x as [|a x IH]; simpl; [reflexivity|].
rewrite IH, Rdiv_0_l. reflexivity.
Qed.

Lemma rsum_ge_term (l : list R) y :
Forall (fun v => 0 <= v) l -> In y l -> y <= rsum l.
Proof.
induction 1 as [|a l Ha Hl IH]; [intros []|].
assert (0 <= rsum l).
{ clear IH. induction Hl; simpl; lra. }
simpl. intros [->|Hy]; [lra|]. specialize (IH Hy). lra.
Qed.

(** The total sum of squares of a non-constant series is positive. *)
Lemma ss_tot_pos (x : list R) c :
non_constant x -> 0 < rsum (map (fun a => square (a - c)) x).
Proof.
intros (a & b & Ha & Hb & Hab).
assert (Hex : exists v, In v x /\ v <> c).
{ destruct (Req_dec_T a c) as [->|Hac]; [exists b | exists a]; auto. }
destruct Hex as (v & Hv & Hvc).
eapply Rlt_le_trans with (square (v - c)).
- unfold square. rewrite <- Rsqr_pow2. apply Rsqr_pos_lt.
  intros Heq. apply Hvc. lra.
- apply rsum_ge_term.
  + apply Forall_map, Forall_forall. intros w _. unfold square.
    apply pow2_ge_0.
  + apply in_map_iff. exists v. auto.
Qed.

Lemma take_self (x : list R) :
take (Nat.min (length x) (length x)) x = x.
Proof. rewrite Nat.min_id. apply firstn_all. Qed.

(** The raw scores of a series against itself. *)
Lemma raw_scores_self (x : list R) :
let s := raw_scores x x in
mae s = 0 /\ rmse s = 0 /\ mape s = 0 /\
r2 s = (if gtb (rsum (map (fun a => square (a - mean x)) x)) 0 then 1 else 0) /\
accuracy s = (if gtb (mean x) 0 then 100 else 0).
Proof.
unfold raw_scores. rewrite !take_self. cbn [mae rmse mape r2 accuracy].
rewrite !errors_self, map_Rabs_repeat_0, map_square_repeat_0, mean_repeat_0,
  rsum_repeat_0, sqrt_0.
repeat split.
- destruct (_ <? _)%nat; [|reflexivity].
  rewrite zip_div_repeat_0, map_Rabs_repeat_0, mean_repeat_0. ring.
- destruct (gtb _ 0); [|reflexivity]. rewrite Rdiv_0_l. ring.
- destruct (gtb _ 0); [|reflexivity].
  rewrite Rdiv_0_l. replace ((1 - 0) * 100) with 100 by ring.
  unfold Rmax. destruct (Rle_dec _ _); lra.
Qed.
End MetricsProperties.

(** C3, as amended.  For every non-constant series [x] whose mean is
    positive, the metrics engine applied to [(x, x)] yields MAE = 0,
    RMSE = 0, MAPE = 0, R² = 1 and accuracy = 100. *)
Theorem calculate_metrics_identity (x : list R) :
  Metrics.non_constant x ->
  0 < mean x ->
  let m := Metrics.calculate_metrics x x in
  m !! "mae" = Some 0 /\ m !! "rmse" = Some 0 /\ m !! "mape" = Some 0 /\
  m !! "r2" = Some 1 /\ m !! "accuracy" = Some 100.
Proof.
  intros Hnc Hmean m.
  destruct (lookup_calculate_metrics x x) as (Hmae & Hrmse & Hmape & _ & Hr2 & _ & Hacc).
  destruct (raw_scores_self x) as (E1 & E2 & E3 & E4 & E5).
  subst m. rewrite Hmae, Hrmse, Hmape, Hr2, Hacc, E1, E2, E3, E4, E5.
  assert (G1 : gtb (rsum (map (fun a => Metrics.square (a - mean x)) x)) 0 = true).
  { apply gtb_true. apply Rlt_gt, ss_tot_pos, Hnc. }
  assert (G2 : gtb (mean x) 0 = true) by (apply gtb_true; lra).
  rewrite G1, G2.
  rewrite (round_IZR 0 2), (round_IZR 1 4), (round_IZR 100 2). auto.
Qed.

Lemma mean_1_3 : mean [1; 3] = 2.
Proof. unfold mean. simpl. lra. Qed.

(** The series [1; 3], of mean 2, against itself. *)
Lemma calculate_metrics_identity_witness :
  let m := Metrics.calculate_metrics [1; 3] [1; 3] in
  m !! "mae" = Some 0 /\ m !! "rmse" = Some 0 /\ m !! "mape" = Some 0 /\
  m !! "r2" = Some 1 /\ m !! "accuracy" = Some 100.
Proof.
  apply (calculate_metrics_identity [1; 3]).
  - exists 1, 3. simpl. repeat split; auto. lra.
  - rewrite mean_1_3. lra.
Defined.

Lemma mean_m1_m3 : mean [-1; -3] = -2.
Proof. unfold mean. simpl. lra. Qed.

(** C3 as stated fails on a series of negative mean: [-1; -3] is not
    constant and its mean, -2, is not zero, yet the accuracy of the series
    against itself is 0, since the accuracy is 0 unless the mean is
    positive. *)
Lemma calculate_metrics_negative_mean_counterexample :
  Metrics.non_constant [-1; -3] /\
  mean [-1; -3] <> 0 /\
  Metrics.calculate_metrics [-1; -3] [-1; -3] !! "accuracy" = Some 0 /\
  Metrics.calculate_metrics [-1; -3] [-1; -3] !! "accuracy" <> Some 100.
Proof.
  assert (H : Metrics.calculate_metrics [-1; -3] [-1; -3] !! "accuracy" = Some 0).
  { destruct (lookup_calculate_metrics [-1; -3] [-1; -3]) as (_ & _ & _ & _ & _ & _ & Hacc).
    destruct (raw_scores_self [-1; -3]) as (_ & _ & _ & _ & E5).
    rewrite Hacc, E5, mean_m1_m3.
    assert (G : gtb (-2) 0 = false) by (apply gtb_false; lra).
    rewrite G. rewrite (round_IZR 0 2). reflexivity. }
  repeat split.
  - exists (-1), (-3). simpl. repeat split; auto. lra.
  - rewrite mean_m1_m3. lra.
  - exact H.
  - rewrite H. intros [=Heq]. lra.
Qed.

(** ** The boosted-tree forecaster *)

Section XGBoostProperties.
Import XGBoost.
Variable lib : Learner.

(** When the recursive forecast completes, it has one value per step and
  each value is clamped at zero. *)
Lemma recursive_forecast_Ok self model freq granularity steps :
forall current preds,
  recursive_forecast lib self model freq granularity current steps = Ok preds ->
  length preds = steps /\ Forall (fun p => 0 <= p) preds.
Proof.
induction steps as [|steps IH]; intros current preds; simpl.
- intros [= <-]. split; [reflexivity | constructor].
- intros H.
  apply bind_Ok in H as (raw & _ & H).
  apply bind_Ok in H as (current' & _ & H).
  apply bind_Ok in H as (rest & Hrest & H).
  injection H as <-. destruct (IH _ _ Hrest) as [Hlen Hpos].
  split; [simpl; congruence|].
  constructor; [apply Rmax_l | exact Hpos].
Qed.

Lemma naive_fallback_Ok (data : Series) horizon :
values data <> [] ->
naive_fallback data horizon = Ok (np_full horizon (List.last (values data) 0)).
Proof.
unfold naive_fallback, iloc_last. destruct (values data); [congruence|reflexivity].
Qed.

(** On a non-empty series the forecaster returns: either the recursive
  forecast or the naive one. *)
Lemma fit_predict_cases self (data : Series) horizon granularity :
values data <> [] ->
fit_predict lib self data horizon granularity
  = Ok (np_full horizon (List.last (values data) 0))
\/ exists preds,
    fit_predict lib self data horizon granularity = Ok preds /\
    length preds = horizon /\ Forall (fun p => 0 <= p) preds.
Proof.
intros Hne. unfold fit_predict.
destruct (_ <? 10)%nat.
- left. rewrite (naive_fallback_Ok _ _ Hne). reflexivity.
- destruct (train lib self data granularity) as [model|]; simpl.
  + destruct (recursive_forecast _ _ _ _ _ _ _) as [preds|e] eqn:Hrec; simpl.
    * right. exists preds. split; [reflexivity|].
      eapply recursive_forecast_Ok, Hrec.
    * left. apply naive_fallback_Ok, Hne.
  + left. apply naive_fallback_Ok, Hne.
Qed.

(** The first row of the features is never complete once a rolling
  window fits the series. *)
Lemma row_complete_0 self granularity (sales : list R) :
(4 <= length sales)%nat -> row_complete self granularity sales 0 = false.
Proof.
intros Hn. unfold row_complete.
apply andb_false_iff. left. apply andb_false_iff. right.
assert (H3 : (3 <=? length sales)%nat = true) by (apply Nat.leb_le; lia).
assert (H4 : (4 <=? length sales)%nat = true) by (apply Nat.leb_le; lia).
unfold rolling_windows.
repeat match goal with |- context [String.eqb ?a ?b] => destruct (String.eqb a b) end;
  cbn [forallb]; rewrite ?H3, ?H4; reflexivity.
Qed.

Lemma filter_length_le {A} (f : A -> bool) (l : list A) :
(length (List.filter f l) <= length l)%nat.
Proof. induction l as [|a l IH]; simpl; [lia|]. destruct (f a); simpl; lia. Qed.

Lemma complete_rows_lt self granularity (sales : list R) :
(4 <= length sales)%nat ->
(complete_rows self granularity sales < length sales)%nat.
Proof.
intros Hn. unfold complete_rows.
pose proof (row_complete_0 self granularity sales Hn) as H0.
destruct (length sales) as [|n] eqn:Hlen; [lia|].
cbn [seq List.filter]. rewrite H0.
pose proof (filter_length_le (row_complete self granularity sales) (seq 1 n)) as Hle.
rewrite length_seq in Hle. lia.
Qed.

(** A series of ten points has at most nine complete rows: the naive
  fallback is taken whatever the learner. *)
Lemma fit_predict_ten_points self (data : Series) horizon granularity :
length (values data) = 10%nat ->
fit_predict lib self data horizon granularity
  = Ok (np_full horizon (List.last (values data) 0)).
Proof.
intros Hlen. unfold fit_predict.
pose proof (complete_rows_lt self granularity (values data) ltac:(lia)) as Hlt.
assert (Hb : (complete_rows self granularity (values data) <? 10)%nat = true)
  by (apply Nat.ltb_lt; lia).
rewrite Hb. rewrite naive_fallback_Ok; [reflexivity|].
intros Hnil. rewrite Hnil in Hlen. discriminate.
Qed.

End XGBoostProperties.

(** C9, as amended.  For every input series of length at least 10 whose
    last value is non-negative, every horizon, every granularity and every
    index, with or without dates, the boosted-tree forecaster returns
    exactly [horizon] values, all non-negative, whether the recursive
    forecast completes or the naive fallback is taken. *)
Theorem xgboost_fit_predict_length_nonneg
    (lib : XGBoost.Learner) (self : XGBoost.XGBoostForecaster)
    (data : Series) (horizon : nat) (granularity : string) :
  (10 <= len data)%nat ->
  0 <= List.last (values data) 0 ->
  exists preds,
    XGBoost.fit_predict lib self data horizon granularity = Ok preds /\
    length preds = horizon /\
    Forall (fun p => 0 <= p) preds.
Proof.
  intros Hlen Hlast.
  assert (Hne : values data <> []).
  { unfold len in Hlen. destruct (values data); [simpl in Hlen; lia | discriminate]. }
  destruct (fit_predict_cases lib self data horizon granularity Hne) as [Hnaive|Hrec].
  - eexists. split; [exact Hnaive|]. split.
    + apply length_np_full.
    + apply Forall_np_full, Hlast.
  - exact Hrec.
Qed.

(** Ten ones, a horizon of three, daily. *)
Lemma xgboost_fit_predict_length_nonneg_witness :
  exists preds,
    XGBoost.fit_predict (XGBoost.constant_learner 1) XGBoost.init Sample.ten_ones 3 "daily"
      = Ok preds /\
    length preds = 3%nat /\
    Forall (fun p => 0 <= p) preds.
Proof.
  apply (xgboost_fit_predict_length_nonneg
           (XGBoost.constant_learner 1) XGBoost.init Sample.ten_ones 3 "daily").
  - unfold len. simpl. lia.
  - simpl. lra.
Defined.

(** C9 as stated fails on a history that ends below zero: a series of ten
    points has fewer than ten complete rows of features, the naive
    fallback repeats its last value, here -5. *)
Lemma xgboost_negative_last_counterexample :
  (10 <= len Sample.ten_points_ending_below_zero)%nat /\
  XGBoost.fit_predict (XGBoost.constant_learner 1) XGBoost.init
    Sample.ten_points_ending_below_zero 2 "daily" = Ok [-5; -5] /\
  ~ Forall (fun p => 0 <= p) [-5; -5].
Proof.
  split; [unfold len; simpl; lia|]. split.
  - rewrite fit_predict_ten_points by reflexivity. reflexivity.
  - intros H. inversion H as [|? ? H0 _]. lra.
Qed.

(** ** The orchestrator: scoring and formatting *)

Section FormatProperties.
Import Calendar ForecastService.
Open Scope Z_scope.

Lemma rollforward_label o b : rollforward o (label o b) = label o b.
Proof.
destruct o; cbn [rollforward].
- reflexivity.
- rewrite period_of_label. reflexivity.
- cbn [label]. rewrite month_of_month_start, Z.eqb_refl. reflexivity.
- rewrite period_of_label. reflexivity.
Qed.

Lemma date_range_label o b n : date_range (label o b) n o = grid o b n.
Proof.
unfold date_range, date_range_from. rewrite rollforward_label. apply iterate_label.
Qed.

Lemma length_iterate {A} (f : A -> A) n : forall x, length (iterate f x n) = n.
Proof. induction n as [|n IH]; intros x; simpl; [reflexivity|]. rewrite IH. reflexivity. Qed.

Lemma length_date_range start n o : length (date_range start n o) = n.
Proof. apply length_iterate. Qed.

(** Daily: the days after the last one. *)
Lemma future_dates_daily last horizon :
future_dates "daily" last horizon = Ok (grid Day (last + 1) horizon).
Proof.
unfold future_dates. cbn [String.eqb Ascii.eqb Bool.eqb].
change last with (label Day last) at 1.
rewrite date_range_label, Nat.add_1_r, grid_S. reflexivity.
Qed.

(** Weekly, from a Sunday: the Sundays after it. *)
Lemma future_dates_weekly b horizon :
future_dates "weekly" (label WeekSun b) horizon = Ok (grid WeekSun (b + 1) horizon).
Proof.
unfold future_dates. cbn [String.eqb Ascii.eqb Bool.eqb].
rewrite date_range_label, Nat.add_1_r, grid_S. reflexivity.
Qed.

(** Monthly, from the first day of month [b]: the last days of the
  months after [b], not their first days. *)
Lemma future_dates_monthly b horizon :
future_dates "monthly" (label MonthBegin b) horizon
= Ok (grid MonthEnd (b + 1) horizon).
Proof.
unfold future_dates. cbn [String.eqb Ascii.eqb Bool.eqb].
assert (H : date_range (label MonthBegin b) (horizon + 1) MonthEnd
            = grid MonthEnd b (horizon + 1)).
{ unfold date_range, date_range_from. cbn [rollforward period_of label].
  rewrite month_of_month_start. apply (iterate_label MonthEnd). }
rewrite H, Nat.add_1_r, grid_S. reflexivity.
Qed.

Lemma month_end_off_grid b : label MonthEnd b <> label MonthBegin b.
Proof. cbn [label]. unfold month_end. pose proof (month_length b). lia. Qed.

(** One dated prediction for each predicted value, up to the horizon. *)
Lemma length_format train granularity horizon (preds : list R) dated :
format train granularity horizon preds = Ok dated ->
length dated = Nat.min horizon (length preds).
Proof.
unfold format. intros H.
apply bind_Ok in H as (last & _ & H). apply bind_Ok in H as (dates & Hd & H).
injection H as <-. rewrite length_zip.
assert (length dates = horizon); [|congruence].
unfold future_dates in Hd.
repeat match type of Hd with
       | (if ?c then _ else _) = _ => destruct c
       end; try discriminate; injection Hd as <-;
  rewrite length_drop, length_date_range; lia.
Qed.

End FormatProperties.

(** C6, at the input where the code departs from it.  The last training
    timestamp is 2024-03-01, on the month-start grid of the preprocessed
    series, and two months are asked for.  The dates of the forecast are
    2024-04-30 and 2024-05-31, the ends of the next two months, where the
    grid of the series continues with 2024-04-01 and 2024-05-01. *)
Theorem future_dates_monthly_month_ends :
  let last := Calendar.days_from_civil 2024 3 1 in
  Calendar.label Calendar.MonthBegin (Calendar.month_of last) = last /\
  ForecastService.future_dates "monthly" last 2
  = Ok [Calendar.days_from_civil 2024 4 30; Calendar.days_from_civil 2024 5 31] /\
  Calendar.grid Calendar.MonthBegin (Calendar.month_of last + 1) 2
  = [Calendar.days_from_civil 2024 4 1; Calendar.days_from_civil 2024 5 1].
Proof. vm_compute. repeat split; reflexivity. Qed.

Section ScoreProperties.
Import ForecastService.

Lemma lookup_default_metrics (k : string) :
default_metrics !! k = if decide (In k default_keys) then Some 0 else None.
Proof.
unfold default_metrics, default_keys. cbn [list_to_map foldr fst snd uncurry].
destruct (decide (In k _)) as [Hin|Hout].
- repeat destruct Hin as [<-|Hin]; try reflexivity. destruct Hin.
- rewrite !lookup_insert_ne, lookup_empty; [reflexivity|..];
    intros <-; apply Hout; simpl; tauto.
Qed.
End ScoreProperties.

(** C4, as amended.  In the scoring step, whenever the validation
    partition is empty and the fallback slice of the final
    [min(horizon, |train| / 5)] training points is empty too, the metrics
    are the zero-valued dictionary of the four scores MAE, RMSE, MAPE and
    accuracy, each equal to zero; it has no other entry. *)
Theorem score_without_validation
    (train test : Series) (predictions : list R) (horizon : nat) :
  len test = 0%nat ->
  Nat.min horizon (len train / 5) = 0%nat ->
  let m := ForecastService.score train test predictions horizon in
  m = ForecastService.default_metrics /\
  Forall (fun k => m !! k = Some 0) ForecastService.default_keys /\
  (forall k, ~ In k ForecastService.default_keys -> m !! k = None).
Proof.
  intros Htest Hn m. subst m. unfold ForecastService.score.
  rewrite Htest, Hn. cbn [Nat.ltb Nat.leb].
  split; [reflexivity|]. split.
  - apply Forall_forall. intros k Hk. apply list_elem_of_In in Hk.
    rewrite lookup_default_metrics.
    destruct (decide _); [reflexivity | contradiction].
  - intros k Hk. rewrite lookup_default_metrics.
    destruct (decide _); [contradiction | reflexivity].
Qed.

(** No history at all: neither validation points nor training points. *)
Lemma score_without_validation_witness :
  let m := ForecastService.score Sample.no_history Sample.no_history [0] 1 in
  m = ForecastService.default_metrics /\
  Forall (fun k => m !! k = Some 0) ForecastService.default_keys /\
  (forall k, ~ In k ForecastService.default_keys -> m !! k = None).
Proof.
  apply (score_without_validation Sample.no_history Sample.no_history [0] 1); reflexivity.
Defined.

(** C4 as stated fails: with an empty validation partition and an empty
    fallback slice, the metrics hold no sMAPE, no R² and no RMSSE. *)
Lemma score_without_validation_counterexample :
  let m := ForecastService.score Sample.no_history Sample.no_history [0] 1 in
  len Sample.no_history = 0%nat /\
  Nat.min 1 (len Sample.no_history / 5) = 0%nat /\
  m !! "smape" = None /\ m !! "r2" = None /\ m !! "rmsse" = None /\
  ~ Forall (fun k => m !! k = Some 0) Metrics.bundle_keys.
Proof.
  cbv zeta. change (ForecastService.score Sample.no_history Sample.no_history [0] 1)
    with ForecastService.default_metrics.
  repeat split; try reflexivity.
  intros H. rewrite Forall_forall in H. specialize (H "smape"%string).
  discriminate H. apply list_elem_of_In. simpl. tauto.
Qed.


(** ** The orchestrator: selection *)

Section SelectionProperties.
Import ForecastService.
Variable libs : Libraries.

Lemma neqb_false x y : neqb x y = false <-> x = y.
Proof. unfold neqb. destruct (Req_dec_T x y); split; intros; congruence. Qed.

Lemma key_gt_false x y : key_gt x y = false -> key_le x y.
Proof.
unfold key_gt, key_le. intros H.
apply orb_false_iff in H as [H1 H2]. apply gtb_false in H1.
destruct (Req_dec_T (accuracy x) (accuracy y)) as [Heq|Hne].
- right. split; [exact Heq|].
  apply andb_false_iff in H2 as [H2|H2].
  + apply negb_false_iff in H2. unfold neqb in H2.
    destruct (Req_dec_T _ _); [discriminate | contradiction].
  + apply gtb_false, H2.
- left. lra.
Qed.

Lemma key_gt_true x y : key_gt x y = true -> key_le y x.
Proof.
unfold key_gt, key_le. intros H.
apply orb_true_iff in H as [H|H].
- apply gtb_true in H. left. lra.
- apply andb_true_iff in H as [H1 H2]. apply negb_true_iff, neqb_false in H1.
  apply gtb_true in H2. right. split; [congruence | lra].
Qed.

Lemma key_le_refl x : key_le x x.
Proof. right. split; [reflexivity | lra]. Qed.

Lemma key_le_trans x y z : key_le x y -> key_le y z -> key_le x z.
Proof.
unfold key_le. intros [H1|[H1 H1']] [H2|[H2 H2']].
- left. lra.
- left. lra.
- left. lra.
- right. split; [congruence | lra].
Qed.

(** [max] returns an item of the sequence that no item outranks. *)
Lemma max_from_greatest items : forall best,
In (max_from best items) (best :: items) /\
Forall (fun item => key_le (snd item) (snd (max_from best items))) (best :: items).
Proof.
induction items as [|item items IH]; intros best.
- simpl. split; [left; reflexivity|]. constructor; [apply key_le_refl | constructor].
- cbn [max_from].
  destruct (key_gt (snd item) (snd best)) eqn:Hgt.
  + destruct (IH item) as [Hin Hall]. split.
    * destruct Hin as [<-|Hin]; [right; left; reflexivity | right; right; exact Hin].
    * inversion Hall as [|? ? Hitem Hrest]; subst.
      constructor; [|constructor; assumption].
      eapply key_le_trans; [apply key_gt_true, Hgt | exact Hitem].
  + destruct (IH best) as [Hin Hall]. split.
    * destruct Hin as [<-|Hin]; [left; reflexivity | right; right; exact Hin].
    * inversion Hall as [|? ? Hbest Hrest]; subst.
      constructor; [assumption|]. constructor; [|assumption].
      eapply key_le_trans; [apply key_gt_false, Hgt | exact Hbest].
Qed.

Lemma round_half_even_nonneg x : 0 <= x -> (0 <= Metrics.round_half_even x)%Z.
Proof.
intros Hx. unfold Metrics.round_half_even.
assert (0 <= Zfloor x)%Z by (apply Zfloor_lub; simpl; exact Hx).
destruct (Rlt_dec _ _); [assumption|].
destruct (Rgt_dec _ _); [lia|]. destruct (Z.even _); lia.
Qed.

Lemma round_nonneg x n : 0 <= x -> 0 <= Metrics.round x n.
Proof.
intros Hx. unfold Metrics.round. pose proof (pow10_pos n) as Hp.
apply Rmult_le_pos.
- apply IZR_le, round_half_even_nonneg. nra.
- left. apply Rinv_0_lt_compat, Hp.
Qed.

Lemma raw_accuracy_nonneg actual predicted :
0 <= Metrics.accuracy (Metrics.raw_scores actual predicted).
Proof.
unfold Metrics.raw_scores. cbn [Metrics.accuracy].
destruct (gtb _ 0); [apply Rmax_l | lra].
Qed.

(** A turn of the loop scores the trial, or records the failure. *)
Lemma evaluate_scored_as train test granularity val_horizon model_type :
scored_as test val_horizon
  (run_model libs model_type train val_horizon granularity)
  (evaluate libs train test granularity val_horizon model_type)
/\ 0 <= accuracy (evaluate libs train test granularity val_horizon model_type).
Proof.
unfold evaluate, scored_as.
destruct (run_model libs model_type train val_horizon granularity) as [preds|e];
  cbn [mbind result_bind].
- unfold score_trial, getitem.
  destruct (lookup_calculate_metrics (take val_horizon (values test))
              (take (length (take val_horizon (values test))) preds))
    as (Hmae & Hrmse & _ & _ & Hr2 & _ & Hacc).
  cbv zeta in Hmae, Hrmse, Hr2, Hacc.
  rewrite Hacc, Hmae, Hrmse, Hr2. cbn [mbind result_bind accuracy r2 mae rmse].
  repeat split; eauto. apply round_nonneg, raw_accuracy_nonneg.
- split; [reflexivity|]. simpl. lra.
Qed.

End SelectionProperties.

(** C8, as amended.  Under the strategy "auto", the selection tries the
    three models baseline (seasonal-naive), arima and xgboost, in this
    order, each on the training series at the horizon
    [min(|validation|, 30)]; each trial is scored by the metrics engine
    against the validation partition, and a trial that raises is scored
    accuracy 0, R² -1: an accuracy that no trial goes below, though not
    the least score, since a completed trial can have accuracy 0 with an
    R² below -1; the selection completes and returns one of the three
    models, one that no model outranks in the lexicographic order on
    (accuracy, R²). *)
Theorem auto_select_model_ranks
    (libs : ForecastService.Libraries) (train test : Series) (granularity : string) :
  let val_horizon := Nat.min (len test) 30 in
  exists best sb sa sx,
    let model_scores := [("baseline"%string, sb); ("arima"%string, sa);
                         ("xgboost"%string, sx)] in
    ForecastService.auto_select_model libs train test granularity
      = Ok (best, model_scores) /\
    ForecastService.scored_as test val_horizon
      (Baseline.fit_predict "seasonal_naive" train val_horizon 7) sb /\
    ForecastService.scored_as test val_horizon
      (Ok (Arima.fit_predict (ForecastService.statsmodels libs) Arima.init
             train val_horizon true)) sa /\
    ForecastService.scored_as test val_horizon
      (XGBoost.fit_predict (ForecastService.learner libs) XGBoost.init
         train val_horizon granularity) sx /\
    In best ForecastService.concrete_models /\
    (exists s, In (best, s) model_scores /\
               Forall (fun item => ForecastService.key_le (snd item) s) model_scores) /\
    ForecastService.accuracy ForecastService.failed_score = 0 /\
    ForecastService.r2 ForecastService.failed_score = -1 /\
    Forall (fun item => 0 <= ForecastService.accuracy (snd item)) model_scores.
Proof.
  intros val_horizon.
  pose (ev := ForecastService.evaluate libs train test granularity val_horizon).
  pose (first := ("baseline"%string, ev "baseline"%string)).
  pose (rest := [("arima"%string, ev "arima"%string);
                 ("xgboost"%string, ev "xgboost"%string)]).
  destruct (max_from_greatest rest first) as [Hin Hall].
  exists (fst (ForecastService.max_from first rest)),
    (ev "baseline"%string), (ev "arima"%string), (ev "xgboost"%string).
  cbv zeta.
  destruct (evaluate_scored_as libs train test granularity val_horizon "baseline") as [Hb Hb0].
  destruct (evaluate_scored_as libs train test granularity val_horizon "arima") as [Ha Ha0].
  destruct (evaluate_scored_as libs train test granularity val_horizon "xgboost") as [Hx Hx0].
  split; [reflexivity|].
  split; [exact Hb|]. split; [exact Ha|]. split; [exact Hx|].
  split.
  { destruct Hin as [H|[H|[H|[]]]]; rewrite <- H; simpl; tauto. }
  split.
  { exists (snd (ForecastService.max_from first rest)). split; [|exact Hall].
    rewrite <- surjective_pairing. exact Hin. }
  split; [reflexivity|]. split; [reflexivity|].
  constructor; [exact Hb0|]. constructor; [exact Ha0|].
  constructor; [exact Hx0 | constructor].
Qed.

(** The score of a failure is not the least in the order of the ranking:
    the forecast [10; 10] of the actual values [1; 3] has accuracy 0 and
    R² -64. *)
Lemma failed_score_not_least :
  Metrics.accuracy (Metrics.raw_scores [1; 3] [10; 10]) = 0 /\
  Metrics.r2 (Metrics.raw_scores [1; 3] [10; 10]) = -64.
Proof.
  unfold Metrics.raw_scores. cbn [Metrics.accuracy Metrics.r2].
  cbn [length Nat.min take zip_with map rsum].
  rewrite !mean_1_3.
  assert (Hmae : mean [Rabs (1 - 10); Rabs (3 - 10)] = 8).
  { unfold mean. simpl. rewrite !Rabs_left by lra. lra. }
  rewrite Hmae. unfold Metrics.square.
  assert (G1 : gtb 2 0 = true) by (apply gtb_true; lra).
  assert (G2 : gtb ((1 - 2) ^ 2 + ((3 - 2) ^ 2 + 0)) 0 = true) by (apply gtb_true; lra).
  rewrite G1, G2. split.
  - unfold Rmax. destruct (Rle_dec _ _); lra.
  - field.
Qed.

(** The forecast [0; 0] of the actual values [1; 3]: accuracy 0, R² -4. *)
Lemma raw_scores_zero_forecast :
  Metrics.accuracy (Metrics.raw_scores [1; 3] [0; 0]) = 0 /\
  Metrics.r2 (Metrics.raw_scores [1; 3] [0; 0]) = -4.
Proof.
  unfold Metrics.raw_scores. cbn [Metrics.accuracy Metrics.r2].
  cbn [length Nat.min take zip_with map rsum].
  rewrite !mean_1_3.
  assert (Hmae : mean [Rabs (1 - 0); Rabs (3 - 0)] = 2).
  { unfold mean. simpl. rewrite !Rabs_right by lra. lra. }
  rewrite Hmae. unfold Metrics.square.
  assert (G1 : gtb 2 0 = true) by (apply gtb_true; lra).
  assert (G2 : gtb ((1 - 2) ^ 2 + ((3 - 2) ^ 2 + 0)) 0 = true) by (apply gtb_true; lra).
  rewrite G1, G2. split.
  - unfold Rmax. destruct (Rle_dec _ _); lra.
  - field.
Qed.

(** C8 as stated fails: the score of a trial that raised is not the worst
    possible.  On an empty training series the seasonal-naive trial raises
    IndexError and is scored (0, -1); the ARIMA trial completes with the
    forecast [0; 0], which scores accuracy 0 and R² -4 against the
    validation values [1; 3]; the failed baseline outranks the completed
    ARIMA and is the model selected. *)
Lemma auto_select_model_failed_trial_counterexample :
  let test := mkSeries (DatetimeIndex [0; 1]%Z (Some "D"%string)) [1; 3] in
  let val_horizon := Nat.min (len test) 30 in
  exists model_scores sa,
    ForecastService.auto_select_model Sample.libraries Sample.no_history test "daily"
    = Ok ("baseline"%string, model_scores) /\
    ForecastService.run_model Sample.libraries "baseline" Sample.no_history
      val_horizon "daily" = Raise IndexError /\
    In ("baseline"%string, ForecastService.failed_score) model_scores /\
    ForecastService.run_model Sample.libraries "arima" Sample.no_history
      val_horizon "daily" = Ok [0; 0] /\
    In ("arima"%string, sa) model_scores /\
    ForecastService.accuracy sa = 0 /\ ForecastService.r2 sa = -4 /\
    ForecastService.key_le sa ForecastService.failed_score /\
    ~ ForecastService.key_le ForecastService.failed_score sa.
Proof.
  intros test val_horizon.
  pose (ev := ForecastService.evaluate Sample.libraries Sample.no_history test
                "daily" val_horizon).
  assert (Hb : ev "baseline"%string = ForecastService.failed_score) by reflexivity.
  assert (Hx : ev "xgboost"%string = ForecastService.failed_score) by reflexivity.
  assert (Hrun : ForecastService.run_model Sample.libraries "arima" Sample.no_history
                   val_horizon "daily" = Ok [0; 0]) by reflexivity.
  destruct (evaluate_scored_as Sample.libraries Sample.no_history test "daily"
              val_horizon "arima") as [Hs _].
  rewrite Hrun in Hs. fold ev in Hs.
  unfold ForecastService.scored_as in Hs. cbv zeta in Hs.
  change (take val_horizon (values test)) with [1; 3] in Hs.
  change (take (length [1; 3]) [0; 0]) with [0; 0] in Hs.
  destruct Hs as (Hacc & Hr2 & _ & _).
  destruct (lookup_calculate_metrics [1; 3] [0; 0]) as (_ & _ & _ & _ & Lr2 & _ & Lacc).
  destruct raw_scores_zero_forecast as [Ea Er].
  cbv zeta in Lr2, Lacc.
  rewrite Lacc, Ea, (round_IZR 0 2) in Hacc. injection Hacc as Hacc.
  rewrite Lr2, Er, (round_IZR (-4) 4) in Hr2. injection Hr2 as Hr2.
  assert (Hab : ForecastService.key_gt (ev "arima"%string) ForecastService.failed_score
                = false).
  { unfold ForecastService.key_gt. rewrite <- Hacc, <- Hr2.
    cbn [ForecastService.failed_score ForecastService.accuracy ForecastService.r2].
    apply orb_false_iff. split; [apply gtb_false; lra|].
    apply andb_false_iff. right. apply gtb_false. lra. }
  assert (Hxb : ForecastService.key_gt ForecastService.failed_score
                  ForecastService.failed_score = false).
  { unfold ForecastService.key_gt.
    cbn [ForecastService.failed_score ForecastService.accuracy ForecastService.r2].
    apply orb_false_iff. split; [apply gtb_false; lra|].
    apply andb_false_iff. right. apply gtb_false. lra. }
  exists [("baseline"%string, ev "baseline"%string); ("arima"%string, ev "arima"%string);
          ("xgboost"%string, ev "xgboost"%string)], (ev "arima"%string).
  split.
  { unfold ForecastService.auto_select_model, ForecastService.concrete_models.
    cbn [map ForecastService.py_max ForecastService.max_from mbind result_bind fst snd].
    fold val_horizon. fold ev. rewrite Hb, Hx, Hab. cbn [snd]. rewrite Hxb. reflexivity. }
  split; [reflexivity|].
  split; [rewrite Hb; left; reflexivity|].
  split; [exact Hrun|].
  split; [right; left; reflexivity|].
  split; [symmetry; exact Hacc|]. split; [symmetry; exact Hr2|].
  unfold ForecastService.key_le.
  cbn [ForecastService.failed_score ForecastService.accuracy ForecastService.r2].
  rewrite <- Hacc, <- Hr2. split.
  - right. split; [reflexivity | lra].
  - intros [Hlt | [_ Hle]]; lra.
Qed.

(** ** The data loader: aggregation and resampling *)

Section ResampleProperties.
Import Calendar DataLoader.
Open Scope Z_scope.

Abbreviation keys := (map (fst : Timestamp * R -> Timestamp)).

Lemma keys_add_to_group t r groups t' :
In t' (keys (add_to_group t r groups)) <-> t' = t \/ In t' (keys groups).
Proof.
induction groups as [|[t0 r0] groups IH]; simpl; [intuition|].
destruct (t <? t0) eqn:Hlt; [simpl; intuition|].
destruct (t =? t0) eqn:Heq; simpl.
- apply Z.eqb_eq in Heq. subst. intuition.
- rewrite IH. intuition.
Qed.

Lemma add_to_group_sorted t r groups :
StronglySorted Z.lt (keys groups) ->
StronglySorted Z.lt (keys (add_to_group t r groups)).
Proof.
induction groups as [|[t0 r0] groups IH]; simpl; intros Hs.
- repeat constructor.
- inversion Hs as [|? ? Hs' Hall]; subst.
  destruct (t <? t0) eqn:Hlt; [|destruct (t =? t0) eqn:Heq]; simpl.
  + apply Z.ltb_lt in Hlt. constructor; [exact Hs|].
    constructor; [exact Hlt|].
    eapply Forall_impl; [exact Hall|]. simpl. intros; lia.
  + constructor; assumption.
  + apply Z.ltb_ge in Hlt. apply Z.eqb_neq in Heq.
    constructor; [apply IH, Hs'|].
    apply Forall_forall. intros t' Ht'. apply list_elem_of_In in Ht'.
    apply keys_add_to_group in Ht' as [->|Ht']; [lia|].
    rewrite Forall_forall in Hall. apply Hall, list_elem_of_In, Ht'.
Qed.

Lemma groupby_sum_sorted rows : StronglySorted Z.lt (keys (groupby_sum rows)).
Proof.
induction rows as [|[t r] rows IH]; simpl; [constructor|].
apply add_to_group_sorted, IH.
Qed.

Lemma keys_groupby_sum rows t :
In t (keys (groupby_sum rows)) <-> In t (keys rows).
Proof.
induction rows as [|[t0 r0] rows IH]; simpl; [tauto|].
rewrite keys_add_to_group, IH. intuition.
Qed.

Lemma period_sum_cons o row rows b :
period_sum o (row :: rows) b
= ((if period_of o (fst row) =? b then snd row else 0) + period_sum o rows b)%R.
Proof.
unfold period_sum. cbn [List.filter].
destruct (period_of o (fst row) =? b); simpl; ring.
Qed.

Lemma period_sum_add_to_group o t r groups b :
period_sum o (add_to_group t r groups) b
= ((if period_of o t =? b then r else 0) + period_sum o groups b)%R.
Proof.
induction groups as [|[t0 r0] groups IH]; cbn [add_to_group].
- rewrite period_sum_cons. reflexivity.
- destruct (t <? t0) eqn:Hlt; [|destruct (t =? t0) eqn:Heq].
  + rewrite period_sum_cons. reflexivity.
  + apply Z.eqb_eq in Heq. subst t0. rewrite !period_sum_cons. cbn [fst snd].
    destruct (period_of o t =? b); ring.
  + rewrite !period_sum_cons, IH. cbn [fst snd]. ring.
Qed.

(** Aggregation by timestamp keeps the sum of every period. *)
Lemma period_sum_groupby_sum o rows b :
period_sum o (groupby_sum rows) b = period_sum o rows b.
Proof.
induction rows as [|[t r] rows IH]; [reflexivity|].
cbn [groupby_sum]. rewrite period_sum_add_to_group, period_sum_cons, IH.
reflexivity.
Qed.

(** Sorting leaves the rows of [groupby], already in order, as they are. *)
Lemma sort_values_sorted rows :
StronglySorted Z.lt (keys rows) -> sort_values rows = rows.
Proof.
induction rows as [|row rows IH]; [reflexivity|].
simpl. intros Hs. inversion Hs as [|? ? Hs' Hall]; subst.
unfold sort_values in *. cbn [fold_right]. rewrite (IH Hs').
destruct rows as [|row' rows]; [reflexivity|].
cbn [insert_row]. inversion Hall as [|? ? Hlt _]; subst.
replace (fst row <=? fst row') with true; [reflexivity|].
symmetry. apply Z.leb_le. lia.
Qed.

Lemma last_cons_default {A} (l : list A) : forall a d d',
List.last (a :: l) d = List.last (a :: l) d'.
Proof.
induction l as [|b l IH]; intros a d d'; [reflexivity|].
change (List.last (a :: b :: l) d) with (List.last (b :: l) d).
change (List.last (a :: b :: l) d') with (List.last (b :: l) d').
apply IH.
Qed.

Lemma sorted_first_last (l : list (Timestamp * R)) first t :
StronglySorted Z.lt (keys (first :: l)) ->
In t (keys (first :: l)) ->
fst first <= t <= fst (List.last (first :: l) first).
Proof.
revert first t. induction l as [|row l IH]; intros first t Hs Hin.
- destruct Hin as [<-|[]]. simpl. lia.
- inversion Hs as [|? ? Hs' Hall]; subst.
  inversion Hall as [|? ? Hlt _]; subst.
  change (List.last (first :: row :: l) first) with (List.last (row :: l) first).
  rewrite (last_cons_default l row first row).
  pose proof (IH row (fst row) Hs' (or_introl eq_refl)) as Hrow.
  destruct Hin as [<-|Hin].
  + lia.
  + pose proof (IH row t Hs' Hin). lia.
Qed.

Lemma seqZ_grid o lo n :
map (label o) (seqZ lo n) = grid o lo (Z.to_nat n).
Proof.
unfold seqZ, grid. rewrite <- list_fmap_compose.
apply map_ext. intros i. simpl. f_equal. lia.
Qed.

Lemma grid_lookup o lo n i t :
grid o lo n !! i = Some t -> t = label o (lo + Z.of_nat i) /\ (i < n)%nat.
Proof.
unfold grid. intros H. apply list_lookup_fmap_Some in H as (j & -> & Hj).
apply lookup_seq in Hj as [-> Hlt]. simpl. auto.
Qed.

Lemma grid_sorted o n : forall lo, StronglySorted Z.lt (grid o lo n).
Proof.
induction n as [|n IH]; intros lo; [constructor|].
rewrite grid_S. constructor; [apply IH|].
apply Forall_forall. intros t Ht. apply list_elem_of_lookup in Ht as [i Hi].
apply grid_lookup in Hi as [-> _]. apply label_lt. lia.
Qed.

Lemma sorted_NoDup (l : list Z) : StronglySorted Z.lt l -> NoDup l.
Proof.
induction 1 as [|a l Hs IH Hall]; constructor; [|exact IH].
intros Hin. rewrite Forall_forall in Hall. specialize (Hall a Hin). lia.
Qed.

Lemma period_sum_absent o rows b :
(forall row, In row rows -> period_of o (fst row) <> b) ->
period_sum o rows b = 0%R.
Proof.
induction rows as [|row rows IH]; intros H; [reflexivity|].
rewrite period_sum_cons, IH.
- replace (period_of o (fst row) =? b) with false; [ring|].
  symmetry. apply Z.eqb_neq, H. left. reflexivity.
- intros row' Hin. apply H. right. exact Hin.
Qed.

(** Aggregating, sorting and resampling any rows gives a regular series. *)
Lemma resample_sum_regular_grid o rows :
let resampled := resample_sum o (sort_values (groupby_sum rows)) in
regular_grid o rows (map fst resampled) (map snd resampled).
Proof.
intros resampled. subst resampled.
pose proof (groupby_sum_sorted rows) as Hsorted.
rewrite (sort_values_sorted _ Hsorted).
destruct (groupby_sum rows) as [|first grouped] eqn:Hg.
- assert (Hrows : rows = []).
  { destruct rows as [|[t r] rows]; [reflexivity|]. exfalso.
    assert (Hin : In t (keys (groupby_sum ((t, r) :: rows)))).
    { apply keys_groupby_sum. left. reflexivity. }
    rewrite Hg in Hin. destruct Hin. }
  subst rows. unfold regular_grid. simpl.
  repeat split; try constructor; try discriminate.
  + exists 0. reflexivity.
  + intros row [].
- cbn [resample_sum].
  set (lo := period_of o (fst first)).
  set (hi := period_of o (fst (List.last (first :: grouped) first))).
  set (n := hi - lo + 1).
  assert (Hrange : forall t, In t (keys rows) -> lo <= period_of o t <= hi).
  { intros t Ht. apply keys_groupby_sum in Ht. rewrite Hg in Ht.
    pose proof (sorted_first_last grouped first t Hsorted Ht) as [H1 H2].
    split; apply period_of_mono; assumption. }
  assert (Hstamps : map fst (map (fun b => (label o b, period_sum o (first :: grouped) b))
                                 (seqZ lo n))
                    = grid o lo (Z.to_nat n)).
  { rewrite map_map. cbn [fst]. apply seqZ_grid. }
  assert (Hseries : forall i, (i < Z.to_nat n)%nat ->
            map snd (map (fun b => (label o b, period_sum o (first :: grouped) b))
                         (seqZ lo n)) !! i
            = Some (period_sum o rows (lo + Z.of_nat i))).
  { intros i Hi. rewrite map_map. cbn [snd].
    rewrite list_lookup_fmap, lookup_seqZ_lt by lia. cbn [fmap option_fmap option_map].
    rewrite <- Hg, period_sum_groupby_sum. reflexivity. }
  rewrite Hstamps. unfold regular_grid. rewrite length_grid.
  split; [rewrite !length_map, length_seqZ; reflexivity|].
  split; [exists lo; reflexivity|].
  split; [apply grid_sorted|].
  split; [apply sorted_NoDup, grid_sorted|].
  split.
  { intros i t t' Hi Hi'. apply grid_lookup in Hi as [-> _].
    apply grid_lookup in Hi' as [-> _].
    rewrite offset_add_label. f_equal. lia. }
  split.
  { intros row Hrow.
    assert (Hin : In (fst row) (keys rows)) by (apply in_map, Hrow).
    specialize (Hrange _ Hin).
    unfold grid. apply in_map_iff.
    exists (Z.to_nat (period_of o (fst row) - lo)). split; [f_equal; lia|].
    apply in_seq. lia. }
  assert (Hvalue : forall i t, grid o lo (Z.to_nat n) !! i = Some t ->
            map snd (map (fun b => (label o b, period_sum o (first :: grouped) b))
                         (seqZ lo n)) !! i
            = Some (period_sum o rows (period_of o t))).
  { intros i t Hi. apply grid_lookup in Hi as [-> Hlt].
    rewrite period_of_label. apply Hseries, Hlt. }
  split; [exact Hvalue|].
  intros i t Hi Habsent. rewrite (Hvalue i t Hi). f_equal.
  apply period_sum_absent, Habsent.
Qed.

(** The two series are the resampled rows, cut at the split index. *)
Lemma to_series_regular_grid df date_col value_col granularity o f train test :
resample_rule granularity = Some (o, f) ->
to_series df date_col value_col granularity = Ok (train, test) ->
exists dates values_ stamps series,
  Frame.get_column df date_col = Ok dates /\
  Frame.get_column df value_col = Ok values_ /\
  train = mkSeries (DatetimeIndex (take (split_index (length series)) stamps) (Some f))
                   (take (split_index (length series)) series) /\
  test = mkSeries (DatetimeIndex (drop (split_index (length series)) stamps) (Some f))
                  (drop (split_index (length series)) series) /\
  regular_grid o (cleaned_rows dates values_) stamps series.
Proof.
intros Hrule H. unfold to_series in H.
apply bind_Ok in H as (dates & Hdates & H).
apply bind_Ok in H as (values_ & Hvalues & H).
rewrite Hrule in H.
exists dates, values_,
  (map fst (resample_sum o (sort_values (groupby_sum (cleaned_rows dates values_))))),
  (map snd (resample_sum o (sort_values (groupby_sum (cleaned_rows dates values_))))).
split; [exact Hdates|]. split; [exact Hvalues|].
assert (Hpair : forall (A B : Type) (a a' : A) (b b' : B),
          Ok (a, b) = Ok (a', b') -> a' = a /\ b' = b)
  by (intros A B a a' b b' [= -> ->]; auto).
destruct (Frame.dtype_of values_); try discriminate;
  apply Hpair in H as [-> ->];
  (split; [reflexivity|]); (split; [reflexivity|]);
  apply resample_sum_regular_grid.
Qed.

(** A successful [preprocess_data] ends in [to_series] on the table that
  it left in the store. *)
Lemma preprocess_data_to_series pd h df date_col value_col granularity h' split :
preprocess_data pd h df date_col value_col granularity = (h', Ok split) ->
exists table date_col' value_col',
  h' !! df = Some table /\
  to_series table date_col' value_col' granularity = Ok split.
Proof.
unfold preprocess_data. intros H.
destruct (h !! df) as [table|]; [|discriminate].
destruct (detect_date_col table date_col) as [dc|]; [|discriminate].
destruct (_ ≫= _) as [parsed|]; [|discriminate].
injection H as <- H.
eexists _, dc, _. split; [|exact H]. apply lookup_insert_eq.
Qed.

(** The rows that the code keeps are the records of the table. *)
Lemma cleaned_rows_observed dates values_ :
cleaned_rows dates values_ = observed_records dates values_.
Proof.
unfold cleaned_rows, observed_records. revert values_.
induction dates as [|d dates IH]; intros [|v values_]; try reflexivity.
- destruct d; reflexivity.
- destruct d; cbn [dropna zip zip_with omap list_omap fst snd map];
    rewrite <- ?IH; reflexivity.
Qed.

Lemma get_column_set_column_eq df col cells :
Frame.get_column (Frame.set_column df col cells) col = Ok cells.
Proof.
induction df as [|[label old] df IH]; simpl.
- rewrite String.eqb_refl. reflexivity.
- destruct (String.eqb label col) eqn:Heq; simpl; rewrite Heq; [reflexivity | exact IH].
Qed.

Lemma get_column_set_column_ne df col col' cells :
col <> col' ->
Frame.get_column (Frame.set_column df col cells) col' = Frame.get_column df col'.
Proof.
intros Hne. induction df as [|[label old] df IH]; simpl.
- apply String.eqb_neq in Hne. rewrite Hne. reflexivity.
- destruct (String.eqb label col) eqn:Heq; simpl.
  + apply String.eqb_eq in Heq. subst label.
    apply String.eqb_neq in Hne. rewrite Hne. reflexivity.
  + destruct (String.eqb label col'); [reflexivity | exact IH].
Qed.

(** What preprocessing has done when it returns: the columns are the
  detected ones of the table it was passed; the table it leaves holds the
  parsed dates and the value column it summed, which, when the two
  columns differ, are the dates parsed from the raw date column and the
  raw values, cleaned of currency marks when they were text. *)
Lemma preprocess_data_columns pd h df date_col value_col granularity h' split :
preprocess_data pd h df date_col value_col granularity = (h', Ok split) ->
exists raw dc table dates values_ date_cells value_cells,
  h !! df = Some raw /\
  detect_date_col raw date_col = Ok dc /\
  h' !! df = Some table /\
  Frame.get_column table dc = Ok dates /\
  Frame.get_column table (detect_value_col raw value_col) = Ok values_ /\
  Frame.get_column raw dc = Ok date_cells /\
  Frame.get_column raw (detect_value_col raw value_col) = Ok value_cells /\
  (dc <> detect_value_col raw value_col ->
     parse_dates pd date_cells = Ok dates /\
     values_ = if Frame.is_object value_cells
               then map (clean_currency pd) value_cells
               else value_cells) /\
  to_series table dc (detect_value_col raw value_col) granularity = Ok split.
Proof.
unfold preprocess_data.
destruct (h !! df) as [raw|] eqn:Hraw; [|discriminate].
destruct (detect_date_col raw date_col) as [dc|] eqn:Hdc; [|discriminate].
set (vc := detect_value_col raw value_col).
set (table1 := match Frame.get_column raw vc with
               | Ok cells => _ | Raise _ => _ end).
destruct (Frame.get_column table1 dc) as [cells|] eqn:Hcells;
  cbn [mbind result_bind]; [|discriminate].
destruct (parse_dates pd cells) as [parsed|] eqn:Hparsed; [|discriminate].
intros [= <- Hseries].
set (table := Frame.set_column table1 dc parsed) in *.
assert (Hdates : Frame.get_column table dc = Ok parsed)
  by apply get_column_set_column_eq.
pose proof Hseries as Hto. unfold to_series in Hto.
apply bind_Ok in Hto as (dates0 & _ & Hto).
apply bind_Ok in Hto as (values_ & Hvalues & _).
assert (Hcols : exists date_cells value_cells,
           Frame.get_column raw dc = Ok date_cells /\
           Frame.get_column raw vc = Ok value_cells /\
           (dc <> vc ->
              parse_dates pd date_cells = Ok parsed /\
              values_ = if Frame.is_object value_cells
                        then map (clean_currency pd) value_cells
                        else value_cells)).
{ destruct (decide (dc = vc)) as [Heq|Hne].
  - destruct (Frame.get_column raw vc) as [cv|e] eqn:Hcv.
    + exists cv, cv. rewrite Heq. split; [exact Hcv|]. split; [reflexivity|].
      intros Habs. contradiction.
    + subst table1. rewrite Heq, Hcv in Hcells. discriminate.
  - unfold table in Hvalues.
    rewrite (get_column_set_column_ne _ _ _ _ Hne) in Hvalues.
    subst table1.
    destruct (Frame.get_column raw vc) as [cv|e] eqn:Hcv.
    + destruct (Frame.is_object cv) eqn:Hobj.
      * rewrite get_column_set_column_eq in Hvalues. injection Hvalues as <-.
        rewrite (get_column_set_column_ne _ vc dc) in Hcells by congruence.
        exists cells, cv. split; [assumption|]. split; [reflexivity|].
        intros _. rewrite Hobj. split; [assumption | reflexivity].
      * rewrite Hcv in Hvalues. injection Hvalues as <-.
        exists cells, cv. split; [assumption|]. split; [reflexivity|].
        intros _. rewrite Hobj. split; [assumption | reflexivity].
    + rewrite Hcv in Hvalues. discriminate. }
destruct Hcols as (date_cells & value_cells & Hdc' & Hvc' & Hlink).
exists raw, dc, table, parsed, values_, date_cells, value_cells.
split; [first [reflexivity | assumption]|].
split; [first [reflexivity | assumption]|].
split; [apply lookup_insert_eq|].
repeat (split; [assumption|]). exact Hseries.
Qed.

(** The resampled and split series, with its rows. *)
Lemma to_series_resampled df date_col value_col granularity o f train test :
resample_rule granularity = Some (o, f) ->
to_series df date_col value_col granularity = Ok (train, test) ->
exists dates values_,
  Frame.get_column df date_col = Ok dates /\
  Frame.get_column df value_col = Ok values_ /\
  let rows := resample_sum o (sort_values (groupby_sum (cleaned_rows dates values_))) in
  let k := split_index (length (map snd rows)) in
  train = mkSeries (DatetimeIndex (take k (map fst rows)) (Some f)) (take k (map snd rows)) /\
  test = mkSeries (DatetimeIndex (drop k (map fst rows)) (Some f)) (drop k (map snd rows)).
Proof.
intros Hrule H. unfold to_series in H.
apply bind_Ok in H as (dates & Hdates & H).
apply bind_Ok in H as (values_ & Hvalues & H).
rewrite Hrule in H. exists dates, values_.
split; [exact Hdates|]. split; [exact Hvalues|]. cbv zeta.
destruct (Frame.dtype_of values_); try discriminate;
  injection H as <- <-; split; reflexivity.
Qed.

Lemma last_In_rows (first : Timestamp * R) rest :
In (List.last (first :: rest) first) (first :: rest).
Proof.
revert first. induction rest as [|row rest IH]; intros first; [left; reflexivity|].
right. change (List.last (first :: row :: rest) first) with (List.last (row :: rest) first).
rewrite (last_cons_default rest row first row). apply IH.
Qed.

(** Resampling adds no period before the first row or after the last. *)
Lemma resample_sum_range o rows t :
In t (map fst (resample_sum o (sort_values (groupby_sum rows)))) ->
exists first last,
  In first rows /\ In last rows /\
  period_of o (fst first) <= period_of o t <= period_of o (fst last).
Proof.
pose proof (groupby_sum_sorted rows) as Hsorted.
rewrite (sort_values_sorted _ Hsorted).
assert (Hrow : forall g, In g (groupby_sum rows) ->
          exists row, In row rows /\ fst row = fst g).
{ intros g Hg. apply (in_map fst) in Hg.
  apply (proj1 (keys_groupby_sum rows (fst g))) in Hg.
  apply in_map_iff in Hg as (row & Heq & Hin). exists row. split; assumption. }
destruct (groupby_sum rows) as [|g grouped] eqn:Hgrouped; [intros []|].
unfold resample_sum. rewrite map_map. cbn [fst]. intros Hin.
apply in_map_iff in Hin as (b & <- & Hb).
apply list_elem_of_In, elem_of_seqZ in Hb.
destruct (Hrow g ltac:(left; reflexivity)) as (first & Hfirst & Hf).
destruct (Hrow (List.last (g :: grouped) g) (last_In_rows g grouped))
  as (last & Hlast & Hl).
exists first, last. rewrite period_of_label, Hf, Hl.
split; [exact Hfirst|]. split; [exact Hlast|]. unfold Timestamp in *. lia.
Qed.


End ResampleProperties.

(** C5.  For each of the granularities daily, weekly and monthly, and every
    table in the store, when preprocessing produces the two series, they
    are cut from the records of that table: the rows of the detected date
    column whose date parsed, with the number in the detected value
    column.  Train followed by validation is a series on the grid of the
    granularity: its timestamps are the labels of consecutive periods,
    each the previous one plus one period, strictly increasing and
    without duplicates; the period of every record is among them, and
    none of them lies before the first or after the last period of a
    record; and the value at a timestamp is the sum of the records of its
    period, zero when no record falls in it. *)
Theorem preprocess_data_regular_grid
    (pd : DataLoader.Pandas) (h : gmap loc DataFrame) (df : loc)
    (date_col value_col granularity : string) (o : Calendar.offset) (f : string) :
  DataLoader.resample_rule granularity = Some (o, f) ->
  match DataLoader.preprocess_data pd h df date_col value_col granularity with
  | (h', Ok (train, test)) =>
      exists raw dc table dates values_ date_cells value_cells stamps,
        h !! df = Some raw /\
        DataLoader.detect_date_col raw date_col = Ok dc /\
        h' !! df = Some table /\
        Frame.get_column table dc = Ok dates /\
        Frame.get_column table (DataLoader.detect_value_col raw value_col) = Ok values_ /\
        Frame.get_column raw dc = Ok date_cells /\
        Frame.get_column raw (DataLoader.detect_value_col raw value_col) = Ok value_cells /\
        (dc <> DataLoader.detect_value_col raw value_col ->
           DataLoader.parse_dates pd date_cells = Ok dates /\
           values_ = if Frame.is_object value_cells
                     then map (DataLoader.clean_currency pd) value_cells
                     else value_cells) /\
        index train = DatetimeIndex (take (len train) stamps) (Some f) /\
        index test = DatetimeIndex (drop (len train) stamps) (Some f) /\
        DataLoader.regular_grid o (observed_records dates values_)
          stamps (values train ++ values test) /\
        (forall t, In t stamps ->
           exists first last,
             In first (observed_records dates values_) /\
             In last (observed_records dates values_) /\
             (Calendar.period_of o (fst first) <= Calendar.period_of o t
              <= Calendar.period_of o (fst last))%Z)
  | (_, Raise _) => True
  end.
Proof.
  intros Hrule.
  destruct (DataLoader.preprocess_data pd h df date_col value_col granularity)
    as [h' [[train test]|e]] eqn:Hpre; [|exact I].
  apply preprocess_data_columns in Hpre
    as (raw & dc & table & dates & values_ & date_cells & value_cells
        & Hraw & Hdc & Htable & Hdates & Hvalues & Hdcells & Hvcells & Hlink & Hseries).
  apply (to_series_resampled _ _ _ _ o f) in Hseries
    as (dates0 & values0 & Hd & Hv & Htrain & Htest); [|exact Hrule].
  rewrite Hdates in Hd. injection Hd as <-.
  rewrite Hvalues in Hv. injection Hv as <-.
  rewrite cleaned_rows_observed in Htrain, Htest.
  set (records := observed_records dates values_) in *.
  pose proof (resample_sum_regular_grid o records) as Hgrid.
  pose proof (resample_sum_range o records) as Hrange.
  set (rows := DataLoader.resample_sum o
                 (DataLoader.sort_values (DataLoader.groupby_sum records))) in *.
  cbv zeta in Hgrid. subst train test.
  exists raw, dc, table, dates, values_, date_cells, value_cells, (map fst rows).
  cbn [index values]. unfold len. cbn [values]. rewrite take_drop.
  destruct Hgrid as (Hlen & Hrest).
  assert (Hk : length (take (DataLoader.split_index (length (map snd rows))) (map snd rows))
               = DataLoader.split_index (length (map snd rows))).
  { rewrite length_take. unfold DataLoader.split_index.
    pose proof (Nat.Div0.div_le_upper_bound (length (map snd rows) * 8) 10
                  (length (map snd rows))).
    lia. }
  rewrite Hk.
  repeat (split; [first [assumption | reflexivity]|]).
  split; [split; [exact Hlen | exact Hrest]|].
  exact Hrange.
Qed.

(** ** The data loader and the cache *)

Section ValidationProperties.
Import DataLoader ForecastService.
Variable libs : Libraries.

Ltac benign := intros [H|H]; cbn in H; discriminate H.

Lemma ni_bind {A B} (r : result A) (k : A -> result B) :
never_insufficient r -> (forall a, never_insufficient (k a)) ->
never_insufficient (r ≫= k).
Proof. destruct r as [a|e]; intros Hr Hk; [apply Hk | exact Hr]. Qed.

Lemma ni_lib_call {A} (o : option A) : never_insufficient (lib_call o).
Proof. destruct o; simpl; [exact I | benign]. Qed.

Lemma ni_try_except {A} (body : result A) handler :
(forall e, never_insufficient (handler e)) ->
never_insufficient (try_except body handler).
Proof. intros H. destruct body; simpl; [exact I | apply H]. Qed.

Ltac ni :=
repeat first
  [ exact I
  | apply ni_lib_call
  | apply ni_bind; [|intros ?]
  | apply ni_try_except; intros ?
  | progress cbn [never_insufficient]
  | match goal with
    | |- never_insufficient (if ?c then _ else _) => destruct c
    | |- never_insufficient (match ?x with _ => _ end) => destruct x
    | |- ~ InsufficientDataError _ => benign
    end ].

Lemma ni_get_column df col : never_insufficient (Frame.get_column df col).
Proof. induction df as [|[label cells] df IH]; simpl; ni. exact IH. Qed.

Lemma ni_parse_dates pd cells : never_insufficient (parse_dates pd cells).
Proof. unfold parse_dates, parsed_column. ni. Qed.

Lemma ni_to_series df date_col value_col granularity :
never_insufficient (to_series df date_col value_col granularity).
Proof.
unfold to_series.
apply ni_bind; [apply ni_get_column | intros dates].
apply ni_bind; [apply ni_get_column | intros values_]. ni.
Qed.

Lemma ni_preprocess_data pd h df date_col value_col granularity :
never_insufficient (snd (preprocess_data pd h df date_col value_col granularity)).
Proof.
unfold preprocess_data.
destruct (h !! df) as [table|]; [|simpl; benign].
destruct (detect_date_col table date_col) as [dc|e] eqn:Hdc.
- match goal with
  | |- context [match ?r with Ok _ => _ | Raise _ => _ end] =>
      assert (Hni : never_insufficient r)
        by (apply ni_bind; [apply ni_get_column | intros; apply ni_parse_dates]);
      destruct r as [parsed|e]
  end; cbn [snd].
  + apply ni_to_series.
  + exact Hni.
- cbn [snd never_insufficient]. unfold detect_date_col in Hdc.
  destruct (Frame.has_column table date_col); [discriminate|].
  destruct (List.filter _ _); [|discriminate].
  injection Hdc as <-. unfold no_date_column. benign.
Qed.

Lemma ni_iloc_last l : never_insufficient (iloc_last l).
Proof. unfold iloc_last. ni. Qed.

Lemma ni_seasonal_naive_loop data period steps :
never_insufficient (Baseline.seasonal_naive_loop data period steps).
Proof.
induction steps as [|i steps IH]; simpl; [exact I|].
apply ni_bind; [|intros v; apply ni_bind; [exact IH | intros; exact I]].
unfold Baseline.seasonal_naive_step. ni. apply ni_iloc_last.
Qed.

Lemma ni_baseline method data horizon period :
never_insufficient (Baseline.fit_predict method data horizon period).
Proof.
unfold Baseline.fit_predict.
destruct (String.eqb method "naive").
{ apply ni_bind; [apply ni_iloc_last | intros; exact I]. }
destruct (String.eqb method "seasonal_naive"); [apply ni_seasonal_naive_loop|].
ni.
Qed.

Lemma ni_naive_fallback data horizon :
never_insufficient (XGBoost.naive_fallback data horizon).
Proof.
unfold XGBoost.naive_fallback.
apply ni_bind; [apply ni_iloc_last | intros; exact I].
Qed.

Lemma ni_xgboost lib self data horizon granularity :
never_insufficient (XGBoost.fit_predict lib self data horizon granularity).
Proof.
unfold XGBoost.fit_predict. apply ni_try_except. intros e. apply ni_naive_fallback.
Qed.

Lemma ni_run_model model_type train horizon granularity :
never_insufficient (run_model libs model_type train horizon granularity).
Proof.
unfold run_model.
destruct (String.eqb model_type "baseline"); [apply ni_baseline|].
destruct (String.eqb model_type "arima"); [exact I|].
destruct (String.eqb model_type "xgboost"); [apply ni_xgboost|].
cbn [never_insufficient]. benign.
Qed.

Lemma ni_format train granularity horizon preds :
never_insufficient (format train granularity horizon preds).
Proof. unfold format, last_date, future_dates. ni. Qed.

Lemma ni_forecast train test model_type horizon granularity :
never_insufficient (forecast libs train test model_type horizon granularity).
Proof.
unfold forecast.
apply ni_bind.
{ destruct (String.eqb model_type "auto"); [|exact I]. exact I. }
intros model_type'.
apply ni_bind; [apply ni_run_model | intros preds].
apply ni_bind; [apply ni_format | intros; exact I].
Qed.

(** Past validation, the pipeline never ends in an
  [InsufficientDataError]. *)
Lemma ni_after_validation pd h df train_test_granularity model_type horizon :
never_insufficient
  ('(train_series, test_series) ←
     snd (preprocess_data pd h df "date" "sales" train_test_granularity);
   forecast libs train_series test_series model_type horizon train_test_granularity).
Proof.
apply ni_bind; [apply ni_preprocess_data|].
intros [train test]. apply ni_forecast.
Qed.

End ValidationProperties.

(** C2, as amended.  The pipeline fails with [InsufficientDataError]
    exactly when the raw table that was loaded is empty or has fewer than
    10 rows: the rows are counted before cleaning, and the rows that
    cleaning drops for a date that does not parse are not counted again.
    A failure of the load itself is not an [InsufficientDataError]. *)
Theorem run_forecast_insufficient_data
    (libs : ForecastService.Libraries) (now : Z) (w : World)
    (dataset_url model_type : string) (horizon : nat) (granularity : string) :
  let outcome :=
    snd (ForecastService.run_forecast libs now w dataset_url model_type
           horizon granularity) in
  match DataLoader.load_data_from_url (ForecastService.pandas libs) now w dataset_url with
  | (w1, Ok df) =>
      match heap w1 !! df with
      | Some table =>
          (exists e, outcome = Raise e /\ DataLoader.InsufficientDataError e)
          <-> (Frame.is_empty table = true \/ (Frame.nrows table < 10)%nat)
      | None => outcome = Raise LibraryError
      end
  | (_, Raise e) => outcome = Raise e /\ ~ DataLoader.InsufficientDataError e
  end.
Proof.
  intros outcome. subst outcome. unfold ForecastService.run_forecast.
  destruct (DataLoader.load_data_from_url _ now w dataset_url) as [w1 [df|e]] eqn:Hload.
  - destruct (heap w1 !! df) as [table|]; [|reflexivity].
    cbn [lib_call mbind result_bind].
    unfold DataLoader.validate_data.
    destruct (Frame.is_empty table) eqn:Hempty.
    + cbn [snd]. split; [intros _; left; reflexivity|].
      intros _. eexists. split; [reflexivity | left; reflexivity].
    + destruct (Frame.nrows table <? 10)%nat eqn:Hrows.
      * cbn [snd]. apply Nat.ltb_lt in Hrows. split; [intros _; right; exact Hrows|].
        intros _. eexists. split; [reflexivity | right; reflexivity].
      * apply Nat.ltb_ge in Hrows.
        pose proof (ni_after_validation libs (ForecastService.pandas libs) (heap w1) df
                      granularity model_type horizon) as Hni.
        destruct (DataLoader.preprocess_data _ _ _ _ _ _) as [h2 series].
        cbn [snd] in Hni |- *. split.
        -- intros (e & He & Hins). rewrite He in Hni. contradiction.
        -- intros [Habs|Habs]; [discriminate | lia].
  - cbn [snd]. split; [reflexivity|].
    unfold DataLoader.load_data_from_url in Hload.
    destruct (Cache.get _ _ _ _) as [[l|] cache']; [discriminate|].
    destruct (DataLoader.requests_get _ _) as [text|]; cbn in Hload.
    + destruct (DataLoader.read_csv _ _); cbn in Hload; [discriminate|].
      injection Hload as _ <-. intros [H|H]; discriminate.
    + injection Hload as _ <-. intros [H|H]; discriminate.
Qed.

(** C2 as stated fails on a table of ten raw rows of which nine have a
    date that parses: fewer than 10 rows survive cleaning, and the
    pipeline returns a forecast. *)
Lemma run_forecast_nine_clean_rows_counterexample :
  Frame.nrows Sample.table = 10%nat /\
  DataLoader.surviving_rows Sample.pandas Sample.table "date" = Ok 9%nat /\
  is_Ok (snd (ForecastService.run_forecast Sample.libraries 0 boot "u"
                "baseline" 3 "daily")) = true.
Proof.
  split; [reflexivity|]. split; vm_compute; reflexivity.
Qed.

(** C7, at an input where the code departs from it.  The table is loaded
    and cached, a second load is served from the cache, and the table in
    the store is still the raw one; preprocessing the table that the load
    returned rewrites the date column of that very table, so that the
    table in the cache is no longer the one that was stored, and the next
    load is served the rewritten one. *)
Theorem preprocess_data_rewrites_cached_table :
  let pd := Sample.pandas in
  let first := DataLoader.load_data_from_url pd 0 boot "u" in
  let second := DataLoader.load_data_from_url pd 10 (fst first) "u" in
  let w2 := fst second in
  let h3 := fst (DataLoader.preprocess_data pd (heap w2) 0%nat "date" "sales" "daily") in
  let w3 := {| heap := h3; next_loc := next_loc w2; dataset_cache := dataset_cache w2 |} in
  snd first = Ok 0%nat /\
  snd second = Ok 0%nat /\
  heap w2 !! 0%nat = Some Sample.table /\
  h3 !! 0%nat = Some Sample.parsed_table /\
  Sample.parsed_table <> Sample.table /\
  snd (DataLoader.load_data_from_url pd 20 w3 "u") = Ok 0%nat.
Proof.
  cbv zeta. repeat split; try (vm_compute; reflexivity).
  intros H. discriminate H.
Qed.

(** Three rows of one date, with the values 10, 20 and 30, are aggregated
    into one row of value 60. *)
Example groupby_sum_duplicates :
  exists v, DataLoader.groupby_sum [(19723%Z, 10); (19723%Z, 20); (19723%Z, 30)]
            = [(19723%Z, v)] /\ v = 60.
Proof. eexists. split; [reflexivity | lra]. Qed.

(** Preprocessing succeeds on the sample table. *)
Example preprocess_data_sample :
  exists h' train test,
    DataLoader.preprocess_data Sample.pandas Sample.store 0%nat "date" "sales" "daily"
    = (h', Ok (train, test)) /\ len train = 7%nat /\ len test = 2%nat.
Proof.
  eexists _, _, _. split; [vm_compute; reflexivity|]. split; reflexivity.
Qed.

(** The sample table, resampled by day. *)
Lemma preprocess_data_regular_grid_witness :
  match DataLoader.preprocess_data Sample.pandas Sample.store 0%nat
          "date" "sales" "daily" with
  | (h', Ok (train, test)) =>
      exists raw dc table dates values_ date_cells value_cells stamps,
        Sample.store !! 0%nat = Some raw /\
        DataLoader.detect_date_col raw "date" = Ok dc /\
        h' !! 0%nat = Some table /\
        Frame.get_column table dc = Ok dates /\
        Frame.get_column table (DataLoader.detect_value_col raw "sales") = Ok values_ /\
        Frame.get_column raw dc = Ok date_cells /\
        Frame.get_column raw (DataLoader.detect_value_col raw "sales") = Ok value_cells /\
        (dc <> DataLoader.detect_value_col raw "sales" ->
           DataLoader.parse_dates Sample.pandas date_cells = Ok dates /\
           values_ = if Frame.is_object value_cells
                     then map (DataLoader.clean_currency Sample.pandas) value_cells
                     else value_cells) /\
        index train = DatetimeIndex (take (len train) stamps) (Some "D"%string) /\
        index test = DatetimeIndex (drop (len train) stamps) (Some "D"%string) /\
        DataLoader.regular_grid Calendar.Day (observed_records dates values_)
          stamps (values train ++ values test) /\
        (forall t, In t stamps ->
           exists first last,
             In first (observed_records dates values_) /\
             In last (observed_records dates values_) /\
             (Calendar.period_of Calendar.Day (fst first)
              <= Calendar.period_of Calendar.Day t
              <= Calendar.period_of Calendar.Day (fst last))%Z)
  | (_, Raise _) => True
  end.
Proof.
  apply (preprocess_data_regular_grid Sample.pandas Sample.store 0%nat
           "date" "sales" "daily" Calendar.Day "D").
  reflexivity.
Defined.

(* ================================================================== *)
(** * Part III. Further properties of the code                         *)
(* ================================================================== *)

(** ** The baseline forecaster *)

Section BaselineProperties.
Import Baseline.

Lemma seasonal_naive_step_Ok (data : list R) p i :
data <> [] -> (0 < p)%nat ->
seasonal_naive_step data p i
= Ok (if (p - i mod p <=? length data)%nat
      then nth (length data - (p - i mod p)) data 0
      else List.last data 0).
Proof.
intros Hne Hp. unfold seasonal_naive_step, iloc_from_end, iloc_last.
replace (p =? 0)%nat with false by (symmetry; apply Nat.eqb_neq; lia).
destruct (_ <=? _)%nat; [reflexivity|]. destruct data; [congruence | reflexivity].
Qed.

Lemma seasonal_naive_loop_Ok (data : list R) p steps :
data <> [] -> (0 < p)%nat ->
seasonal_naive_loop data p steps
= Ok (map (fun i => if (p - i mod p <=? length data)%nat
                    then nth (length data - (p - i mod p)) data 0
                    else List.last data 0) steps).
Proof.
intros Hne Hp. induction steps as [|i steps IH]; [reflexivity|].
cbn [seasonal_naive_loop map]. rewrite (seasonal_naive_step_Ok _ _ _ Hne Hp), IH.
reflexivity.
Qed.

End BaselineProperties.

(** The seasonal-naive forecast of a non-empty series, in closed form. *)
Lemma seasonal_naive_map (data : Series) (horizon p : nat) :
  values data <> [] -> (0 < p)%nat ->
  Baseline.fit_predict "seasonal_naive" data horizon p
  = Ok (map (fun i => if (p - i mod p <=? len data)%nat
                      then nth (len data - (p - i mod p)) (values data) 0
                      else List.last (values data) 0) (seq 0 horizon)).
Proof.
  intros Hne Hp. unfold Baseline.fit_predict. cbn [String.eqb Ascii.eqb Bool.eqb].
  apply seasonal_naive_loop_Ok; assumption.
Qed.

Lemma mean_bounds (l : list R) lo hi :
  l <> [] -> Forall (fun v => lo <= v <= hi) l -> lo <= mean l <= hi.
Proof.
  intros Hne Hall.
  assert (Hsum : INR (length l) * lo <= rsum l <= INR (length l) * hi).
  { clear Hne. induction Hall as [|v l Hv Hl IH].
    - simpl. lra.
    - cbn [length rsum]. rewrite S_INR. lra. }
  assert (Hn : 0 < INR (length l)).
  { apply lt_0_INR. destruct l; [congruence | simpl; lia]. }
  unfold mean. split.
  - apply Rmult_le_reg_r with (INR (length l)); [exact Hn|].
    unfold Rdiv. rewrite Rmult_assoc, Rinv_l by lra. lra.
  - apply Rmult_le_reg_r with (INR (length l)); [exact Hn|].
    unfold Rdiv. rewrite Rmult_assoc, Rinv_l by lra. lra.
Qed.

(** X1.  Seasonal-naive on a non-empty series with a positive period
    returns exactly [horizon] values; the value at step [i] is the one
    [p - i mod p] places from the end of the series when the series is
    that long, and the last value otherwise. *)
Theorem seasonal_naive_values (data : Series) (horizon p : nat) :
  values data <> [] -> (0 < p)%nat ->
  exists preds,
    Baseline.fit_predict "seasonal_naive" data horizon p = Ok preds /\
    length preds = horizon /\
    forall i, (i < horizon)%nat ->
      preds !! i
      = Some (if (p - i mod p <=? len data)%nat
              then nth (len data - (p - i mod p)) (values data) 0
              else List.last (values data) 0).
Proof.
  intros Hne Hp. eexists. split; [apply seasonal_naive_map; assumption|].
  split; [rewrite length_map, length_seq; reflexivity|].
  intros i Hi. rewrite list_lookup_fmap, lookup_seq_lt by exact Hi. reflexivity.
Qed.

(** A week of seven values, forecast for ten days with the period 7. *)
Lemma seasonal_naive_values_witness :
  exists preds,
    Baseline.fit_predict "seasonal_naive"
      (mkSeries RangeIndex [1; 2; 3; 4; 5; 6; 7]) 10 7 = Ok preds /\
    length preds = 10%nat /\
    forall i, (i < 10)%nat ->
      preds !! i
      = Some (if (7 - i mod 7 <=? 7)%nat
              then nth (7 - (7 - i mod 7)) [1; 2; 3; 4; 5; 6; 7] 0
              else 7).
Proof.
  apply (seasonal_naive_values (mkSeries RangeIndex [1; 2; 3; 4; 5; 6; 7]) 10 7).
  - discriminate.
  - lia.
Defined.

(** X2.  The seasonal-naive forecast repeats with the period, and every
    value of it is a value of the series: it never extrapolates. *)
Theorem seasonal_naive_periodic (data : Series) (horizon p : nat) :
  values data <> [] -> (0 < p)%nat ->
  exists preds,
    Baseline.fit_predict "seasonal_naive" data horizon p = Ok preds /\
    (forall i, (i + p < horizon)%nat -> preds !! (i + p)%nat = preds !! i) /\
    Forall (fun v => In v (values data)) preds.
Proof.
  intros Hne Hp. eexists. split; [apply seasonal_naive_map; assumption|].
  set (preds := map _ (seq 0 horizon)).
  assert (Hlen : length preds = horizon)
    by (subst preds; rewrite length_map, length_seq; reflexivity).
  assert (Hval : forall i, (i < horizon)%nat ->
            preds !! i
            = Some (if (p - i mod p <=? len data)%nat
                    then nth (len data - (p - i mod p)) (values data) 0
                    else List.last (values data) 0)).
  { intros i Hi. subst preds.
    rewrite list_lookup_fmap, lookup_seq_lt by exact Hi. reflexivity. }
  clearbody preds. split.
  - intros i Hi. rewrite (Hval (i + p)%nat), (Hval i) by lia.
    replace ((i + p) mod p)%nat with (i mod p)%nat; [reflexivity|].
    rewrite Nat.Div0.add_mod, Nat.Div0.mod_same, Nat.add_0_r, Nat.Div0.mod_mod by lia.
    reflexivity.
  - apply Forall_forall. intros v Hv. apply list_elem_of_lookup in Hv as [i Hi].
    assert (Hlt : (i < horizon)%nat).
    { rewrite <- Hlen. eapply lookup_lt_Some, Hi. }
    rewrite (Hval i Hlt) in Hi. injection Hi as <-.
    pose proof (Nat.mod_upper_bound i p ltac:(lia)) as Hmod.
    unfold len. destruct (_ <=? _)%nat eqn:Hk.
    + apply Nat.leb_le in Hk. apply nth_In. lia.
    + apply last_In, Hne.
Qed.

Lemma seasonal_naive_periodic_witness :
  exists preds,
    Baseline.fit_predict "seasonal_naive"
      (mkSeries RangeIndex [1; 2; 3; 4; 5; 6; 7]) 10 7 = Ok preds /\
    (forall i, (i + 7 < 10)%nat -> preds !! (i + 7)%nat = preds !! i) /\
    Forall (fun v => In v [1; 2; 3; 4; 5; 6; 7]) preds.
Proof.
  apply (seasonal_naive_periodic (mkSeries RangeIndex [1; 2; 3; 4; 5; 6; 7]) 10 7).
  - discriminate.
  - lia.
Defined.

(** X3.  The moving average of a non-empty series is one value, repeated
    [horizon] times, that lies between any two bounds of the series; on
    a constant series it is the constant. *)
Theorem moving_average_bounds (data : Series) (horizon p : nat) (lo hi : R) :
  values data <> [] ->
  Forall (fun v => lo <= v <= hi) (values data) ->
  exists m,
    Baseline.fit_predict "moving_average" data horizon p = Ok (np_full horizon m) /\
    lo <= m <= hi.
Proof.
  intros Hne Hall. eexists. split.
  - unfold Baseline.fit_predict. cbn [String.eqb Ascii.eqb Bool.eqb]. reflexivity.
  - apply mean_bounds.
    + intros Hnil. apply (f_equal (@length R)) in Hnil.
      rewrite length_drop in Hnil. unfold len in Hnil. simpl in Hnil.
      destruct (values data); [congruence | simpl in Hnil; lia].
    + apply Forall_drop, Hall.
Qed.

(** Sixty days at 100: the moving average is 100. *)
Lemma moving_average_bounds_witness :
  exists m,
    Baseline.fit_predict "moving_average" (mkSeries RangeIndex (repeat 100 60)) 5 7
      = Ok (np_full 5 m) /\
    100 <= m <= 100.
Proof.
  apply (moving_average_bounds (mkSeries RangeIndex (repeat 100 60)) 5 7 100 100).
  - discriminate.
  - apply Forall_forall. intros v Hv. apply list_elem_of_In, repeat_spec in Hv.
    rewrite Hv. lra.
Defined.

(** X4.  On an empty series the naive method raises [IndexError] at every
    horizon, and so does seasonal-naive at every horizon but zero, where
    it returns no value; the moving average does not raise. *)
Theorem baseline_empty_series (idx : Index) (horizon p : nat) :
  let data := mkSeries idx [] in
  Baseline.fit_predict "naive" data horizon p = Raise IndexError /\
  Baseline.fit_predict "seasonal_naive" data (S horizon) (S p) = Raise IndexError /\
  Baseline.fit_predict "seasonal_naive" data 0 p = Ok [] /\
  is_Ok (Baseline.fit_predict "moving_average" data horizon p) = true.
Proof.
  cbv zeta. unfold Baseline.fit_predict. cbn [String.eqb Ascii.eqb Bool.eqb].
  repeat split.
  cbn [seq Baseline.seasonal_naive_loop values].
  unfold Baseline.seasonal_naive_step. cbn [Nat.eqb length].
  destruct (_ <=? 0)%nat eqn:Hk; [|reflexivity].
  apply Nat.leb_le in Hk.
  pose proof (Nat.mod_upper_bound 0 (S p) ltac:(lia)). lia.
Qed.

(** ** The metrics engine, further *)

Section MetricsFurther.
Import Metrics.

Lemma rsum_nonneg (l : list R) : Forall (fun v => 0 <= v) l -> 0 <= rsum l.
Proof. induction 1; simpl; lra. Qed.

Lemma mean_nonneg (l : list R) : Forall (fun v => 0 <= v) l -> 0 <= mean l.
Proof.
intros H. unfold mean, Rdiv. apply Rmult_le_pos; [apply rsum_nonneg, H|].
destruct (length l) as [|n].
- simpl. rewrite Rinv_0. lra.
- left. apply Rinv_0_lt_compat, lt_0_INR. lia.
Qed.

Lemma Forall_map_Rabs (l : list R) : Forall (fun v => 0 <= v) (map Rabs l).
Proof. apply Forall_map, Forall_forall. intros v _. apply Rabs_pos. Qed.

Lemma Forall_map_square (l : list R) : Forall (fun v => 0 <= v) (map square l).
Proof. apply Forall_map, Forall_forall. intros v _. apply pow2_ge_0. Qed.

Lemma round_half_even_le x z : x <= IZR z -> (round_half_even x <= z)%Z.
Proof.
intros Hx. unfold round_half_even.
pose proof (Zfloor_le _ _ Hx) as Hfl. rewrite ZfloorZ in Hfl.
pose proof (Zfloor_bound x) as [Hlo Hhi].
destruct (Rlt_dec _ _) as [|Hn]; [exact Hfl|].
assert (Zfloor x < z)%Z.
{ destruct (Z.eq_dec (Zfloor x) z) as [Heq|]; [|lia].
  exfalso. apply Hn. rewrite Heq in *. lra. }
destruct (Rgt_dec _ _); [lia|]. destruct (Z.even _); lia.
Qed.

Lemma round_le x z n : x <= IZR z -> round x n <= IZR z.
Proof.
intros Hx. unfold round. pose proof (pow10_pos n) as Hp.
assert (H : (round_half_even (x * 10 ^ n) <= z * 10 ^ Z.of_nat n)%Z).
{ apply round_half_even_le. rewrite mult_IZR, <- pow_IZR. nra. }
apply IZR_le in H. rewrite mult_IZR, <- pow_IZR in H.
apply Rmult_le_reg_r with (10 ^ n); [exact Hp|].
unfold Rdiv. rewrite Rmult_assoc, Rinv_l by lra. lra.
Qed.

Lemma raw_accuracy_le_100 actual predicted :
accuracy (raw_scores actual predicted) <= 100.
Proof.
unfold raw_scores. cbn [accuracy].
destruct (gtb _ 0) eqn:Hm; [|lra]. apply gtb_true in Hm.
apply Rmax_lub; [lra|].
match goal with |- (1 - ?mae / ?m) * 100 <= 100 =>
  assert (0 <= mae / m); [|lra] end.
unfold Rdiv. apply Rmult_le_pos.
- apply mean_nonneg, Forall_map_Rabs.
- left. apply Rinv_0_lt_compat. lra.
Qed.

Lemma raw_r2_le_1 actual predicted : r2 (raw_scores actual predicted) <= 1.
Proof.
unfold raw_scores. cbn [r2].
destruct (gtb _ 0) eqn:Hs; [|lra]. apply gtb_true in Hs.
match goal with |- 1 - ?res / ?tot <= 1 => assert (0 <= res / tot); [|lra] end.
unfold Rdiv. apply Rmult_le_pos.
- apply rsum_nonneg, Forall_map_square.
- left. apply Rinv_0_lt_compat. lra.
Qed.

Lemma raw_scores_common_length actual predicted :
let n := Nat.min (length actual) (length predicted) in
raw_scores (take n actual) (take n predicted) = raw_scores actual predicted.
Proof.
intros n. set (a' := take n actual). set (p' := take n predicted).
assert (Ha : take (Nat.min (length a') (length p')) a' = a').
{ subst a' p'. rewrite !length_take, take_take. f_equal. subst n. lia. }
assert (Hp : take (Nat.min (length a') (length p')) p' = p').
{ subst a' p'. rewrite !length_take, take_take. f_equal. subst n. lia. }
unfold raw_scores at 1. rewrite Ha, Hp. reflexivity.
Qed.

End MetricsFurther.

(** X5.  The dictionary that the metrics engine returns has exactly the
    seven keys mae, rmse, mape, smape, r2, rmsse and accuracy, whatever
    the arrays. *)
Theorem calculate_metrics_keys (actual predicted : list R) (k : string) :
  is_Some (Metrics.calculate_metrics actual predicted !! k) <-> In k Metrics.bundle_keys.
Proof.
  split.
  - intros [v Hv]. destruct (decide (In k Metrics.bundle_keys)) as [|Hout]; [assumption|].
    exfalso. unfold Metrics.calculate_metrics in Hv.
    assert (Hnone : forall l : list (string * R),
              l.*1 = Metrics.bundle_keys -> list_to_map (M := gmap string R) l !! k = None).
    { intros l Hl. apply not_elem_of_list_to_map. rewrite Hl.
      intros Hin. apply Hout, list_elem_of_In, Hin. }
    rewrite Hnone in Hv by reflexivity. discriminate.
  - intros Hin.
    destruct (lookup_calculate_metrics actual predicted)
      as (H1 & H2 & H3 & H4 & H5 & H6 & H7).
    cbv zeta in *.
    repeat destruct Hin as [<-|Hin]; try (eexists; eassumption). destruct Hin.
Qed.

(** X6.  On two arrays that are not empty, the reported MAE and RMSE are
    not negative, the accuracy is between 0 and 100, and R² is at most
    1. *)
Theorem calculate_metrics_ranges (actual predicted : list R) :
  actual <> [] -> predicted <> [] ->
  let m := Metrics.calculate_metrics actual predicted in
  (exists v, m !! "mae" = Some v /\ 0 <= v) /\
  (exists v, m !! "rmse" = Some v /\ 0 <= v) /\
  (exists v, m !! "accuracy" = Some v /\ 0 <= v <= 100) /\
  (exists v, m !! "r2" = Some v /\ v <= 1).
Proof.
  intros _ _ m. subst m.
  destruct (lookup_calculate_metrics actual predicted)
    as (Hmae & Hrmse & _ & _ & Hr2 & _ & Hacc).
  cbv zeta in *. repeat split.
  - eexists. split; [exact Hmae|]. apply round_nonneg.
    unfold Metrics.raw_scores. cbn [Metrics.mae]. apply mean_nonneg, Forall_map_Rabs.
  - eexists. split; [exact Hrmse|]. apply round_nonneg.
    unfold Metrics.raw_scores. cbn [Metrics.rmse]. apply sqrt_pos.
  - eexists. split; [exact Hacc|]. split.
    + apply round_nonneg, raw_accuracy_nonneg.
    + apply (round_le _ 100), raw_accuracy_le_100.
  - eexists. split; [exact Hr2|]. apply (round_le _ 1), raw_r2_le_1.
Qed.

Lemma calculate_metrics_ranges_witness :
  let m := Metrics.calculate_metrics [1; 3] [2; 5] in
  (exists v, m !! "mae" = Some v /\ 0 <= v) /\
  (exists v, m !! "rmse" = Some v /\ 0 <= v) /\
  (exists v, m !! "accuracy" = Some v /\ 0 <= v <= 100) /\
  (exists v, m !! "r2" = Some v /\ v <= 1).
Proof.
  apply (calculate_metrics_ranges [1; 3] [2; 5]); discriminate.
Defined.

(** X7.  The metrics depend on the two arrays only up to their common
    length: predictions beyond the actual values change nothing. *)
Theorem calculate_metrics_common_length (actual predicted extra : list R) :
  (length actual <= length predicted)%nat ->
  Metrics.calculate_metrics actual (predicted ++ extra)
  = Metrics.calculate_metrics actual predicted /\
  Metrics.calculate_metrics actual predicted
  = Metrics.calculate_metrics actual (take (length actual) predicted).
Proof.
  intros Hlen. unfold Metrics.calculate_metrics.
  assert (H1 : Metrics.raw_scores actual (predicted ++ extra)
               = Metrics.raw_scores actual (take (length actual) predicted)).
  { rewrite <- (raw_scores_common_length actual (predicted ++ extra)).
    rewrite length_app. cbv zeta.
    replace (Nat.min (length actual) (length predicted + length extra))
      with (length actual) by lia.
    rewrite firstn_all, take_app_le by exact Hlen. reflexivity. }
  assert (H2 : Metrics.raw_scores actual predicted
               = Metrics.raw_scores actual (take (length actual) predicted)).
  { rewrite <- (raw_scores_common_length actual predicted). cbv zeta.
    replace (Nat.min (length actual) (length predicted)) with (length actual) by lia.
    rewrite firstn_all. reflexivity. }
  rewrite H1, H2. split; reflexivity.
Qed.

Lemma calculate_metrics_common_length_witness :
  Metrics.calculate_metrics [1; 2] ([1; 3] ++ [7])
  = Metrics.calculate_metrics [1; 2] [1; 3] /\
  Metrics.calculate_metrics [1; 2] [1; 3]
  = Metrics.calculate_metrics [1; 2] (take (length [1; 2]) [1; 3]).
Proof.
  apply (calculate_metrics_common_length [1; 2] [1; 3] [7]). simpl. lia.
Defined.

Section MetricsZero.
Import Metrics.

Lemma rsum_all_zero l : all_zero l -> rsum l = 0.
Proof. induction 1 as [|a l -> _ IH]; simpl; [reflexivity|]. rewrite IH. ring. Qed.

Lemma mean_all_zero l : all_zero l -> mean l = 0.
Proof. intros H. unfold mean. rewrite (rsum_all_zero _ H). apply Rdiv_0_l. Qed.

Lemma mask_all_zero l : all_zero l -> mask_sum (map (fun a => neqb a 0) l) = 0%nat.
Proof.
induction 1 as [|a l -> _ IH]; [reflexivity|].
cbn [map]. assert (Hz : neqb 0 0 = false) by (apply neqb_false; reflexivity).
rewrite Hz. exact IH.
Qed.

Lemma all_zero_zip_minus l k : all_zero l -> all_zero k -> all_zero (zip_with Rminus l k).
Proof.
intros Hl. revert k. induction Hl as [|a l -> _ IH]; intros k Hk; [constructor|].
destruct Hk as [|b k -> Hk]; [constructor|].
cbn [zip_with]. constructor; [ring | apply IH, Hk].
Qed.

Lemma all_zero_map (f : R -> R) l : f 0 = 0 -> all_zero l -> all_zero (map f l).
Proof. intros Hf. induction 1 as [|a l -> _ IH]; constructor; assumption. Qed.

Lemma raw_scores_zero_actual actual predicted :
all_zero actual ->
let s := raw_scores actual predicted in
mape s = 0 /\ r2 s = 0 /\ rmsse s = 0 /\ accuracy s = 0.
Proof.
intros Hzero. unfold raw_scores. cbn [mape r2 rmsse accuracy].
set (n := Nat.min (length actual) (length predicted)).
assert (Ha : all_zero (take n actual)) by (apply Forall_take, Hzero).
set (a := take n actual) in *. clearbody a.
assert (G0 : gtb 0 0 = false) by (apply gtb_false; lra).
split; [rewrite (mask_all_zero _ Ha); reflexivity|].
split.
{ rewrite (rsum_all_zero (map _ a)), G0; [reflexivity|].
  rewrite (mean_all_zero _ Ha).
  apply (all_zero_map (fun v => square (v - 0))); [unfold square; ring | exact Ha]. }
split.
{ destruct (_ <? _)%nat; [|reflexivity].
  rewrite (mean_all_zero (map square _)), G0; [reflexivity|].
  apply all_zero_map; [unfold square; ring|].
  apply all_zero_zip_minus; [apply Forall_drop, Ha | apply Forall_take, Ha]. }
rewrite (mean_all_zero _ Ha), G0. reflexivity.
Qed.

End MetricsZero.

(** X8.  When every actual value is zero, as on a run of periods without
    sales, the MAPE, R², RMSSE and accuracy are all 0, whatever was
    predicted. *)
Theorem calculate_metrics_zero_actual (actual predicted : list R) :
  Forall (fun a => a = 0) actual ->
  let m := Metrics.calculate_metrics actual predicted in
  m !! "mape" = Some 0 /\ m !! "r2" = Some 0 /\
  m !! "rmsse" = Some 0 /\ m !! "accuracy" = Some 0.
Proof.
  intros Hzero m. subst m.
  destruct (lookup_calculate_metrics actual predicted)
    as (_ & _ & Hmape & _ & Hr2 & Hrmsse & Hacc).
  destruct (raw_scores_zero_actual actual predicted Hzero) as (E1 & E2 & E3 & E4).
  cbv zeta in *. rewrite Hmape, Hr2, Hrmsse, Hacc, E1, E2, E3, E4.
  rewrite (round_IZR 0 2), (round_IZR 0 4). auto.
Qed.

Lemma calculate_metrics_zero_actual_witness :
  let m := Metrics.calculate_metrics [0; 0] [1; 2] in
  m !! "mape" = Some 0 /\ m !! "r2" = Some 0 /\
  m !! "rmsse" = Some 0 /\ m !! "accuracy" = Some 0.
Proof.
  apply (calculate_metrics_zero_actual [0; 0] [1; 2]).
  repeat constructor.
Defined.

(** ** The cache *)

Section CacheProperties.
Import Cache.
Open Scope Z_scope.

Lemma append_assoc (a b c : string) :
((a ++ b) ++ c)%string = (a ++ (b ++ c))%string.
Proof.
induction a as [|x a IH]; [reflexivity|].
change (String x ((a ++ b) ++ c) = String x (a ++ (b ++ c)))%string.
rewrite IH. reflexivity.
Qed.

Lemma generate_key_inj_granularity url g g' :
_generate_key url g = _generate_key url g' -> g = g'.
Proof.
unfold _generate_key. intros H.
apply String.app_inj in H. apply String.app_inj in H. exact H.
Qed.

Lemma get_set_fresh (c : DatasetCache) now now' url d g :
now' - now <= ttl_seconds c ->
get (set c now url d g) now' url g = (Some d, set c now url d g).
Proof.
intros Hfresh. unfold get, set, _is_expired. cbn [_cache ttl_seconds].
rewrite lookup_insert_eq.
apply Z.ltb_ge in Hfresh. rewrite Hfresh. reflexivity.
Qed.

Lemma get_ttl_seconds (c : DatasetCache) now url g :
ttl_seconds (snd (get c now url g)) = ttl_seconds c.
Proof.
unfold get. destruct (_cache c !! _) as [[d ts]|]; [|reflexivity].
destruct (negb _); reflexivity.
Qed.

Lemma get_set_other (c : DatasetCache) now now' url url' d g g' :
_generate_key url g <> _generate_key url' g' ->
fst (get (set c now url d g) now' url' g') = fst (get c now' url' g').
Proof.
intros Hne. unfold get, set. cbn [_cache ttl_seconds].
rewrite lookup_insert_ne by exact Hne.
destruct (_cache c !! _) as [[data ts]|]; [|reflexivity].
unfold _is_expired. cbn [ttl_seconds]. destruct (negb _); reflexivity.
Qed.

End CacheProperties.

(** X9.  An entry that was set is served until it is older than the TTL:
    a [get] within the TTL returns the stored data and leaves the cache as
    it is; a later [get] returns nothing and removes the entry. *)
Theorem cache_get_set (c : Cache.DatasetCache) (now now' : Z) (url g : string) (d : loc) :
  let c' := Cache.set c now url d g in
  let expired := (Cache.ttl_seconds c <? now' - now)%Z in
  Cache.get c' now' url g
  = if expired
    then (None, {| Cache.ttl_seconds := Cache.ttl_seconds c;
                   Cache._cache := delete (Cache._generate_key url g) (Cache._cache c) |})
    else (Some d, c').
Proof.
  cbv zeta. unfold Cache.get, Cache.set, Cache._is_expired. cbn [Cache._cache Cache.ttl_seconds].
  rewrite lookup_insert_eq.
  destruct (_ <? _)%Z; cbn [negb]; [|reflexivity].
  rewrite delete_insert_eq. reflexivity.
Qed.

(** X10.  For one URL, the entries of two different granularities do not
    interfere: setting one leaves what [get] returns for the other. *)
Theorem cache_granularities_independent
    (c : Cache.DatasetCache) (now now' : Z) (url g g' : string) (d : loc) :
  g <> g' ->
  fst (Cache.get (Cache.set c now url d g) now' url g') = fst (Cache.get c now' url g').
Proof.
  intros Hne. apply get_set_other. intros H. apply Hne.
  apply (generate_key_inj_granularity url), H.
Qed.

Lemma cache_granularities_independent_witness :
  fst (Cache.get (Cache.set (Cache.init 300) 0 "u" 0%nat "raw") 5 "u" "daily")
  = fst (Cache.get (Cache.init 300) 5 "u" "daily").
Proof.
  apply (cache_granularities_independent (Cache.init 300) 0 5 "u" "raw" "daily" 0%nat).
  discriminate.
Defined.

(** X11.  The key does not keep the URL and the granularity apart: a URL
    that ends in [":" ++ g1] with the granularity [g2] has the key of the
    URL without that ending with the granularity [g1 ++ ":" ++ g2], and
    is served the other's entry. *)
Theorem cache_key_collision
    (c : Cache.DatasetCache) (now now' : Z) (url g1 g2 : string) (d : loc) :
  Cache._generate_key (url ++ ":" ++ g1) g2 = Cache._generate_key url (g1 ++ ":" ++ g2) /\
  Cache.get (Cache.set c now (url ++ ":" ++ g1) d g2) now' url (g1 ++ ":" ++ g2)
  = Cache.get (Cache.set c now (url ++ ":" ++ g1) d g2) now' (url ++ ":" ++ g1) g2.
Proof.
  assert (Hkey : Cache._generate_key (url ++ ":" ++ g1) g2
                 = Cache._generate_key url (g1 ++ ":" ++ g2)).
  { unfold Cache._generate_key. rewrite !append_assoc. reflexivity. }
  split; [exact Hkey|]. unfold Cache.get. rewrite Hkey. reflexivity.
Qed.

(** X12.  Sweeping the expired entries changes nothing that [get] returns
    at that time, and leaves no expired entry. *)
Theorem cache_cleanup_expired (c : Cache.DatasetCache) (now : Z) (url g : string) :
  fst (Cache.get (Cache.cleanup_expired c now) now url g) = fst (Cache.get c now url g) /\
  (forall k d ts,
      Cache._cache (Cache.cleanup_expired c now) !! k = Some (d, ts) ->
      Cache._cache c !! k = Some (d, ts) /\ (now - ts <= Cache.ttl_seconds c)%Z).
Proof.
  split.
  - unfold Cache.get, Cache.cleanup_expired. cbn [Cache._cache Cache.ttl_seconds].
    rewrite map_lookup_filter.
    destruct (Cache._cache c !! _) as [[d ts]|]; [|reflexivity].
    cbn [mbind option_bind snd]. unfold Cache._is_expired. cbn [Cache.ttl_seconds].
    destruct (_ <? _)%Z eqn:Hexp.
    + rewrite option_guard_False by discriminate. reflexivity.
    + rewrite option_guard_True by reflexivity. cbn. rewrite Hexp. reflexivity.
  - intros k d ts H. unfold Cache.cleanup_expired in H. cbn [Cache._cache] in H.
    apply map_lookup_filter_Some in H as [H Hexp]. split; [exact H|].
    unfold Cache._is_expired in Hexp. cbn [snd] in Hexp.
    apply Z.ltb_ge in Hexp. exact Hexp.
Qed.

(** ** The data loader *)

Section LoaderProperties.
Import Calendar DataLoader.
Open Scope R_scope.

Lemma has_column_In df col :
Frame.has_column df col = true <-> In col (Frame.columns df).
Proof.
unfold Frame.has_column. rewrite existsb_exists. split.
- intros (x & Hin & Heq). apply String.eqb_eq in Heq. subst. exact Hin.
- intros Hin. exists col. split; [exact Hin | apply String.eqb_refl].
Qed.

Lemma get_column_In df col :
In col (Frame.columns df) -> exists cells, Frame.get_column df col = Ok cells.
Proof.
induction df as [|[label cells] df IH]; simpl; [tauto|].
intros [->|Hin].
- rewrite String.eqb_refl. eauto.
- destruct (String.eqb label col); eauto.
Qed.

Lemma filter_first {A} (f : A -> bool) l x rest :
List.filter f l = x :: rest ->
f x = true /\
exists before after, l = before ++ x :: after /\ Forall (fun y => f y = false) before.
Proof.
induction l as [|a l IH]; simpl; [discriminate|].
destruct (f a) eqn:Hfa.
- intros [= -> _]. split; [exact Hfa|]. exists [], l. split; [reflexivity | constructor].
- intros H. destruct (IH H) as (Hfx & before & after & -> & Hbefore).
  split; [exact Hfx|]. exists (a :: before), after.
  split; [reflexivity | constructor; assumption].
Qed.

Lemma filter_none {A} (f : A -> bool) l :
List.filter f l = [] -> Forall (fun y => f y = false) l.
Proof.
induction l as [|a l IH]; simpl; [constructor|].
destruct (f a) eqn:Hfa; [discriminate|]. intros H. constructor; auto.
Qed.


Lemma get_column_set_column df col cells old :
Frame.get_column df col = Ok old ->
length cells = length old ->
shape (Frame.set_column df col cells) = shape df.
Proof.
induction df as [|[label c] df IH]; simpl; [discriminate|].
destruct (String.eqb label col).
- intros [= ->] Hlen. simpl. rewrite Hlen. reflexivity.
- intros H Hlen. simpl. rewrite (IH H Hlen). reflexivity.
Qed.

Lemma length_parsed_column parser cells parsed :
parsed_column parser cells = Ok parsed -> length parsed = length cells.
Proof.
unfold parsed_column. intros H. apply bind_Ok in H as (raw & _ & H).
destruct (length raw =? length cells)%nat eqn:Hlen; [|discriminate].
injection H as <-. rewrite length_map. apply Nat.eqb_eq, Hlen.
Qed.

Lemma length_parse_dates pd cells parsed :
parse_dates pd cells = Ok parsed -> length parsed = length cells.
Proof.
unfold parse_dates, try_except.
destruct (parsed_column (to_datetime pd) cells) as [p|e] eqn:H1.
- intros [= <-]. apply (length_parsed_column _ _ _ H1).
- apply length_parsed_column.
Qed.

Lemma sorted_app_all_before (l1 l2 : list Timestamp) :
StronglySorted Z.lt (l1 ++ l2) -> all_before l1 l2.
Proof.
unfold all_before. induction l1 as [|a l1 IH]; simpl; intros Hs; [constructor|].
inversion Hs as [|? ? Hs' Hall]; subst. constructor; [|apply IH, Hs'].
apply Forall_app in Hall as [_ Hall]. exact Hall.
Qed.

Lemma rsum_app l k : rsum (l ++ k) = rsum l + rsum k.
Proof. induction l as [|a l IH]; simpl; [ring|]. rewrite IH. ring. Qed.

Lemma rsum_add_to_group t r groups :
rsum (map snd (add_to_group t r groups)) = r + rsum (map snd groups).
Proof.
induction groups as [|[t0 r0] groups IH]; cbn [add_to_group]; [reflexivity|].
destruct (t <? t0)%Z; [reflexivity|].
destruct (t =? t0)%Z; simpl; [ring|]. rewrite IH. ring.
Qed.

Lemma rsum_groupby_sum rows :
rsum (map snd (groupby_sum rows)) = rsum (map snd rows).
Proof.
induction rows as [|[t r] rows IH]; [reflexivity|].
cbn [groupby_sum]. rewrite rsum_add_to_group, IH. reflexivity.
Qed.

Lemma rsum_indicator_absent (p : Z) (v : R) (bs : list Z) :
p ∉ bs -> rsum (map (fun b => if (p =? b)%Z then v else 0) bs) = 0.
Proof.
induction bs as [|b bs IH]; [reflexivity|].
rewrite not_elem_of_cons. intros [Hne Hnotin]. cbn [map rsum].
apply Z.eqb_neq in Hne. rewrite Hne, (IH Hnotin). ring.
Qed.

Lemma rsum_indicator (p : Z) (v : R) (bs : list Z) :
NoDup bs -> p ∈ bs ->
rsum (map (fun b => if (p =? b)%Z then v else 0) bs) = v.
Proof.
induction bs as [|b bs IH]; [intros _ Hin; inversion Hin|].
rewrite NoDup_cons, elem_of_cons. intros [Hnotin Hnodup] Hin. cbn [map rsum].
destruct (p =? b)%Z eqn:Hpb.
- apply Z.eqb_eq in Hpb. subst b. rewrite (rsum_indicator_absent _ _ _ Hnotin). ring.
- apply Z.eqb_neq in Hpb. destruct Hin as [->|Hin]; [contradiction|].
  rewrite (IH Hnodup Hin). ring.
Qed.

Lemma rsum_period_sums o rows bs :
NoDup bs ->
(forall row, In row rows -> period_of o (fst row) ∈ bs) ->
rsum (map (period_sum o rows) bs) = rsum (map snd rows).
Proof.
intros Hnodup. induction rows as [|row rows IH]; intros Hin.
- simpl. clear. induction bs as [|b bs IH]; simpl; [reflexivity|].
  rewrite IH. unfold period_sum. simpl. ring.
- assert (Hsplit : forall l,
            rsum (map (period_sum o (row :: rows)) l)
            = rsum (map (fun b => if (period_of o (fst row) =? b)%Z then snd row else 0) l)
              + rsum (map (period_sum o rows) l)).
  { induction l as [|b l IHl]; simpl; [ring|].
    rewrite IHl, period_sum_cons. ring. }
  rewrite Hsplit, IH, (rsum_indicator _ _ _ Hnodup).
  + reflexivity.
  + apply Hin. left. reflexivity.
  + intros r Hr. apply Hin. right. exact Hr.
Qed.

Lemma rsum_resample_sum o rows :
StronglySorted Z.lt (map fst rows) ->
rsum (map snd (resample_sum o rows)) = rsum (map snd rows).
Proof.
intros Hs. destruct rows as [|first rest]; [reflexivity|].
unfold resample_sum. rewrite map_map. cbn [snd].
apply rsum_period_sums.
- apply NoDup_seqZ.
- intros row Hrow. apply elem_of_seqZ.
  pose proof (sorted_first_last rest first (fst row) Hs (in_map fst _ _ Hrow)) as [Hlo Hhi].
  apply (period_of_mono o) in Hlo. apply (period_of_mono o) in Hhi.
  unfold Timestamp in *. lia.
Qed.

Lemma stamps_resample_sum o rows :
StronglySorted Z.lt (map fst (resample_sum o rows)).
Proof.
destruct rows as [|first rest]; [constructor|].
unfold resample_sum. rewrite map_map. cbn [fst].
change (fun x => label o x) with (label o). rewrite seqZ_grid. apply grid_sorted.
Qed.

(** What [to_series] returns: a sorted series cut in two at the index of
  the split, whose total is the total of the cleaned rows. *)
Lemma to_series_split df date_col value_col granularity train test :
to_series df date_col value_col granularity = Ok (train, test) ->
exists dates values_ stamps series f,
  Frame.get_column df date_col = Ok dates /\
  Frame.get_column df value_col = Ok values_ /\
  length stamps = length series /\
  StronglySorted Z.lt stamps /\
  rsum series = rsum (map snd (cleaned_rows dates values_)) /\
  train = mkSeries (DatetimeIndex (take (split_index (length series)) stamps) f)
                   (take (split_index (length series)) series) /\
  test = mkSeries (DatetimeIndex (drop (split_index (length series)) stamps) f)
                  (drop (split_index (length series)) series).
Proof.
intros H. unfold to_series in H.
apply bind_Ok in H as (dates & Hdates & H).
apply bind_Ok in H as (values_ & Hvalues & H).
set (cleaned := cleaned_rows dates values_) in *.
pose proof (groupby_sum_sorted cleaned) as Hsorted.
rewrite (sort_values_sorted _ Hsorted) in H.
assert (Hgoal : forall rows f,
  StronglySorted Z.lt (map fst rows) ->
  rsum (map snd rows) = rsum (map snd cleaned) ->
  Ok (mkSeries (DatetimeIndex (take (split_index (length (map snd rows))) (map fst rows)) f)
               (take (split_index (length (map snd rows))) (map snd rows)),
      mkSeries (DatetimeIndex (drop (split_index (length (map snd rows))) (map fst rows)) f)
               (drop (split_index (length (map snd rows))) (map snd rows)))
  = Ok (train, test) ->
  exists dates0 values0 stamps series f0,
    Frame.get_column df date_col = Ok dates0 /\
    Frame.get_column df value_col = Ok values0 /\
    length stamps = length series /\
    StronglySorted Z.lt stamps /\
    rsum series = rsum (map snd (cleaned_rows dates0 values0)) /\
    train = mkSeries (DatetimeIndex (take (split_index (length series)) stamps) f0)
                     (take (split_index (length series)) series) /\
    test = mkSeries (DatetimeIndex (drop (split_index (length series)) stamps) f0)
                    (drop (split_index (length series)) series)).
{ intros rows f Hs Hsum [= <- <-].
  exists dates, values_, (map fst rows), (map snd rows), f.
  rewrite !length_map. repeat split; try assumption; reflexivity. }
assert (Hraw : rsum (map snd (groupby_sum cleaned)) = rsum (map snd cleaned))
  by apply rsum_groupby_sum.
destruct (Frame.dtype_of values_); try discriminate;
  (destruct (resample_rule granularity) as [[o f]|];
   [ apply (Hgoal (resample_sum o (groupby_sum cleaned)) (Some f));
     [ apply stamps_resample_sum
     | rewrite (rsum_resample_sum _ _ Hsorted); exact Hraw
     | exact H ]
   | apply (Hgoal (groupby_sum cleaned) None); [exact Hsorted | exact Hraw | exact H] ]).
Qed.

Lemma split_index_bounds n :
(split_index n <= n /\ split_index n <= 4 * (n - split_index n)
 /\ 4 * (n - split_index n) <= split_index n + 4)%nat.
Proof.
unfold split_index.
pose proof (Nat.div_mod_eq (n * 8) 10) as Hdiv.
pose proof (Nat.mod_upper_bound (n * 8) 10) as Hmod.
lia.
Qed.

End LoaderProperties.

(** X13.  After a download, a second load of the same URL within the TTL
    does not reach for the network or the parser: whatever they would
    answer, it returns the reference that the first load returned, which
    holds a table, and leaves the process as it is. *)
Theorem load_data_from_url_cached
    (pd pd' : DataLoader.Pandas) (now now' : Z) (w w1 : World) (url : string) (l : loc) :
  fst (Cache.get (dataset_cache w) now url "raw") = None ->
  DataLoader.load_data_from_url pd now w url = (w1, Ok l) ->
  (now' - now <= Cache.ttl_seconds (dataset_cache w))%Z ->
  DataLoader.load_data_from_url pd' now' w1 url = (w1, Ok l) /\
  is_Some (heap w1 !! l).
Proof.
  intros Hmiss Hload Hfresh. unfold DataLoader.load_data_from_url in Hload.
  pose proof (get_ttl_seconds (dataset_cache w) now url "raw") as Httl.
  destruct (Cache.get (dataset_cache w) now url "raw") as [cached cache'].
  cbn [fst snd] in Hmiss, Httl. subst cached.
  destruct (_ ≫= _) as [df|e]; [|discriminate].
  injection Hload as <- <-. cbn [dataset_cache next_loc heap]. split.
  - unfold DataLoader.load_data_from_url. cbn [dataset_cache next_loc heap].
    rewrite get_set_fresh by (rewrite Httl; exact Hfresh). reflexivity.
  - rewrite lookup_insert_eq. eexists. reflexivity.
Qed.

Lemma load_data_from_url_cached_witness :
  let w1 := fst (DataLoader.load_data_from_url Sample.pandas 0 boot "u") in
  DataLoader.load_data_from_url Sample.offline 300 w1 "u" = (w1, Ok 0%nat) /\
  is_Some (heap w1 !! 0%nat).
Proof.
  intros w1.
  apply (load_data_from_url_cached Sample.pandas Sample.offline 0 300 boot w1 "u" 0%nat).
  - reflexivity.
  - reflexivity.
  - simpl. lia.
Defined.

(** X14.  The date column that preprocessing settles on can be read from
    the table: it is the column asked for when the table has it, and
    otherwise the first column, in the order of the table, whose label in
    lower case contains date, time, day, month or year.  The detection
    fails only when the table has neither, with the ValueError that lists
    the columns. *)
Theorem detect_date_col_first_match (df : DataFrame) (date_col : string) :
  match DataLoader.detect_date_col df date_col with
  | Ok col =>
      (exists cells, Frame.get_column df col = Ok cells) /\
      (In date_col (Frame.columns df) /\ col = date_col
       \/ ~ In date_col (Frame.columns df) /\
          DataLoader.matches DataLoader.date_tokens col = true /\
          exists before after,
            Frame.columns df = before ++ col :: after /\
            Forall (fun c => DataLoader.matches DataLoader.date_tokens c = false) before)
  | Raise e =>
      e = DataLoader.no_date_column df /\
      ~ In date_col (Frame.columns df) /\
      Forall (fun c => DataLoader.matches DataLoader.date_tokens c = false) (Frame.columns df)
  end.
Proof.
  unfold DataLoader.detect_date_col.
  destruct (Frame.has_column df date_col) eqn:Hhas.
  - apply has_column_In in Hhas. split; [apply get_column_In, Hhas | left; auto].
  - assert (Hnot : ~ In date_col (Frame.columns df)).
    { intros Hin. apply has_column_In in Hin. congruence. }
    destruct (List.filter _ _) as [|col rest] eqn:Hfilter.
    + split; [reflexivity|]. split; [exact Hnot | apply filter_none, Hfilter].
    + apply filter_first in Hfilter as (Hmatch & before & after & Hcols & Hbefore).
      split.
      * apply get_column_In. rewrite Hcols. apply in_elt.
      * right. split; [exact Hnot|]. split; [exact Hmatch|]. eauto.
Qed.

(** X15.  The value column that preprocessing settles on is the column
    asked for when the table has it.  Otherwise it is a column of the
    table whose label contains one of the value words, a numeric or
    currency-like one whenever some such column is; only when no label
    contains a value word is it the literal sales, which the table does
    not have. *)
Theorem detect_value_col_choice (df : DataFrame) (value_col : string) :
  let col := DataLoader.detect_value_col df value_col in
  (In value_col (Frame.columns df) -> col = value_col) /\
  (~ In value_col (Frame.columns df) ->
     (In col (Frame.columns df) /\
      DataLoader.matches DataLoader.value_tokens col = true /\
      (forall c, In c (Frame.columns df) ->
                 DataLoader.matches DataLoader.value_tokens c = true ->
                 DataLoader.numeric_candidate df c = true ->
                 DataLoader.numeric_candidate df col = true))
     \/ (col = "sales"%string /\
         Forall (fun c => DataLoader.matches DataLoader.value_tokens c = false)
                (Frame.columns df))).
Proof.
  intros col. subst col. unfold DataLoader.detect_value_col.
  destruct (Frame.has_column df value_col) eqn:Hhas.
  - split; [reflexivity|]. intros Hnot. exfalso. apply Hnot, has_column_In, Hhas.
  - split; [intros Hin; apply has_column_In in Hin; congruence|]. intros _.
    set (potential := List.filter _ (Frame.columns df)).
    destruct (List.filter (DataLoader.numeric_candidate df) potential)
      as [|numeric_match rest] eqn:Hnumeric.
    + destruct potential as [|col rest] eqn:Hpotential.
      * right. split; [reflexivity | apply filter_none, Hpotential].
      * left. subst potential.
        assert (Hin : In col (List.filter (DataLoader.matches DataLoader.value_tokens)
                                (Frame.columns df)))
          by (rewrite Hpotential; left; reflexivity).
        apply filter_In in Hin as [Hin Hmatch].
        split; [exact Hin|]. split; [exact Hmatch|].
        intros c Hc Hcm Hcn. exfalso.
        apply filter_none in Hnumeric. rewrite <- Hpotential in Hnumeric.
        rewrite Forall_forall in Hnumeric.
        assert (Hcp : In c (List.filter (DataLoader.matches DataLoader.value_tokens)
                              (Frame.columns df)))
          by (apply filter_In; auto).
        apply list_elem_of_In in Hcp. specialize (Hnumeric c Hcp). congruence.
    + left.
      assert (Hin : In numeric_match (List.filter (DataLoader.numeric_candidate df) potential))
        by (rewrite Hnumeric; left; reflexivity).
      apply filter_In in Hin as [Hin Hnum]. subst potential.
      apply filter_In in Hin as [Hin Hmatch]. auto.
Qed.

(** X16.  Preprocessing writes to no table but the one it was passed, and
    leaves that table its column labels and the number of cells under
    each, whatever the outcome. *)
Theorem preprocess_data_frame
    (pd : DataLoader.Pandas) (h : gmap loc DataFrame) (df : loc)
    (date_col value_col granularity : string) :
  let h' := fst (DataLoader.preprocess_data pd h df date_col value_col granularity) in
  (forall l, l <> df -> h' !! l = h !! l) /\
  shape <$> (h' !! df) = shape <$> (h !! df).
Proof.
  intros h'. subst h'. unfold DataLoader.preprocess_data.
  destruct (h !! df) as [table|] eqn:Htable; [|cbn [fst]; rewrite Htable; auto].
  destruct (DataLoader.detect_date_col table date_col) as [dc|e];
    [|cbn [fst]; rewrite Htable; auto].
  set (vc := DataLoader.detect_value_col table value_col).
  set (table1 := match Frame.get_column table vc with
                 | Ok cells => _ | Raise _ => _ end).
  assert (Hshape1 : shape table1 = shape table).
  { subst table1. destruct (Frame.get_column table vc) as [cells|] eqn:Hcells; [|reflexivity].
    destruct (Frame.is_object cells); [|reflexivity].
    apply (get_column_set_column _ _ _ cells Hcells). apply length_map. }
  clearbody table1.
  destruct (Frame.get_column table1 dc) as [cells|e] eqn:Hcells; cbn [mbind result_bind].
  - destruct (DataLoader.parse_dates pd cells) as [parsed|e] eqn:Hparsed; cbn [fst].
    + split.
      * intros l Hl. rewrite !lookup_insert_ne by congruence. reflexivity.
      * rewrite lookup_insert_eq. cbn [fmap option_fmap option_map]. f_equal.
        rewrite <- Hshape1. apply (get_column_set_column _ _ _ cells Hcells).
        apply (length_parse_dates _ _ _ Hparsed).
    + split.
      * intros l Hl. rewrite lookup_insert_ne by congruence. reflexivity.
      * rewrite lookup_insert_eq. cbn [fmap option_fmap option_map]. f_equal. exact Hshape1.
  - cbn [fst]. split.
    + intros l Hl. rewrite lookup_insert_ne by congruence. reflexivity.
    + rewrite lookup_insert_eq. cbn [fmap option_fmap option_map]. f_equal. exact Hshape1.
Qed.

(** X17.  The two series that preprocessing returns are cut from one
    series in order of time: the train series has int(0.8 n) of the n
    points, so the validation series has at least a quarter of the
    train's length and at most one point more than that; each series has a
    timestamp per value; and every timestamp of the train series is
    before every timestamp of the validation series. *)
Theorem preprocess_data_split
    (pd : DataLoader.Pandas) (h h' : gmap loc DataFrame) (df : loc)
    (date_col value_col granularity : string) (train test : Series) :
  DataLoader.preprocess_data pd h df date_col value_col granularity = (h', Ok (train, test)) ->
  exists stamps_train stamps_test f,
    index train = DatetimeIndex stamps_train f /\
    index test = DatetimeIndex stamps_test f /\
    length stamps_train = len train /\
    length stamps_test = len test /\
    len train = DataLoader.split_index (len train + len test) /\
    (len train <= 4 * len test <= len train + 4)%nat /\
    all_before stamps_train stamps_test.
Proof.
  intros Hpre.
  apply preprocess_data_to_series in Hpre as (table & dc & vc & _ & Hseries).
  apply to_series_split in Hseries
    as (dates & values_ & stamps & series & f & _ & _ & Hlen & Hsorted & _ & -> & ->).
  exists (take (DataLoader.split_index (length series)) stamps),
         (drop (DataLoader.split_index (length series)) stamps), f.
  unfold len. cbn [index values].
  pose proof (split_index_bounds (length series)) as (Hle & Hlo & Hhi).
  unfold Timestamp in *. rewrite !length_take, !length_drop, Hlen.
  assert (Hmin : (DataLoader.split_index (length series) `min` length series)%nat
                 = DataLoader.split_index (length series)) by lia.
  rewrite !Hmin.
  replace (DataLoader.split_index (length series)
           + (length series - DataLoader.split_index (length series)))%nat
    with (length series) by lia.
  repeat split; try reflexivity; try lia.
  apply sorted_app_all_before. rewrite take_drop. exact Hsorted.
Qed.

Lemma preprocess_data_split_witness :
  exists h' train test,
    DataLoader.preprocess_data Sample.pandas Sample.store 0%nat "date" "sales" "daily"
    = (h', Ok (train, test)) /\
    exists stamps_train stamps_test f,
      index train = DatetimeIndex stamps_train f /\
      index test = DatetimeIndex stamps_test f /\
      length stamps_train = len train /\
      length stamps_test = len test /\
      len train = DataLoader.split_index (len train + len test) /\
      (len train <= 4 * len test <= len train + 4)%nat /\
      all_before stamps_train stamps_test.
Proof.
  eexists _, _, _. split; [vm_compute; reflexivity|].
  eapply (preprocess_data_split Sample.pandas Sample.store _ 0%nat "date" "sales" "daily").
  vm_compute. reflexivity.
Defined.

(** X18.  Preprocessing neither loses nor invents sales: the values of the
    train series and of the validation series add up to the total of the
    records of the table it was passed, the rows of the detected date
    column whose date parsed with the number in the detected value
    column, a missing value counting as zero, for every granularity. *)
Theorem preprocess_data_conserves_total
    (pd : DataLoader.Pandas) (h h' : gmap loc DataFrame) (df : loc)
    (date_col value_col granularity : string) (train test : Series) :
  DataLoader.preprocess_data pd h df date_col value_col granularity = (h', Ok (train, test)) ->
  exists raw dc table dates values_ date_cells value_cells,
    h !! df = Some raw /\
    DataLoader.detect_date_col raw date_col = Ok dc /\
    h' !! df = Some table /\
    Frame.get_column table dc = Ok dates /\
    Frame.get_column table (DataLoader.detect_value_col raw value_col) = Ok values_ /\
    Frame.get_column raw dc = Ok date_cells /\
    Frame.get_column raw (DataLoader.detect_value_col raw value_col) = Ok value_cells /\
    (dc <> DataLoader.detect_value_col raw value_col ->
       DataLoader.parse_dates pd date_cells = Ok dates /\
       values_ = if Frame.is_object value_cells
                 then map (DataLoader.clean_currency pd) value_cells
                 else value_cells) /\
    rsum (values train) + rsum (values test)
    = rsum (map snd (observed_records dates values_)).
Proof.
  intros Hpre.
  apply preprocess_data_columns in Hpre
    as (raw & dc & table & dates & values_ & date_cells & value_cells
        & Hraw & Hdc & Htable & Hdates & Hvalues & Hdcells & Hvcells & Hlink & Hseries).
  apply to_series_split in Hseries
    as (dates0 & values0 & stamps & series & f & Hd & Hv & _ & _ & Hsum & -> & ->).
  rewrite Hdates in Hd. injection Hd as <-.
  rewrite Hvalues in Hv. injection Hv as <-.
  rewrite cleaned_rows_observed in Hsum.
  exists raw, dc, table, dates, values_, date_cells, value_cells. cbn [values].
  rewrite <- rsum_app, take_drop.
  repeat (split; [assumption|]). exact Hsum.
Qed.

Lemma preprocess_data_conserves_total_witness :
  exists h' train test,
    DataLoader.preprocess_data Sample.pandas Sample.store 0%nat "date" "sales" "daily"
    = (h', Ok (train, test)) /\
    exists raw dc table dates values_ date_cells value_cells,
      Sample.store !! 0%nat = Some raw /\
      DataLoader.detect_date_col raw "date" = Ok dc /\
      h' !! 0%nat = Some table /\
      Frame.get_column table dc = Ok dates /\
      Frame.get_column table (DataLoader.detect_value_col raw "sales") = Ok values_ /\
      Frame.get_column raw dc = Ok date_cells /\
      Frame.get_column raw (DataLoader.detect_value_col raw "sales") = Ok value_cells /\
      (dc <> DataLoader.detect_value_col raw "sales" ->
         DataLoader.parse_dates Sample.pandas date_cells = Ok dates /\
         values_ = if Frame.is_object value_cells
                   then map (DataLoader.clean_currency Sample.pandas) value_cells
                   else value_cells) /\
      rsum (values train) + rsum (values test)
      = rsum (map snd (observed_records dates values_)).
Proof.
  eexists _, _, _. split; [vm_compute; reflexivity|].
  eapply (preprocess_data_conserves_total Sample.pandas Sample.store _ 0%nat
            "date" "sales" "daily").
  vm_compute. reflexivity.
Defined.

(** ** The ARIMA forecaster: the choice of the orders *)

Section ArimaFurther.
Import Arima.
Variable sm : Statsmodels.

(** The loop over the candidates keeps the strongest autocorrelation
  above the threshold it started from. *)
Lemma best_candidate_spec acf_values cands : forall best_period best_acf,
let r := best_candidate acf_values cands best_period best_acf in
best_acf <= snd r /\
Forall (fun c => nth c acf_values 0 <= snd r) cands /\
(r = (best_period, best_acf)
 \/ In (fst r) cands /\ snd r = nth (fst r) acf_values 0 /\ best_acf < snd r).
Proof.
induction cands as [|period rest IH]; intros bp ba; cbn [best_candidate].
- cbv zeta. cbn [fst snd]. split; [lra|]. split; [constructor | left; reflexivity].
- destruct (gtb (nth period acf_values 0) ba) eqn:Hgt.
  + apply gtb_true in Hgt. specialize (IH period (nth period acf_values 0)).
    cbv zeta in IH |- *. destruct IH as (Hle & Hall & Hcase).
    split; [lra|]. split; [constructor; [exact Hle | exact Hall]|].
    right. destruct Hcase as [Heq | (Hin & Heq & Hlt)].
    * rewrite Heq. cbn [fst snd]. split; [left; reflexivity|]. split; [reflexivity | lra].
    * split; [right; exact Hin|]. split; [exact Heq | lra].
  + apply gtb_false in Hgt. specialize (IH bp ba). cbv zeta in IH |- *.
    destruct IH as (Hle & Hall & Hcase).
    split; [exact Hle|]. split; [constructor; [lra | exact Hall]|].
    destruct Hcase as [Heq | (Hin & Heq & Hlt)]; [left; exact Heq|].
    right. split; [right; exact Hin | split; assumption].
Qed.

Lemma candidates_known data cands c :
candidates sm data = Ok cands -> In c cands ->
In c [3; 4; 6; 7; 12; 13; 14; 30; 52]%nat.
Proof.
assert (Hfreq : forall freq, In c (candidates_of_freq freq) ->
                             In c [3; 4; 6; 7; 12; 13; 14; 30; 52]%nat).
{ intros freq. unfold candidates_of_freq.
  destruct freq as [f|]; [repeat destruct (char_in _ f)|]; simpl; tauto. }
unfold candidates. destruct (index data) as [|stamps [f|]].
- intros [= <-]. simpl; tauto.
- intros [= <-]. apply (Hfreq (Some f)).
- intros H. apply bind_Ok in H as (freq & _ & [= <-]). apply (Hfreq freq).
Qed.

Lemma detect_seasonality_cases data :
detect_seasonality sm data = (0%nat, false) \/
exists period acf_values cands,
  detect_seasonality sm data = (period, true) /\
  (0 < period)%nat /\ (20 <= len data)%nat /\
  acf sm (values data) (Nat.min (len data / 2) 50) = Some acf_values /\
  candidates sm data = Ok cands /\
  In period cands /\ (period < length acf_values)%nat /\
  0.3 < nth period acf_values 0 /\
  (forall c, In c cands -> (c < length acf_values)%nat ->
             nth c acf_values 0 <= nth period acf_values 0).
Proof.
unfold detect_seasonality.
destruct (len data <? 20)%nat eqn:Hlen; [left; reflexivity|].
apply Nat.ltb_ge in Hlen.
destruct (acf sm (values data) _) as [acf_values|] eqn:Hacf; [|left; reflexivity].
cbn [lib_call mbind result_bind].
destruct (candidates sm data) as [cands|e] eqn:Hcands; [|left; reflexivity].
cbn [mbind result_bind].
set (cands' := List.filter (fun c => (c <? length acf_values)%nat) cands).
pose proof (best_candidate_spec acf_values cands' 0%nat 0.3) as Hspec.
destruct (best_candidate acf_values cands' 0%nat 0.3) as [bp ba].
cbv zeta in Hspec. cbn [fst snd] in Hspec. destruct Hspec as (_ & Hall & Hcase).
destruct (0 <? bp)%nat eqn:Hpos.
2:{ apply Nat.ltb_ge in Hpos. assert (bp = 0%nat) by lia. subst bp.
    cbn [andb]. left; reflexivity. }
apply Nat.ltb_lt in Hpos.
destruct Hcase as [Heq | (Hin & Heq & Hlt)]; [injection Heq as -> _; lia|].
assert (Hfound : exists period acf_values0 cands0,
           (bp, true) = (period, true) /\
           (0 < period)%nat /\ (20 <= len data)%nat /\
           Some acf_values = Some acf_values0 /\
           Ok cands = Ok cands0 /\
           In period cands0 /\ (period < length acf_values0)%nat /\
           0.3 < nth period acf_values0 0 /\
           (forall c, In c cands0 -> (c < length acf_values0)%nat ->
                      nth c acf_values0 0 <= nth period acf_values0 0)).
{ exists bp, acf_values, cands. subst cands'.
  apply filter_In in Hin as [Hin Hrange]. apply Nat.ltb_lt in Hrange.
  repeat split; try assumption; try reflexivity; try lra.
  intros c Hc Hcr. rewrite <- Heq. rewrite Forall_forall in Hall.
  apply Hall. apply list_elem_of_In, filter_In. split; [exact Hc|].
  apply Nat.ltb_lt, Hcr. }
cbn [andb].
destruct (2 * bp <=? len data)%nat; [|right; exact Hfound].
destruct (seasonal_strength sm (values data) bp) as [strength|]; [|right; exact Hfound].
destruct (ltb strength 0.1); [left; reflexivity | right; exact Hfound].
Qed.

Lemma raw_forecast_steps self data horizon auto_order predictions :
raw_forecast sm self data horizon auto_order = Ok predictions ->
exists fitted, forecast sm fitted horizon = Some predictions.
Proof.
unfold raw_forecast. intros H.
apply bind_Ok in H as ([ord seasonal] & _ & H).
apply bind_Ok in H as (model & _ & H).
apply bind_Ok in H as (fitted & _ & H).
exists fitted. destruct (forecast sm fitted horizon); [|discriminate].
injection H as <-. reflexivity.
Qed.

Lemma length_safety_rails data horizon predictions :
length predictions = horizon ->
length (safety_rails data horizon predictions) = horizon.
Proof.
intros Hlen. unfold safety_rails.
destruct (empty data); [rewrite length_map; exact Hlen|].
destruct (existsb _ _); [apply length_np_full | rewrite !length_map; exact Hlen].
Qed.

End ArimaFurther.

(** X19.  Seasonality detection reports either no seasonality, with the
    period 0, or a period of the candidate tables for which the series
    has at least 20 points, that is within the computed autocorrelations,
    and whose autocorrelation is above 0.3 and the strongest among the
    candidates of the series within range. *)
Theorem detect_seasonality_strongest (sm : Arima.Statsmodels) (data : Series) :
  let period := fst (Arima.detect_seasonality sm data) in
  if snd (Arima.detect_seasonality sm data) then
    (0 < period)%nat /\ (20 <= len data)%nat /\
    In period [3; 4; 6; 7; 12; 13; 14; 30; 52]%nat /\
    exists acf_values cands,
      Arima.acf sm (values data) (Nat.min (len data / 2) 50) = Some acf_values /\
      Arima.candidates sm data = Ok cands /\
      In period cands /\ (period < length acf_values)%nat /\
      0.3 < nth period acf_values 0 /\
      (forall c, In c cands -> (c < length acf_values)%nat ->
                 nth c acf_values 0 <= nth period acf_values 0)
  else period = 0%nat.
Proof.
  intros period. subst period.
  destruct (detect_seasonality_cases sm data)
    as [-> | (period & acf_values & cands & -> & Hpos & Hlen & Hacf & Hcands & Hin & Hrest)];
    [reflexivity|].
  cbn [fst snd]. split; [exact Hpos|]. split; [exact Hlen|].
  split; [apply (candidates_known sm data cands); assumption|].
  exists acf_values, cands. auto.
Qed.

(** X20.  The automatic choice of the orders raises only when the
    unit-root test does.  Otherwise the order is (1, d, 1), with d = 0
    when the p-value of the test is below 0.05 and d = 1 when not, and
    the seasonal order is (0, 0, 0, 0) or (1, 1, 1, s) for a detected
    period s of which the series holds two cycles, and at least 20
    points. *)
Theorem auto_select_order_shape (sm : Arima.Statsmodels) (data : Series) :
  match Arima.auto_select_order sm data with
  | Ok (ord, seasonal) =>
      (exists p_value,
          Arima.adfuller sm (values data) = Some p_value /\
          ord = (1, if ltb p_value 0.05 then 0 else 1, 1)%nat) /\
      (seasonal = (0, 0, 0, 0)%nat
       \/ exists s,
            seasonal = (1, 1, 1, s)%nat /\
            Arima.detect_seasonality sm data = (s, true) /\
            In s [3; 4; 6; 7; 12; 13; 14; 30; 52]%nat /\
            (2 * s <= len data)%nat /\ (20 <= len data)%nat)
  | Raise e => Arima.adfuller sm (values data) = None /\ e = LibraryError
  end.
Proof.
  unfold Arima.auto_select_order.
  destruct (Arima.adfuller sm (values data)) as [p_value|]; [|split; reflexivity].
  cbn [lib_call mbind result_bind].
  destruct (detect_seasonality_cases sm data)
    as [-> | (period & acf_values & cands & -> & Hpos & Hlen & _ & Hcands & Hin & _)].
  - cbn [andb]. split; [eauto | left; reflexivity].
  - apply Nat.ltb_lt in Hpos. rewrite Hpos. cbn [andb].
    split; [eauto|].
    destruct (2 * period <=? len data)%nat eqn:Hcycles; [|left; reflexivity].
    apply Nat.leb_le in Hcycles. right. exists period.
    split; [reflexivity|]. split; [reflexivity|].
    split; [apply (candidates_known sm data cands); assumption|]. auto.
Qed.

(** X21.  With a library whose forecast holds one value per step, the
    ARIMA forecaster returns exactly [horizon] values: the forecast
    through the safety rails, or the naive forecast. *)
Theorem arima_fit_predict_length
    (sm : Arima.Statsmodels) (self : Arima.ARIMAForecaster) (data : Series)
    (horizon : nat) (auto_order : bool) :
  (forall fitted steps predictions,
      Arima.forecast sm fitted steps = Some predictions -> length predictions = steps) ->
  length (Arima.fit_predict sm self data horizon auto_order) = horizon.
Proof.
  intros Hsteps. unfold Arima.fit_predict.
  destruct (Arima.raw_forecast sm self data horizon auto_order) as [predictions|e] eqn:Hraw.
  - apply raw_forecast_steps in Hraw as [fitted Hforecast].
    apply length_safety_rails, (Hsteps fitted), Hforecast.
  - apply length_np_full.
Qed.

Lemma arima_fit_predict_length_witness :
  length (Arima.fit_predict Sample.steady Arima.init (mkSeries RangeIndex [1; 2]) 3 true)
  = 3%nat.
Proof.
  apply (arima_fit_predict_length Sample.steady Arima.init (mkSeries RangeIndex [1; 2]) 3 true).
  intros fitted steps predictions [= <-]. apply repeat_length.
Defined.

(** ** The boosted-tree forecaster: when the model is trained *)

Section XGBoostFurther.
Import XGBoost.
Variable lib : Learner.

Lemma filter_seq_from (f : nat -> bool) (k n : nat) :
(forall i, (i < k)%nat -> f i = false) -> (k <= n)%nat ->
(length (List.filter f (seq 0 n)) <= n - k)%nat.
Proof.
intros Hf Hk. replace n with (k + (n - k))%nat at 1 by lia.
rewrite seq_app, List.filter_app, length_app.
assert (Hnone : List.filter f (seq 0 k) = []).
{ clear Hk. induction k as [|k IH]; [reflexivity|].
  rewrite seq_S, List.filter_app, IH by (intros i Hi; apply Hf; lia).
  cbn [List.filter app Nat.add]. rewrite Hf by lia. reflexivity. }
rewrite Hnone. cbn [length Nat.add].
pose proof (filter_length_le f (seq (0 + k) (n - k))) as Hle.
rewrite length_seq in Hle. exact Hle.
Qed.

(** A lag or a rolling window of [k] periods that fits the series leaves
  the first [k] rows of the features incomplete. *)
Lemma row_complete_before self granularity (sales : list R) (k i : nat) :
In k (lag_periods self granularity) \/ In k (rolling_windows granularity) ->
(k <= length sales)%nat -> (i < k)%nat ->
row_complete self granularity sales i = false.
Proof.
intros Hk Hfits Hi.
destruct (row_complete self granularity sales i) eqn:Hrow; [exfalso|reflexivity].
unfold row_complete in Hrow.
apply andb_true_iff in Hrow as [Hrow _].
apply andb_true_iff in Hrow as [Hlags Hwindows].
rewrite forallb_forall in Hlags, Hwindows.
assert (Hfalse : (negb (k <=? length sales)%nat || (k <=? i)%nat) = false).
{ apply orb_false_iff. split.
  - apply negb_false_iff, Nat.leb_le, Hfits.
  - apply Nat.leb_gt, Hi. }
destruct Hk as [Hk|Hk];
  [specialize (Hlags k Hk) | specialize (Hwindows k Hk)]; cbv beta in *; congruence.
Qed.

Lemma complete_rows_le self granularity (sales : list R) (k : nat) :
In k (lag_periods self granularity) \/ In k (rolling_windows granularity) ->
(k <= length sales)%nat ->
(complete_rows self granularity sales <= length sales - k)%nat.
Proof.
intros Hk Hfits. unfold complete_rows. apply filter_seq_from; [|exact Hfits].
intros i Hi. apply (row_complete_before _ _ _ k); assumption.
Qed.

Lemma complete_rows_le_length self granularity (sales : list R) :
(complete_rows self granularity sales <= length sales)%nat.
Proof.
unfold complete_rows.
pose proof (filter_length_le (row_complete self granularity sales)
              (seq 0 (length sales))) as Hle.
rewrite length_seq in Hle. exact Hle.
Qed.

(** With at most 21 points, fewer than ten rows are complete, whatever
  the granularity. *)
Lemma complete_rows_short self granularity (sales : list R) :
(length sales <= 21)%nat -> (complete_rows self granularity sales < 10)%nat.
Proof.
intros Hn.
destruct (le_lt_dec 10 (length sales)) as [Hten|Hfew];
  [|pose proof (complete_rows_le_length self granularity sales); lia].
assert (Hk : exists k, In k (rolling_windows granularity) /\
                       (k <= length sales)%nat /\ (length sales - k < 10)%nat).
{ unfold rolling_windows.
  destruct (String.eqb granularity "daily");
    [|destruct (String.eqb granularity "weekly");
      [|destruct (String.eqb granularity "monthly")]].
  - destruct (le_lt_dec 14 (length sales));
      [exists 14%nat | exists 7%nat]; (split; [simpl; tauto | lia]).
  - destruct (le_lt_dec 12 (length sales));
      [exists 12%nat | exists 4%nat]; (split; [simpl; tauto | lia]).
  - destruct (le_lt_dec 12 (length sales));
      [exists 12%nat | exists 6%nat]; (split; [simpl; tauto | lia]).
  - destruct (le_lt_dec 14 (length sales));
      [exists 14%nat | exists 7%nat]; (split; [simpl; tauto | lia]). }
destruct Hk as (k & Hin & Hfits & Hleft).
pose proof (complete_rows_le self granularity sales k (or_intror Hin) Hfits). lia.
Qed.

Lemma fit_predict_fallback self (data : Series) horizon granularity :
values data <> [] ->
(complete_rows self granularity (values data) < 10)%nat ->
fit_predict lib self data horizon granularity
= Ok (np_full horizon (List.last (values data) 0)).
Proof.
intros Hne Hrows. unfold fit_predict.
apply Nat.ltb_lt in Hrows. rewrite Hrows.
rewrite (naive_fallback_Ok _ _ Hne). reflexivity.
Qed.

End XGBoostFurther.

(** X22.  The boosted-tree model is trained only on a history long enough
    for ten complete rows of features.  On a non-empty series of at most
    21 points the forecast is the naive one, the last value repeated,
    whatever the learner and the granularity; so it is on a daily series
    of at most 23 points or of 30 to 39 points, where the lag of 30 days
    comes into the features, and on a weekly series of 26 to 35 or of 52
    to 61 points. *)
Theorem xgboost_short_history
    (lib : XGBoost.Learner) (self : XGBoost.XGBoostForecaster)
    (data : Series) (horizon : nat) (granularity : string) :
  values data <> [] ->
  ((len data <= 21)%nat
   \/ granularity = "daily"%string
      /\ ((len data <= 23)%nat \/ (30 <= len data <= 39)%nat)
   \/ granularity = "weekly"%string
      /\ ((26 <= len data <= 35)%nat \/ (52 <= len data <= 61)%nat)) ->
  XGBoost.fit_predict lib self data horizon granularity
  = Ok (np_full horizon (List.last (values data) 0)).
Proof.
  intros Hne Hcase. apply fit_predict_fallback; [exact Hne|].
  unfold len in Hcase.
  destruct Hcase as [Hn | [[-> Hn] | [-> Hn]]].
  - apply complete_rows_short, Hn.
  - destruct Hn as [Hn|Hn].
    + destruct (le_lt_dec (length (values data)) 21) as [Hshort|Hlong];
        [apply complete_rows_short, Hshort|].
      pose proof (complete_rows_le self "daily" (values data) 14) as Hle.
      cbv beta in Hle. specialize (Hle ltac:(left; simpl; tauto) ltac:(lia)). lia.
    + pose proof (complete_rows_le self "daily" (values data) 30) as Hle.
      cbv beta in Hle. specialize (Hle ltac:(left; simpl; tauto) ltac:(lia)). lia.
  - destruct Hn as [Hn|Hn].
    + pose proof (complete_rows_le self "weekly" (values data) 26) as Hle.
      cbv beta in Hle. specialize (Hle ltac:(right; simpl; tauto) ltac:(lia)). lia.
    + pose proof (complete_rows_le self "weekly" (values data) 52) as Hle.
      cbv beta in Hle. specialize (Hle ltac:(left; simpl; tauto) ltac:(lia)). lia.
Qed.

Lemma xgboost_short_history_witness :
  XGBoost.fit_predict (XGBoost.constant_learner 7) XGBoost.init
    (mkSeries RangeIndex (repeat 1 35)) 3 "daily"
  = Ok (np_full 3 (List.last (repeat 1 35) 0)).
Proof.
  apply (xgboost_short_history (XGBoost.constant_learner 7) XGBoost.init
           (mkSeries RangeIndex (repeat 1 35)) 3 "daily").
  - discriminate.
  - right. left. split; [reflexivity|]. right. unfold len. simpl. lia.
Defined.

(** X23.  On a series without dates the boosted-tree forecaster never
    returns a forecast of its model: the date of the next period cannot
    be computed from an integer label, and the result is the naive
    forecast, the last value repeated.  On a series without values, with
    or without dates, it raises IndexError. *)
Theorem xgboost_without_dates
    (lib : XGBoost.Learner) (self : XGBoost.XGBoostForecaster)
    (idx : Index) (vals : list R) (horizon : nat) (granularity : string) :
  XGBoost.fit_predict lib self (mkSeries RangeIndex vals) horizon granularity
  = match vals with
    | [] => Raise IndexError
    | _ => Ok (np_full horizon (List.last vals 0))
    end
  /\ XGBoost.fit_predict lib self (mkSeries idx []) horizon granularity = Raise IndexError.
Proof.
  split; [|reflexivity].
  destruct vals as [|v vals]; [reflexivity|].
  set (data := mkSeries RangeIndex (v :: vals)).
  assert (Hne : values data <> []) by discriminate.
  assert (Hnaive : XGBoost.naive_fallback data horizon
                   = Ok (np_full horizon (List.last (v :: vals) 0)))
    by apply (naive_fallback_Ok data horizon Hne).
  unfold XGBoost.fit_predict.
  destruct (_ <? 10)%nat; [rewrite Hnaive; reflexivity|].
  destruct (XGBoost.train lib self data granularity) as [model|];
    cbn [lib_call mbind result_bind try_except]; [|exact Hnaive].
  destruct horizon as [|horizon]; [reflexivity|].
  cbn [XGBoost.recursive_forecast].
  destruct (XGBoost.predict lib self model data granularity) as [raw|];
    cbn [lib_call mbind result_bind try_except XGBoost.extend index data]; exact Hnaive.
Qed.

(** ** The orchestrator: ties, dates and the conditions of success *)

Section ServiceFurther.
Import Calendar ForecastService.
Open Scope R_scope.

Lemma key_gt_spec x y :
key_gt x y = true
<-> accuracy x > accuracy y \/ (accuracy x = accuracy y /\ r2 x > r2 y).
Proof.
unfold key_gt.
rewrite orb_true_iff, andb_true_iff, negb_true_iff, neqb_false, !gtb_true.
reflexivity.
Qed.

Lemma key_gt_trans x y z :
key_gt x y = true -> key_gt y z = true -> key_gt x z = true.
Proof.
rewrite !key_gt_spec. intros [H1|[H1 H1']] [H2|[H2 H2']].
- left. lra.
- left. lra.
- left. lra.
- right. split; [congruence | lra].
Qed.

Lemma key_gt_over x y z :
key_gt x z = true -> key_gt y z = false -> key_gt x y = true.
Proof.
intros H1 H2. apply key_gt_false in H2. unfold key_le in H2.
apply key_gt_spec in H1. apply key_gt_spec.
destruct H1 as [H1|[H1 H1']]; destruct H2 as [H2|[H2 H2']].
- left. lra.
- left. lra.
- left. lra.
- right. split; [congruence | lra].
Qed.

Lemma seasonal_naive_loop_length data p steps preds :
Baseline.seasonal_naive_loop data p steps = Ok preds -> length preds = length steps.
Proof.
revert preds. induction steps as [|i steps IH]; intros preds; cbn [Baseline.seasonal_naive_loop].
- intros [= <-]. reflexivity.
- intros H. apply bind_Ok in H as (v & _ & H). apply bind_Ok in H as (vs & Hvs & H).
  injection H as <-. simpl. rewrite (IH _ Hvs). reflexivity.
Qed.

Lemma take_grid o k : forall n lo, (k <= n)%nat -> take k (grid o lo n) = grid o lo k.
Proof.
induction k as [|k IH]; intros n lo Hk; [reflexivity|].
destruct n as [|n]; [lia|]. rewrite !grid_S. cbn [take]. rewrite IH by lia. reflexivity.
Qed.

Lemma drop_grid o k : forall n lo,
(k <= n)%nat -> drop k (grid o lo n) = grid o (lo + Z.of_nat k)%Z (n - k).
Proof.
induction k as [|k IH]; intros n lo Hk.
- cbn [drop]. rewrite Z.add_0_r, Nat.sub_0_r. reflexivity.
- destruct n as [|n]; [lia|]. rewrite grid_S. cbn [drop]. rewrite IH by lia.
  replace (lo + 1 + Z.of_nat k)%Z with (lo + Z.of_nat (S k))%Z by lia. reflexivity.
Qed.

Lemma last_grid o lo k d :
List.last (grid o lo (S k)) d = label o (lo + Z.of_nat k)%Z.
Proof.
unfold grid. rewrite seq_S, map_app. cbn [map Nat.add]. apply last_last.
Qed.

Lemma last_date_datetime train stamps f last :
index train = DatetimeIndex stamps f ->
last_date train = Ok last ->
stamps <> [] /\ last = List.last stamps 0%Z.
Proof.
unfold last_date. intros ->.
destruct stamps as [|t stamps]; [discriminate|].
intros [= <-]. split; [discriminate | reflexivity].
Qed.

(** A series has a last label when its index is not empty. *)
Lemma last_date_labelled train last :
last_date train = Ok last ->
match index train with
| DatetimeIndex stamps _ => stamps <> []
| RangeIndex => values train <> []
end.
Proof.
unfold last_date, empty. destruct (index train) as [|stamps f].
- destruct (values train); [discriminate|]. intros _. discriminate.
- destruct stamps; [discriminate|]. intros _. discriminate.
Qed.

Lemma future_dates_Ok granularity last horizon dates :
future_dates granularity last horizon = Ok dates ->
In granularity ["daily"; "weekly"; "monthly"]%string.
Proof.
unfold future_dates.
destruct (String.eqb granularity "daily") eqn:Hd;
  [apply String.eqb_eq in Hd; subst; simpl; tauto|].
destruct (String.eqb granularity "weekly") eqn:Hw;
  [apply String.eqb_eq in Hw; subst; simpl; tauto|].
destruct (String.eqb granularity "monthly") eqn:Hm;
  [apply String.eqb_eq in Hm; subst; simpl; tauto|].
discriminate.
Qed.

Lemma run_model_Ok libs model_type train horizon granularity preds :
run_model libs model_type train horizon granularity = Ok preds ->
In model_type concrete_models.
Proof.
unfold run_model, concrete_models.
destruct (String.eqb model_type "baseline") eqn:Hb;
  [apply String.eqb_eq in Hb; subst; simpl; tauto|].
destruct (String.eqb model_type "arima") eqn:Ha;
  [apply String.eqb_eq in Ha; subst; simpl; tauto|].
destruct (String.eqb model_type "xgboost") eqn:Hx;
  [apply String.eqb_eq in Hx; subst; simpl; tauto|].
discriminate.
Qed.

(** The steps of [forecast] when it returns. *)
Lemma forecast_Ok libs train test model_type horizon granularity r :
forecast libs train test model_type horizon granularity = Ok r ->
exists model preds,
  (model_type = "auto"%string \/ model = model_type) /\
  run_model libs model train horizon granularity = Ok preds /\
  format train granularity horizon preds = Ok (predictions r) /\
  metrics r = score train test preds horizon.
Proof.
unfold forecast. intros H.
apply bind_Ok in H as (model & Hmodel & H).
apply bind_Ok in H as (preds & Hpreds & H).
apply bind_Ok in H as (dated & Hdated & H).
injection H as <-. exists model, preds. cbn [predictions metrics].
repeat split; try assumption.
destruct (String.eqb model_type "auto") eqn:Hauto.
- left. apply String.eqb_eq, Hauto.
- right. injection Hmodel as <-. reflexivity.
Qed.

End ServiceFurther.

(** X24.  The selection keeps the first of the models of the greatest
    score, in the order baseline, arima, xgboost: baseline is selected
    exactly when neither of the others outranks it, arima when it
    outranks baseline and xgboost does not outrank arima, and xgboost when
    it outranks both.  A later model needs a strictly greater (accuracy,
    R²) to be selected: on a tie the earlier model stays. *)
Theorem auto_select_model_first_of_greatest
    (libs : ForecastService.Libraries) (train test : Series) (granularity : string) :
  let ev := ForecastService.evaluate libs train test granularity (Nat.min (len test) 30) in
  let outranks := fun a b => ForecastService.key_gt (ev a) (ev b) in
  exists best model_scores,
    ForecastService.auto_select_model libs train test granularity = Ok (best, model_scores) /\
    (best = "baseline"%string
     <-> outranks "arima"%string "baseline"%string = false /\
         outranks "xgboost"%string "baseline"%string = false) /\
    (best = "arima"%string
     <-> outranks "arima"%string "baseline"%string = true /\
         outranks "xgboost"%string "arima"%string = false) /\
    (best = "xgboost"%string
     <-> outranks "xgboost"%string "baseline"%string = true /\
         outranks "xgboost"%string "arima"%string = true).
Proof.
  intros ev outranks. subst outranks. cbv beta.
  unfold ForecastService.auto_select_model, ForecastService.concrete_models.
  cbn [map ForecastService.py_max ForecastService.max_from mbind result_bind fst snd].
  fold ev. eexists _, _. split; [reflexivity|].
  destruct (ForecastService.key_gt (ev "arima"%string) (ev "baseline"%string)) eqn:Hab;
    cbn [snd].
  - destruct (ForecastService.key_gt (ev "xgboost"%string) (ev "arima"%string)) eqn:Hxa;
      cbn [fst].
    + pose proof (key_gt_trans _ _ _ Hxa Hab) as Hxb. rewrite Hxb.
      repeat split; try discriminate; intros []; discriminate.
    + repeat split; try discriminate; intros []; discriminate.
  - destruct (ForecastService.key_gt (ev "xgboost"%string) (ev "baseline"%string)) eqn:Hxb;
      cbn [fst].
    + pose proof (key_gt_over _ _ _ Hxb Hab) as Hxa. rewrite Hxa.
      repeat split; try discriminate; intros []; discriminate.
    + repeat split; try discriminate; intros []; discriminate.
Qed.

(** X25.  For the daily and the weekly granularity the dates of the
    forecast continue the grid of the training series where it ends: the
    training series lies on the periods from some [lo], the validation
    series on the periods that follow it, and the i-th prediction is dated
    with the i-th period after the training series, so that the first
    predictions carry the timestamps of the validation series. *)
Theorem forecast_dates_follow_train
    (pd : DataLoader.Pandas) (h h' : gmap loc DataFrame) (df : loc)
    (date_col value_col granularity : string) (o : Calendar.offset)
    (train test : Series) (horizon : nat) (preds : list R)
    (dated : list (Timestamp * R)) :
  (granularity = "daily"%string /\ o = Calendar.Day
   \/ granularity = "weekly"%string /\ o = Calendar.WeekSun) ->
  DataLoader.preprocess_data pd h df date_col value_col granularity
  = (h', Ok (train, test)) ->
  ForecastService.format train granularity horizon preds = Ok dated ->
  exists lo f,
    index train = DatetimeIndex (Calendar.grid o lo (len train)) f /\
    index test
    = DatetimeIndex (Calendar.grid o (lo + Z.of_nat (len train))%Z (len test)) f /\
    dated = zip (Calendar.grid o (lo + Z.of_nat (len train))%Z horizon) preds.
Proof.
  intros Hcase Hpre Hformat.
  assert (Hrule : exists f, DataLoader.resample_rule granularity = Some (o, f)).
  { destruct Hcase as [[-> ->]|[-> ->]]; eexists; reflexivity. }
  destruct Hrule as [f Hrule].
  apply preprocess_data_to_series in Hpre as (table & dc & vc & _ & Hseries).
  apply (to_series_regular_grid _ _ _ _ o f) in Hseries
    as (dates & values_ & stamps & series & _ & _ & -> & -> & Hgrid); [|exact Hrule].
  destruct Hgrid as (Hlen & (lo & Hstamps) & _).
  pose proof (split_index_bounds (length series)) as (Hle & _ & _).
  set (k := DataLoader.split_index (length series)) in *.
  exists lo, (Some f). unfold len. cbn [index values].
  rewrite length_take, length_drop. replace (k `min` length series)%nat with k by lia.
  rewrite Hstamps, take_grid, drop_grid, <- Hlen by lia.
  split; [reflexivity|]. split; [reflexivity|].
  unfold ForecastService.format in Hformat.
  apply bind_Ok in Hformat as (last & Hlast & Hformat).
  apply bind_Ok in Hformat as (future & Hfuture & Hformat).
  injection Hformat as <-. f_equal.
  apply (last_date_datetime _ (take k stamps) (Some f)) in Hlast as (Hne & ->);
    [|reflexivity].
  rewrite Hstamps, take_grid in Hne, Hfuture by lia.
  destruct k as [|k]; [contradiction Hne; reflexivity|].
  rewrite last_grid in Hfuture.
  replace (lo + Z.of_nat (S k))%Z with (lo + Z.of_nat k + 1)%Z by lia.
  destruct Hcase as [[-> ->]|[-> ->]].
  - rewrite future_dates_daily in Hfuture. injection Hfuture as <-. reflexivity.
  - rewrite future_dates_weekly in Hfuture. injection Hfuture as <-. reflexivity.
Qed.

Lemma forecast_dates_follow_train_witness :
  exists h' train test dated,
    DataLoader.preprocess_data Sample.pandas Sample.store 0%nat "date" "sales" "daily"
    = (h', Ok (train, test)) /\
    ForecastService.format train "daily" 3 [1; 2; 3] = Ok dated /\
    exists lo f,
      index train = DatetimeIndex (Calendar.grid Calendar.Day lo (len train)) f /\
      index test
      = DatetimeIndex (Calendar.grid Calendar.Day (lo + Z.of_nat (len train))%Z (len test)) f /\
      dated = zip (Calendar.grid Calendar.Day (lo + Z.of_nat (len train))%Z 3) [1; 2; 3].
Proof.
  eexists _, _, _, _. split; [vm_compute; reflexivity|].
  split; [vm_compute; reflexivity|].
  eapply (forecast_dates_follow_train Sample.pandas Sample.store _ 0%nat
            "date" "sales" "daily" Calendar.Day).
  - left. split; reflexivity.
  - vm_compute. reflexivity.
  - vm_compute. reflexivity.
Defined.

(** X26.  A forecast is returned only for a training series that has a
    last label (a datetime index with at least one timestamp, or an
    integer index over at least one value), for one of the granularities
    daily, weekly and monthly, and for one of the model types auto,
    baseline, arima and xgboost; it then holds at most [horizon] dated
    predictions. *)
Theorem forecast_requirements
    (libs : ForecastService.Libraries) (train test : Series)
    (model_type : string) (horizon : nat) (granularity : string)
    (r : ForecastService.ForecastResult) :
  ForecastService.forecast libs train test model_type horizon granularity = Ok r ->
  match index train with
  | DatetimeIndex stamps _ => stamps <> []
  | RangeIndex => values train <> []
  end /\
  In granularity ["daily"; "weekly"; "monthly"]%string /\
  In model_type ["auto"; "baseline"; "arima"; "xgboost"]%string /\
  (length (ForecastService.predictions r) <= horizon)%nat.
Proof.
  intros H.
  apply forecast_Ok in H as (model & preds & Hmodel & Hrun & Hformat & _).
  pose proof (length_format _ _ _ _ _ Hformat) as Hlen.
  unfold ForecastService.format in Hformat.
  apply bind_Ok in Hformat as (last & Hlast & Hformat).
  apply bind_Ok in Hformat as (future & Hfuture & _).
  split; [apply (last_date_labelled _ _ Hlast)|].
  split; [apply (future_dates_Ok _ _ _ _ Hfuture)|].
  split; [|lia].
  destruct Hmodel as [->| <-]; [simpl; tauto|].
  apply run_model_Ok in Hrun. right. exact Hrun.
Qed.

Lemma forecast_requirements_witness :
  let train := mkSeries (DatetimeIndex [19723%Z] (Some "D"%string)) [1] in
  exists r,
    ForecastService.forecast Sample.libraries train Sample.no_history "baseline" 2 "daily"
    = Ok r /\
    match index train with
    | DatetimeIndex stamps _ => stamps <> []
    | RangeIndex => values train <> []
    end /\
    In "daily"%string ["daily"; "weekly"; "monthly"]%string /\
    In "baseline"%string ["auto"; "baseline"; "arima"; "xgboost"]%string /\
    (length (ForecastService.predictions r) <= 2)%nat.
Proof.
  intros train. eexists. split; [vm_compute; reflexivity|].
  apply (forecast_requirements Sample.libraries train Sample.no_history "baseline" 2 "daily").
  vm_compute. reflexivity.
Defined.

(** X27.  With the model type baseline or xgboost, a forecast that is
    returned holds exactly [horizon] dated predictions. *)
Theorem forecast_count
    (libs : ForecastService.Libraries) (train test : Series)
    (model_type : string) (horizon : nat) (granularity : string)
    (r : ForecastService.ForecastResult) :
  model_type = "baseline"%string \/ model_type = "xgboost"%string ->
  ForecastService.forecast libs train test model_type horizon granularity = Ok r ->
  length (ForecastService.predictions r) = horizon.
Proof.
  intros Hmt H.
  apply forecast_Ok in H as (model & preds & Hmodel & Hrun & Hformat & _).
  rewrite (length_format _ _ _ _ _ Hformat).
  assert (Hsame : model = model_type).
  { destruct Hmodel as [->|Hmodel]; [destruct Hmt; discriminate | exact Hmodel]. }
  subst model. enough (length preds = horizon) by lia.
  unfold ForecastService.run_model in Hrun.
  destruct Hmt as [->| ->]; cbn [String.eqb Ascii.eqb Bool.eqb] in Hrun.
  - unfold Baseline.fit_predict in Hrun. cbn [String.eqb Ascii.eqb Bool.eqb] in Hrun.
    apply seasonal_naive_loop_length in Hrun. rewrite Hrun. apply length_seq.
  - destruct (values train) as [|v vals] eqn:Hvalues.
    + assert (Hraise : XGBoost.fit_predict (ForecastService.learner libs) XGBoost.init
                         train horizon granularity = Raise IndexError).
      { unfold XGBoost.fit_predict, XGBoost.naive_fallback. rewrite Hvalues. reflexivity. }
      rewrite Hraise in Hrun. discriminate.
    + assert (Hne : values train <> []) by (rewrite Hvalues; discriminate).
      destruct (fit_predict_cases (ForecastService.learner libs) XGBoost.init
                  train horizon granularity Hne) as [Hnaive | (preds' & Hok & Hlen & _)].
      * rewrite Hnaive in Hrun. injection Hrun as <-. apply length_np_full.
      * rewrite Hok in Hrun. injection Hrun as <-. exact Hlen.
Qed.

Lemma forecast_count_witness :
  let train := mkSeries (DatetimeIndex [19723%Z] (Some "D"%string)) [1] in
  exists r,
    ForecastService.forecast Sample.libraries train Sample.no_history "baseline" 2 "daily"
    = Ok r /\
    length (ForecastService.predictions r) = 2%nat.
Proof.
  intros train. eexists. split; [vm_compute; reflexivity|].
  apply (forecast_count Sample.libraries train Sample.no_history "baseline" 2 "daily").
  - left. reflexivity.
  - vm_compute. reflexivity.
Defined.
